(** * RPA.Desktop.Windows: a shallow embedding and its properties

    This development embeds the class [Windows] of
    [src/RPA/Desktop/Windows.py] and proves (or refutes) the properties its
    specification states about it.

    Modelling conventions.
    - A Python [str] is a [string]; a character is an [ascii], read as the
      code point of the same number.
    - A Python [dict] is a [gmap]; a session record of the registry is a
      [gmap string pyval], exactly as [_add_app_instance] builds it.
    - A method of [Windows] is a function in the monad [M]: it takes the
      object's state and returns a [result] (a value, or a raised exception)
      together with the state the call leaves behind.  Mutations made before
      an exception is raised are kept, as in Python.
    - Calls into the automation backend (pywinauto, win32com, the clipboard
      and screenshot helpers) and [delay] are recorded, in order, in the
      field [backend_calls] of the state.  A call made on a backend object is
      taken to return normally; only what Python itself decides (a method
      looked up on [None], a missing dictionary key, a comparison with
      [None], ...) raises inside the model.  Where a claim is about a
      backend failure ([__del__]) the outcome of the backend call is an
      explicit argument.
    - [logger] calls change neither state nor control flow and are left out,
      except in [__del__], whose property is about the log. *)

From Stdlib Require Import ZArith QArith Ascii.
From stdpp Require Import base option list gmap strings pretty sorting.

Open Scope Z_scope.

#[local] Set Warnings "-clear-no-such-hyp".

(** ** Python values and exceptions *)

(** The exception classes the module can meet, with Python's built-in
    hierarchy ([base] is the direct superclass). *)
Inductive exn_class :=
| BaseException | KeyboardInterrupt | Exception
| ArithmeticError | OverflowError
| AttributeError
| LookupError | KeyError
| OSError | FileExistsError
| RuntimeError | NotImplementedError | RecursionError
| TypeError | ValueError.

#[global] Instance exn_class_eq_dec : EqDecision exn_class.
Proof. solve_decision. Defined.

Definition base (c : exn_class) : option exn_class :=
  match c with
  | BaseException => None
  | KeyboardInterrupt => Some BaseException
  | Exception => Some BaseException
  | ArithmeticError => Some Exception
  | OverflowError => Some ArithmeticError
  | AttributeError => Some Exception
  | LookupError => Some Exception
  | KeyError => Some LookupError
  | OSError => Some Exception
  | FileExistsError => Some OSError
  | RuntimeError => Some Exception
  | NotImplementedError => Some RuntimeError
  | RecursionError => Some RuntimeError
  | TypeError => Some Exception
  | ValueError => Some Exception
  end.

(** [issubclass c d]: [d] is [c] or one of its ancestors.  The hierarchy
    above has depth four, so four steps up are enough. *)
Fixpoint issubclass_upto (n : nat) (c d : exn_class) : bool :=
  bool_decide (c = d) ||
  match n, base c with
  | S n', Some b => issubclass_upto n' b d
  | _, _ => false
  end.

Definition issubclass : exn_class → exn_class → bool := issubclass_upto 4.

(** A raised exception: its class and [str(err)]. *)
Record exn := Exn { exn_type : exn_class; exn_str : string }.

Inductive result (A : Type) :=
| Return (a : A)
| Raise (e : exn).
Arguments Return {A} a.
Arguments Raise {A} e.

(** The values stored in a session record and in the object's attributes.
    Backend objects are symbolic: they are named by the call that made
    them. *)
Inductive pyval :=
| VNone
| VBool (b : bool)
| VInt (z : Z)
| VStr (s : string)
| VDispatch (application : string)
    (* win32com.client.gencache.EnsureDispatch(f"{application}.Application") *)
| VStarted (executable : string)
    (* pywinauto.Application(backend="uia").start(executable) *)
| VConnected (window : pyval)
    (* pywinauto.Application(backend="uia").connect(handle=window.handle, ...) *)
| VWindow (title : pyval).
    (* pywinauto.Desktop(backend="uia")[title] *)

#[global] Instance pyval_eq_dec : EqDecision pyval.
Proof. solve_decision. Defined.

(** Python truthiness ([if v:]). *)
Definition truthy (v : pyval) : bool :=
  match v with
  | VNone => false
  | VBool b => b
  | VInt z => negb (z =? 0)
  | VStr s => negb (String.eqb s "")
  | VDispatch _ | VStarted _ | VConnected _ | VWindow _ => true
  end.

(** Whether [v] is an object of the backend (a method call on it reaches
    the backend) rather than a plain Python value. *)
Definition is_backend_object (v : pyval) : bool :=
  match v with
  | VDispatch _ | VStarted _ | VConnected _ | VWindow _ => true
  | _ => false
  end.

Definition type_name (v : pyval) : string :=
  match v with
  | VNone => "NoneType"
  | VBool _ => "bool"
  | VInt _ => "int"
  | VStr _ => "str"
  | VDispatch _ => "CDispatch"
  | VStarted _ | VConnected _ => "Application"
  | VWindow _ => "WindowSpecification"
  end.

(** ** Strings: [startswith], [split], [join] *)

Definition startswith (s tag : string) : bool := String.prefix tag s.

(** [s.split(sep)] for a non-empty [sep]: the pieces between the
    occurrences of [sep], found from left to right without overlap.  [skip]
    counts the characters of a found occurrence that are still to be passed
    over, [cur] is the piece being read, last character first. *)
Fixpoint split_go (sep : string) (skip : nat) (cur : string) (s : string)
  : list string :=
  match s with
  | EmptyString => [String.rev cur]
  | String c s' =>
      match skip with
      | S k => split_go sep k cur s'
      | O =>
          if String.prefix sep s
          then String.rev cur :: split_go sep (String.length sep - 1) "" s'
          else split_go sep 0 (String c cur) s'
      end
  end.

Definition split (s sep : string) : list string := split_go sep 0 "" s.

(** ["".join(pieces)] *)
Definition join_empty (pieces : list string) : string :=
  foldr String.append "" pieces.

(** ** Locator parser *)

(** [_determine_search_criteria(locator)] *)
Definition _determine_search_criteria (locator : string) : string * string :=
  if startswith locator "name:" then
    ("name", join_empty (drop 1 (split locator "name:")))
  else if startswith locator "class:" then
    ("class_name", join_empty (drop 1 (split locator "class:")))
  else if startswith locator "type:" then
    ("control_type", join_empty (drop 1 (split locator "type:")))
  else if startswith locator "id:" then
    ("automation_id", join_empty (drop 1 (split locator "id:")))
  else ("any", locator).

(** ** Element snapshots and matching *)

(** An element snapshot, as [get_element_attributes] builds it: attribute
    name to attribute text. *)
Abbreviation element := (gmap string string).

(** [is_element_matching(itemdict, locator, criteria)].  The method calls
    itself only from the ["any"] branch and only with the four field names,
    none of which is ["any"]; [depth] bounds that nesting and 1 is enough
    (see [is_element_matching_depth]). *)
Fixpoint is_element_matching_upto (depth : nat) (itemdict : element)
    (locator criteria : string) : bool :=
  if bool_decide (criteria ≠ "any") &&
     bool_decide (criteria ∈ dom itemdict) &&
     bool_decide (itemdict !! criteria = Some locator)
  then true
  else if bool_decide (criteria = "any") then
    match depth with
    | O => false
    | S d =>
        let name_search := is_element_matching_upto d itemdict locator "name" in
        let class_search := is_element_matching_upto d itemdict locator "class_name" in
        let type_search := is_element_matching_upto d itemdict locator "control_type" in
        let id_search := is_element_matching_upto d itemdict locator "automation_id" in
        if name_search || class_search || type_search || id_search
        then true else false
    end
  else false.

Definition is_element_matching : element → string → string → bool :=
  is_element_matching_upto 1.


(** ** Rectangle text *)

(** What the pattern of [get_element_coordinates],
    [\(L(\d+).*T(\d+).*R(\d+).*B(\d+)\)], needs of [re]: literal characters,
    greedy [\d+] with a capture, greedy [.*].  Each piece takes the match of
    the rest of the pattern as a continuation and tries its alternatives in
    the order of Python's backtracking matcher (longest repetition first),
    so the first success is the match [re.match] reports. *)
Section Regex.
Context {R : Type}.

Definition is_digit (c : ascii) : bool := bool_decide (is_Some (Ascii.is_nat c)).

Definition is_newline (c : ascii) : bool := Ascii.eqb c "010"%char.

(** a literal character *)
Definition re_char (c : ascii) (k : string → option R) (s : string) : option R :=
  match s with
  | String c' s' => if Ascii.eqb c c' then k s' else None
  | EmptyString => None
  end.

(** [.*]: any characters but a newline, as many as possible *)
Fixpoint re_dot_star (k : string → option R) (s : string) : option R :=
  match s with
  | String c s' =>
      if is_newline c then k s
      else match re_dot_star k s' with
           | Some r => Some r
           | None => k s
           end
  | EmptyString => k s
  end.

(** [(\d+)]: one or more digits, as many as possible; [seen] holds the
    digits already taken, and the continuation receives the capture *)
Fixpoint re_digits (k : string → string → option R) (seen : string) (s : string)
  : option R :=
  match s with
  | String c s' =>
      if is_digit c then
        match re_digits k (seen +:+ String c "") s' with
        | Some r => Some r
        | None => k (seen +:+ String c "") s'
        end
      else None
  | EmptyString => None
  end.

End Regex.

Arguments re_char {R} c%_char k s.

(** [re.match(r"\(L(\d+).*T(\d+).*R(\d+).*B(\d+)\)", rectangle)]: the four
    groups, or [None]. *)
Definition rectangle_match (rectangle : string)
  : option (string * string * string * string) :=
  re_char "(" (re_char "L" (re_digits (λ g1,
    re_dot_star (re_char "T" (re_digits (λ g2,
      re_dot_star (re_char "R" (re_digits (λ g3,
        re_dot_star (re_char "B" (re_digits (λ g4,
          re_char ")" (λ _, Some (g1, g2, g3, g4))) "")))
      "")))
    "")))
  "")) rectangle.

(** [int(s)] on a run of decimal digits (all that [\d+] can capture here). *)
Definition digit_value (c : ascii) : Z :=
  match Ascii.is_nat c with Some d => Z.of_nat d | None => 0 end.

Fixpoint int_go (acc : Z) (s : string) : Z :=
  match s with
  | EmptyString => acc
  | String c s' => int_go (10 * acc + digit_value c) s'
  end.

Definition int_of_digits (s : string) : Z := int_go 0 s.

(** [get_element_coordinates(rectangle)]: [re.match] returns [None] on a text
    the pattern does not match, and [.groups()] on it raises. *)
Definition get_element_coordinates (rectangle : string) : result (Z * Z * Z * Z) :=
  match rectangle_match rectangle with
  | Some (g1, g2, g3, g4) =>
      Return (int_of_digits g1, int_of_digits g2,
              int_of_digits g3, int_of_digits g4)
  | None =>
      Raise (Exn AttributeError "'NoneType' object has no attribute 'groups'")
  end.

(** ** [int(n / 2)] *)

(** [n / 2] on Python integers is the binary64 number nearest to the exact
    quotient (ties to even), or [OverflowError] when that is out of range.
    A float is kept as [(m, e)], standing for [m * 2^e]. *)
Definition float_mantissa_bits : Z := 53.
Definition float_max_exp : Z := 1024.

Definition truediv_2 (n : Z) : result (Z * Z) :=
  let a := Z.abs n in
  let bits := if a =? 0 then 0 else Z.log2 a + 1 in
  if bits <=? float_mantissa_bits then Return (n, -1)
  else
    let sh := bits - float_mantissa_bits in
    let q := Z.shiftr a sh in
    let r := a - Z.shiftl q sh in
    let half := Z.shiftl 1 (sh - 1) in
    let q' := if (half <? r) || ((half =? r) && Z.odd q) then q + 1 else q in
    if Z.shiftl 1 float_max_exp <=? Z.shiftl q' (sh - 1)
    then Raise (Exn OverflowError "integer division result too large for a float")
    else Return (Z.sgn n * q', sh - 1).

(** [int(x)] on a float: truncation toward zero. *)
Definition int_of_float (x : Z * Z) : Z :=
  let '(m, e) := x in
  if 0 <=? e then Z.shiftl m e else Z.quot m (Z.shiftl 1 (- e)).

Definition int_half (n : Z) : result Z :=
  match truediv_2 n with
  | Return x => Return (int_of_float x)
  | Raise e => Raise e
  end.

(** [get_element_center(itemdict)]; [l], [t], [r], [b] are the source's
    [left], [top], [right], [bottom]. *)
Definition get_element_center (itemdict : element) : result (Z * Z) :=
  match itemdict !! "rectangle" with
  | None => Raise (Exn KeyError "'rectangle'")
  | Some rectangle =>
      match get_element_coordinates rectangle with
      | Raise e => Raise e
      | Return (l, t, r, b) =>
          match int_half (r - l) with
          | Raise e => Raise e
          | Return hx =>
              let x := hx + l in
              match int_half (b - t) with
              | Raise e => Raise e
              | Return hy =>
                  let y := hy + t in
                  Return (x, y)
              end
          end
      end
  end.

(** ** The object's state, the backend, the monad *)

(** What [Images().take_screenshot] is asked to capture. *)
Inductive screenshot_region :=
| RegionOfElement (coordinates : Z * Z * Z * Z)
| RegionOfDialog (dlg : pyval).

(** The calls that leave the module, with their arguments.  [Com_put]
    is the assignment [obj.property = value] on a COM object;
    [Com_put_if_hasattr held obj property value] is that assignment under
    the guard [hasattr(held, property)], which the backend object [held]
    answers; [Makedirs_images] is [os.makedirs] on the directory [images]
    of the output directory, when it makes the directory. *)
Inductive backend_call :=
| EnsureDispatch (prog_id : string)
| Com_put (obj : pyval) (property : string) (value : pyval)
| Com_put_if_hasattr (held obj : pyval) (property : string) (value : pyval)
| Application_start (executable : string)
| Application_connect (handle : pyval)
| App_Quit (app : pyval)
| App_kill (app : pyval)
| Dlg_wait (dlg : pyval) (wait_for : string)
| Dlg_minimize (dlg : pyval)
| Dlg_restore (dlg : pyval)
| Dlg_draw_outline (dlg : pyval)
| Keyboard_send_keys (keys : string)
| LoadKeyboardLayout (klid : string) (flags : Z)
| Mouse_click (x y : Z)
| Mouse_double_click (x y : Z)
| Mouse_right_click (x y : Z)
| Makedirs_images
| Take_screenshot (filename : string) (region : screenshot_region)
| Clipboard_clear
| Delay (seconds : option Q).

(** The attributes [__init__] sets ([_backend], [logger] and [clipboard]
    never change and are left out), the backend calls made so far, and the
    records [__del__] sends to [logger.debug]. *)
Record Windows := mkWindows {
  _apps : gmap Z (gmap string pyval);
  _app_instance_id : Z;
  _active_app_instance : Z;
  app : pyval;
  dlg : pyval;
  windowtitle : pyval;
  backend_calls : list backend_call;
  debug_log : list string
}.

Definition __init__ : Windows :=
  {| _apps := ∅; _app_instance_id := 0; _active_app_instance := -1;
     app := VNone; dlg := VNone; windowtitle := VNone;
     backend_calls := []; debug_log := [] |}.

Definition set_apps (v : gmap Z (gmap string pyval)) (w : Windows) : Windows :=
  mkWindows v (_app_instance_id w) (_active_app_instance w) (app w) (dlg w)
            (windowtitle w) (backend_calls w) (debug_log w).
Definition set_app_instance_id (v : Z) (w : Windows) : Windows :=
  mkWindows (_apps w) v (_active_app_instance w) (app w) (dlg w)
            (windowtitle w) (backend_calls w) (debug_log w).
Definition set_active_app_instance (v : Z) (w : Windows) : Windows :=
  mkWindows (_apps w) (_app_instance_id w) v (app w) (dlg w)
            (windowtitle w) (backend_calls w) (debug_log w).
Definition set_app (v : pyval) (w : Windows) : Windows :=
  mkWindows (_apps w) (_app_instance_id w) (_active_app_instance w) v (dlg w)
            (windowtitle w) (backend_calls w) (debug_log w).
Definition set_dlg (v : pyval) (w : Windows) : Windows :=
  mkWindows (_apps w) (_app_instance_id w) (_active_app_instance w) (app w) v
            (windowtitle w) (backend_calls w) (debug_log w).
Definition set_windowtitle (v : pyval) (w : Windows) : Windows :=
  mkWindows (_apps w) (_app_instance_id w) (_active_app_instance w) (app w)
            (dlg w) v (backend_calls w) (debug_log w).
Definition add_backend_call (c : backend_call) (w : Windows) : Windows :=
  mkWindows (_apps w) (_app_instance_id w) (_active_app_instance w) (app w)
            (dlg w) (windowtitle w) (backend_calls w ++ [c]) (debug_log w).
Definition add_debug_log (msg : string) (w : Windows) : Windows :=
  mkWindows (_apps w) (_app_instance_id w) (_active_app_instance w) (app w)
            (dlg w) (windowtitle w) (backend_calls w) (debug_log w ++ [msg]).

(** A method body: from the state before to the outcome and the state after. *)
Definition M (A : Type) : Type := Windows → result A * Windows.

Definition ret {A} (a : A) : M A := λ w, (Return a, w).
Definition raise {A} (e : exn) : M A := λ w, (Raise e, w).
Definition bind {A B} (m : M A) (f : A → M B) : M B :=
  λ w, match m w with
       | (Return a, w') => f a w'
       | (Raise e, w') => (Raise e, w')
       end.
Definition read {A} (f : Windows → A) : M A := λ w, (Return (f w), w).
Definition update (f : Windows → Windows) : M unit := λ w, (Return tt, f w).
Definition call (c : backend_call) : M unit := update (add_backend_call c).
Definition lift {A} (r : result A) : M A := λ w, (r, w).

#[global] Instance M_ret : MRet M := @ret.
#[global] Instance M_bind : MBind M := λ A B f m, bind m f.
#[global] Instance M_fmap : FMap M := λ A B f m, bind m (λ a, ret (f a)).

(** [repr(v)], as a [KeyError] shows the key it did not find. *)
Definition repr (v : pyval) : string :=
  match v with
  | VNone => "None"
  | VBool b => if b then "True" else "False"
  | VInt z => pretty z
  | VStr s => "'" +:+ s +:+ "'"
  | _ => "<" +:+ type_name v +:+ " object>"
  end.

(** The key of [_apps] a value denotes: an integer, or a boolean
    ([True == 1], [False == 0]); no other value equals a key of [_apps]. *)
Definition as_key (v : pyval) : option Z :=
  match v with
  | VInt z => Some z
  | VBool b => Some (if b then 1 else 0)
  | _ => None
  end.

(** [d[key]] on a session record *)
Definition getitem (d : gmap string pyval) (key : string) : M pyval :=
  match d !! key with
  | Some v => ret v
  | None => raise (Exn KeyError (repr (VStr key)))
  end.

(** [self._apps[key]] *)
Definition apps_getitem (key : pyval) : M (gmap string pyval) :=
  apps ← read _apps;
  match as_key key ≫= (λ k, apps !! k) with
  | Some rec => ret rec
  | None => raise (Exn KeyError (repr key))
  end.

(** [self._apps[key][field] = v] *)
Definition apps_setitem (key : pyval) (field : string) (v : pyval) : M unit :=
  rec ← apps_getitem key;
  match as_key key with
  | Some k => update (λ w, set_apps (<[k := <[field := v]> rec]> (_apps w)) w)
  | None => ret tt
  end.

(** Whether calling the method [name] on [obj] reaches the backend.
    [Quit] is a method of the COM application object, not of a pywinauto
    [Application] or window; [kill] is a method of the pywinauto
    [Application], not of a COM object or a window.  The other methods the
    module calls ([wait], [minimize], [restore], [draw_outline]) are called
    on [self.dlg] only, which holds [None] or a window of the backend
    ([run_dlg_is_window]); they are granted to every backend object.  A
    plain value has none of them. *)
Definition has_method (obj : pyval) (name : string) : bool :=
  if String.eqb name "Quit" then
    match obj with VDispatch _ => true | _ => false end
  else if String.eqb name "kill" then
    match obj with VStarted _ | VConnected _ => true | _ => false end
  else is_backend_object obj.

(** The method [name] called on [obj]: it reaches the backend when [obj]
    has the method, and raises [AttributeError] otherwise.  The text of the
    error is Python's for a plain value; for a backend object that lacks
    the method it is the library's, and only its class is modelled. *)
Definition call_method (obj : pyval) (name : string) (c : backend_call) : M unit :=
  if has_method obj name then call c
  else raise (Exn AttributeError
    ("'" +:+ type_name obj +:+ "' object has no attribute '" +:+ name +:+ "'")).

(** [delay(seconds)] of [RPA.core.utils]; [None] is the call without
    argument. *)
Definition delay (seconds : option Q) : M unit := call (Delay seconds).

(** ** Session lifecycle *)

(** [connect_by_handle(handle)] *)
Definition connect_by_handle (handle : pyval) : M unit :=
  call (Application_connect handle);;
  update (set_app (VConnected handle));;
  active ← read _active_app_instance;
  app_ ← read app;
  apps_setitem (VInt active) "app" app_.

(** [obj.handle] *)
Definition handle_of (obj : pyval) : M pyval :=
  if is_backend_object obj then ret obj
  else raise (Exn AttributeError
    ("'" +:+ type_name obj +:+ "' object has no attribute 'handle'")).

(** [open_dialog(windowtitle, highlight)] *)
Definition open_dialog (windowtitle_ : pyval) (highlight : bool) : M unit :=
  windowtitle_ ←
    (if truthy windowtitle_
     then update (set_windowtitle windowtitle_);; ret windowtitle_
     else read windowtitle);
  update (set_dlg (VWindow windowtitle_));;
  active ← read _active_app_instance;
  dlg_ ← read dlg;
  apps_setitem (VInt active) "dlg" dlg_;;
  rec ← apps_getitem (VInt active);
  app_ ← getitem rec "app";
  (if bool_decide (app_ = VNone)
   then dlg_ ← read dlg; handle ← handle_of dlg_; connect_by_handle handle
   else ret tt);;
  if highlight
  then dlg_ ← read dlg; call_method dlg_ "draw_outline" (Dlg_draw_outline dlg_)
  else ret tt.

(** [minimize_dialog(windowtitle)] *)
Definition minimize_dialog (windowtitle_ : pyval) : M unit :=
  update (set_dlg (VWindow windowtitle_));;
  dlg_ ← read dlg;
  call_method dlg_ "minimize" (Dlg_minimize dlg_).

(** [restore_dialog(windowtitle)] *)
Definition restore_dialog (windowtitle_ : pyval) : M unit :=
  update (set_dlg (VWindow windowtitle_));;
  dlg_ ← read dlg;
  call_method dlg_ "restore" (Dlg_restore dlg_).

(** [_add_app_instance(app, dialog, params)]; [params] is [None] or a
    dictionary. *)
Definition _add_app_instance (app_ : pyval) (dialog : bool)
    (params : option (gmap string pyval)) : M Z :=
  update (λ w, set_app_instance_id (_app_instance_id w + 1) w);;
  app_ ←
    (if bool_decide (app_ = VNone)
     then read app
     else update (set_app app_);; ret app_);
  id ← read _app_instance_id;
  let default_params : gmap string pyval :=
    {[ "app" := app_; "id" := VInt id; "dispatched" := VBool false ]} in
  (match params with
   | Some params_ =>
       if bool_decide (params_ ≠ ∅)
       then update (λ w, set_apps (<[id := params_ ∪ default_params]> (_apps w)) w)
       else update (λ w, set_apps (<[id := default_params]> (_apps w)) w)
   | None => update (λ w, set_apps (<[id := default_params]> (_apps w)) w)
   end);;
  update (set_active_app_instance id);;
  (if dialog
   then rec ← apps_getitem (VInt id);
        open_dialog (default VNone (rec !! "windowtitle")) false
   else ret tt);;
  read _active_app_instance.

(** [get_app(app_id)] *)
Definition get_app (app_id : option Z) : M (gmap string pyval) :=
  active ← read _active_app_instance;
  if bool_decide (app_id = None) && bool_decide (active ≠ -1)
  then apps_getitem (VInt active)
  else apps_getitem (from_option VInt VNone app_id).

(** [switch_to_application(app_id)].  [app] is the record as [get_app]
    returns it; [open_dialog] writes the keys ["dlg"] and ["app"] of that
    record, so the two later reads of ["windowtitle"] see what [app_] holds. *)
Definition switch_to_application (app_id : Z) : M unit :=
  apps ← read _apps;
  if negb (app_id =? 0) && bool_decide (app_id ∈ dom apps)
  then
    app_ ← get_app (Some app_id);
    update (set_active_app_instance app_id);;
    a ← getitem app_ "app";
    update (set_app a);;
    title ← getitem app_ "windowtitle";
    open_dialog title false;;
    delay (Some (1 # 2)%Q);;
    title ← getitem app_ "windowtitle";
    restore_dialog title
  else
    raise (Exn ValueError
      ("No open application with id '" +:+ pretty app_id +:+ "'")).

(** [quit(app_id)] *)
Definition quit (app_id : option Z) : M unit :=
  app_ ← get_app app_id;
  app_id_to_quit ← getitem app_ "id";
  dispatched ← getitem app_ "dispatched";
  (if truthy dispatched
   then a ← getitem app_ "app"; call_method a "Quit" (App_Quit a)
   else a ← getitem app_ "app"; call_method a "kill" (App_kill a));;
  apps_setitem app_id_to_quit "app" VNone;;
  update (set_active_app_instance (-1)).

(** [for aid in application_ids: self.quit(aid)] *)
Fixpoint quit_each (application_ids : list Z) : M unit :=
  match application_ids with
  | [] => ret tt
  | aid :: rest => quit (Some aid);; quit_each rest
  end.

(** [close_all_applications()].  A dictionary yields its keys in the order
    they were inserted; [_add_app_instance], the only place that inserts,
    does so with ever larger keys, so that order is the increasing one. *)
Definition close_all_applications : M unit :=
  apps ← read _apps;
  quit_each (merge_sort Z.le (elements (dom apps))).

(** ** Keyboard *)

(** [send_keys(keys)] *)
Definition send_keys (keys : string) : M unit := call (Keyboard_send_keys keys).

(** [send_keys_to_input(keys_to_type, with_enter, send_delay, enter_delay)],
    on the Windows platform (the only one where the backend is loaded). *)
Definition send_keys_to_input (keys_to_type : string) (with_enter : bool)
    (send_delay enter_delay : Q) : M unit :=
  call (LoadKeyboardLayout "00000409" 1);;
  send_keys keys_to_type;;
  delay (Some send_delay);;
  if with_enter
  then send_keys "{ENTER}";; delay (Some enter_delay)
  else ret tt.

(** ** The four ways to open an application *)

(** [open_application(application)].  [app.Visible = True] is written to
    the new COM object; [app.DisplayAlerts = False] is written to it under
    the guard [hasattr(self.app, "DisplayAlerts")], asked of the object held
    before the call: a plain value ([None] on a fresh object) has no such
    attribute, a backend object answers for itself. *)
Definition open_application (application : string) : M Z :=
  call (EnsureDispatch (application +:+ ".Application"));;
  let app_ := VDispatch application in
  call (Com_put app_ "Visible" (VBool true));;
  held ← read app;
  (if is_backend_object held
   then call (Com_put_if_hasattr held app_ "DisplayAlerts" (VBool false))
   else ret tt);;
  _add_app_instance app_ false (Some {[ "dispatched" := VBool true ]}).

(** [open_executable(executable, windowtitle)] *)
Definition open_executable (executable windowtitle_ : string) : M Z :=
  let params : gmap string pyval :=
    {[ "executable" := VStr executable; "windowtitle" := VStr windowtitle_ ]} in
  update (set_windowtitle (VStr windowtitle_));;
  call (Application_start executable);;
  _add_app_instance (VStarted executable) true (Some params).

(** [open_using_run_dialog(executable, windowtitle)] *)
Definition open_using_run_dialog (executable windowtitle_ : string) : M Z :=
  send_keys "{VK_LWIN down}r{VK_LWIN up}";;
  delay (Some 1%Q);;
  send_keys_to_input executable true 1%Q (7 # 2)%Q;;
  let params : gmap string pyval :=
    {[ "windowtitle" := VStr windowtitle_; "executable" := VStr executable ]} in
  _add_app_instance VNone true (Some params).

(** [open_from_search(executable, windowtitle)] *)
Definition open_from_search (executable windowtitle_ : string) : M Z :=
  send_keys "{LWIN}";;
  delay (Some 1%Q);;
  send_keys_to_input executable true 1%Q (7 # 2)%Q;;
  let params : gmap string pyval :=
    {[ "windowtitle" := VStr windowtitle_; "executable" := VStr executable ]} in
  _add_app_instance VNone true (Some params).

(** ** Mouse *)

(** [v < 0] on a coordinate that may be [None] *)
Definition lt_0 (v : option Z) : M bool :=
  match v with
  | Some z => ret (z <? 0)
  | None => raise (Exn TypeError
      "'<' not supported between instances of 'NoneType' and 'int'")
  end.

(** [click_type(x, y, click_type)].  The message of the [ValueError] is not
    an f-string: it holds the braces as written.  Once the guard has let the
    call through, [x] and [y] were both compared with [0] and are numbers. *)
Definition click_type (x y : option Z) (click_type_ : string) : M unit :=
  invalid ←
    (if bool_decide (x = None) && bool_decide (y = None) then ret true
     else x_negative ← lt_0 x;
          if (x_negative : bool) then ret true else lt_0 y);
  if (invalid : bool)
  then raise (Exn ValueError "Can't click on given coordinates: ({x}, {y})")
  else
    match x, y with
    | Some x, Some y =>
        if String.eqb click_type_ "click" then call (Mouse_click x y)
        else if String.eqb click_type_ "double" then call (Mouse_double_click x y)
        else if String.eqb click_type_ "right" then call (Mouse_right_click x y)
        else ret tt
    | _, _ => ret tt
    end.

(** [mouse_click_coords(x, y, ctype)] *)
Definition mouse_click_coords (x y : option Z) (ctype : string) : M unit :=
  click_type x y ctype;;
  delay None.

(** ** Element finder and locator click *)

(** [find_element(locator, search_criteria)]; [elements] is the list of
    snapshots [get_window_elements()] returns for the current dialog.  The
    result holds the matching elements and the suggestion locators, both in
    the order of [elements]. *)
Fixpoint find_element (elements : list element) (locator search_criteria : string)
  : list element * list string :=
  match elements with
  | [] => ([], [])
  | element_ :: rest =>
      let '(matching_elements, locators) :=
        find_element rest locator search_criteria in
      (if is_element_matching element_ locator search_criteria
       then element_ :: matching_elements else matching_elements,
       match (if String.eqb search_criteria "any"
              then element_ !! "name" else None) with
       | Some name => name :: locators
       | None =>
           if negb (String.eqb search_criteria "")
           then match element_ !! search_criteria with
                | Some v => v :: locators
                | None => locators
                end
           else locators
       end)
  end.

(** Whether the directory [images] of the output directory is there:
    [os.makedirs] made it in an earlier call.  A state whose calls hold
    [Makedirs_images] stands for every state in which the directory
    exists, whoever made it. *)
Definition is_makedirs (c : backend_call) : bool :=
  match c with
  | Makedirs_images => true
  | _ => false
  end.

Definition images_dir_exists (w : Windows) : bool :=
  existsb is_makedirs (backend_calls w).

(** What [os.makedirs] raises on a directory that is there; the path is
    shown from the output directory on. *)
Definition images_dir_is_there : exn :=
  Exn FileExistsError
    "[WinError 183] Cannot create a file when that file already exists: 'images'".

(** [os.makedirs(filename.parent)], without [exist_ok]: the parent of the
    file is [<output_dir>/images] whatever the file name is, since
    [clean_filename] leaves no path separator in it. *)
Definition makedirs_images : M unit :=
  there ← read images_dir_exists;
  if (there : bool) then raise images_dir_is_there else call Makedirs_images.

(** [screenshot(filename, element=element)]: the region is the element's
    rectangle, or the dialog's when the snapshot is empty.  The file name is
    recorded before [clean_filename]; looking up the output directory and
    [take_screenshot] are taken to return. *)
Definition screenshot (filename : string) (element_ : element) : M unit :=
  region ←
    (if bool_decide (element_ ≠ ∅)
     then
       match element_ !! "rectangle" with
       | Some rectangle =>
           coordinates ← lift (get_element_coordinates rectangle);
           ret (RegionOfElement coordinates)
       | None => raise (Exn KeyError (repr (VStr "rectangle")))
       end
     else
       dlg_ ← read dlg;
       if is_backend_object dlg_ then ret (RegionOfDialog dlg_)
       else raise (Exn AttributeError
         ("'" +:+ type_name dlg_ +:+ "' object has no attribute 'element_info'")));
  makedirs_images;;
  call (Take_screenshot filename region).

(** [mouse_click_locator(locator, off_x, off_y, ctype, screenshot)], with the
    snapshots [elements] that the backend reports for the dialog.  The
    suggestion list is only written to the log. *)
Definition mouse_click_locator (elements : list element) (locator : string)
    (off_x off_y : Z) (ctype : string) (screenshot_ : bool) : M bool :=
  dlg_ ← read dlg;
  call_method dlg_ "wait" (Dlg_wait dlg_ "exists enabled visible ready");;
  title ← read windowtitle;
  open_dialog title false;;
  let '(search_criteria, locator) := _determine_search_criteria locator in
  let '(matching_elements, locators) :=
    find_element elements locator search_criteria in
  match matching_elements with
  | [] => ret false
  | [element_] =>
      (if screenshot_
       then screenshot ("locator_" +:+ locator) element_
       else ret tt);;
      '(x, y) ← lift (get_element_center element_);
      click_type (Some (x + off_x)) (Some (y + off_y)) ctype;;
      delay None;;
      ret true
  | _ :: _ :: _ => ret false
  end.

(** [mouse_click_ocr] and [mouse_click_image] *)
Definition mouse_click_ocr : M unit := raise (Exn NotImplementedError "").
Definition mouse_click_image : M unit := raise (Exn NotImplementedError "").

(** [mouse_click(locator, x, y, off_x, off_y, image, ocr, method, ctype,
    screenshot)]; what the chosen method returns is dropped. *)
Definition mouse_click (elements : list element) (locator : string)
    (x y : option Z) (off_x off_y : Z) (method ctype : string)
    (screenshot_ : bool) : M unit :=
  if String.eqb method "locator" then
    mouse_click_locator elements locator off_x off_y ctype screenshot_;; ret tt
  else if String.eqb method "coordinates" then mouse_click_coords x y ctype
  else if String.eqb method "image" then mouse_click_image
  else if String.eqb method "ocr" then mouse_click_ocr
  else ret tt.

(** ** Teardown *)

(** [__del__()]; [clear_clipboard] is what [self.clipboard.clear_clipboard()]
    does: return, or raise.  [except RuntimeError] catches the instances of
    [RuntimeError] and of its subclasses. *)
Definition __del__ (clear_clipboard : result unit) : M unit :=
  call Clipboard_clear;;
  match clear_clipboard with
  | Return _ => ret tt
  | Raise err =>
      if issubclass (exn_type err) RuntimeError
      then update (add_debug_log ("Failed to clear clipboard: " +:+ exn_str err))
      else raise err
  end.

(** ** Call sequences *)

(** A call to the object together with what the backend answers. *)
Inductive method_call :=
| Call_add_app_instance (app_ : pyval) (dialog : bool)
    (params : option (gmap string pyval))
| Call_open_application (application : string)
| Call_open_executable (executable windowtitle_ : string)
| Call_open_using_run_dialog (executable windowtitle_ : string)
| Call_open_from_search (executable windowtitle_ : string)
| Call_switch_to_application (app_id : Z)
| Call_quit (app_id : option Z)
| Call_close_all_applications
| Call_open_dialog (windowtitle_ : pyval) (highlight : bool)
| Call_minimize_dialog (windowtitle_ : pyval)
| Call_restore_dialog (windowtitle_ : pyval)
| Call_connect_by_handle (handle : pyval)
| Call_send_keys (keys : string)
| Call_send_keys_to_input (keys : string) (with_enter : bool)
    (send_delay enter_delay : Q)
| Call_mouse_click (elements : list element) (locator : string)
    (x y : option Z) (off_x off_y : Z) (method ctype : string)
    (screenshot_ : bool).

(** The instance id the call hands back, if it is one of the five that
    register a session. *)
Definition exec (c : method_call) : M (option Z) :=
  match c with
  | Call_add_app_instance a d p => Some <$> _add_app_instance a d p
  | Call_open_application a => Some <$> open_application a
  | Call_open_executable e t => Some <$> open_executable e t
  | Call_open_using_run_dialog e t => Some <$> open_using_run_dialog e t
  | Call_open_from_search e t => Some <$> open_from_search e t
  | Call_switch_to_application i => switch_to_application i;; ret None
  | Call_quit i => quit i;; ret None
  | Call_close_all_applications => close_all_applications;; ret None
  | Call_open_dialog t h => open_dialog t h;; ret None
  | Call_minimize_dialog t => minimize_dialog t;; ret None
  | Call_restore_dialog t => restore_dialog t;; ret None
  | Call_connect_by_handle h => connect_by_handle h;; ret None
  | Call_send_keys k => send_keys k;; ret None
  | Call_send_keys_to_input k e s d => send_keys_to_input k e s d;; ret None
  | Call_mouse_click es l x y ox oy m ct sc =>
      mouse_click es l x y ox oy m ct sc;; ret None
  end.

(** The calls [cs] made one after the other on [w], whatever each one
    raises: the instance ids handed out, in order, and the final state. *)
Fixpoint run (cs : list method_call) (w : Windows) : list Z * Windows :=
  match cs with
  | [] => ([], w)
  | c :: rest =>
      let '(r, w') := exec c w in
      let '(ids, w'') := run rest w' in
      (match r with Return (Some id) => id :: ids | _ => ids end, w'')
  end.

(** The backend clicks among the calls made. *)
Definition is_click (c : backend_call) : bool :=
  match c with
  | Mouse_click _ _ | Mouse_double_click _ _ | Mouse_right_click _ _ => true
  | _ => false
  end.

Definition clicks (w : Windows) : list backend_call :=
  filter is_click (backend_calls w).

(** The click [click_type] makes for a documented click type. *)
Definition click_of (ctype : string) (x y : Z) : option backend_call :=
  if String.eqb ctype "click" then Some (Mouse_click x y)
  else if String.eqb ctype "double" then Some (Mouse_double_click x y)
  else if String.eqb ctype "right" then Some (Mouse_right_click x y)
  else None.

(** ** Vocabulary of the properties *)

(** Whether [sep] occurs somewhere in [s]. *)
Fixpoint contains (sep s : string) : bool :=
  String.prefix sep s ||
  match s with
  | EmptyString => false
  | String _ s' => contains sep s'
  end.

(** [s] without [tag] in front, when it starts with [tag]. *)
Fixpoint strip_prefix (tag s : string) : option string :=
  match tag, s with
  | EmptyString, _ => Some s
  | String a tag', String b s' =>
      if Ascii.eqb a b then strip_prefix tag' s' else None
  | String _ _, EmptyString => None
  end.

(** The locator as the specification reads it (4.2 and 8): one of the four
    tags in front names the criterion and is taken off once, the rest is the
    value as it stands; any other locator is the value itself under
    [any].  Written from the specification, to be compared with
    [_determine_search_criteria]. *)
Definition spec_parse (locator : string) : string * string :=
  match strip_prefix "name:" locator, strip_prefix "class:" locator,
        strip_prefix "type:" locator, strip_prefix "id:" locator with
  | Some value, _, _, _ => ("name", value)
  | None, Some value, _, _ => ("class_name", value)
  | None, None, Some value, _ => ("control_type", value)
  | None, None, None, Some value => ("automation_id", value)
  | None, None, None, None => ("any", locator)
  end.

(** Whether the tag of the locator occurs again in the value behind it. *)
Definition tag_repeats (locator : string) : bool :=
  match strip_prefix "name:" locator, strip_prefix "class:" locator,
        strip_prefix "type:" locator, strip_prefix "id:" locator with
  | Some value, _, _, _ => contains "name:" value
  | None, Some value, _, _ => contains "class:" value
  | None, None, Some value, _ => contains "type:" value
  | None, None, None, Some value => contains "id:" value
  | None, None, None, None => false
  end.

(** An element matching the locator, as the specification has it (4.3):
    under [any] the value equals the element's name, class name, control
    type or automation id; under another criterion it equals the field the
    criterion names. *)
Definition spec_matches (locator : string) (e : element) : bool :=
  let '(criterion, value) := spec_parse locator in
  if String.eqb criterion "any"
  then bool_decide (e !! "name" = Some value)
       || bool_decide (e !! "class_name" = Some value)
       || bool_decide (e !! "control_type" = Some value)
       || bool_decide (e !! "automation_id" = Some value)
  else bool_decide (e !! criterion = Some value).

(** What the code tests an element with: the criterion and the value its
    own parser returns.  It follows the code; the properties are stated
    with [spec_matches]. *)
Definition matches_as_parsed (locator : string) (e : element) : bool :=
  is_element_matching e (_determine_search_criteria locator).2
                        (_determine_search_criteria locator).1.

(** The method [quit] calls on the handle of a record whose dispatch flag
    is [d]. *)
Definition terminate_method (d : pyval) : string :=
  if truthy d then "Quit" else "kill".

(** What is left of [mouse_click_locator] once a single element is found. *)
Definition click_single_match (value : string) (e : element) (off_x off_y : Z)
    (ctype : string) (screenshot_ : bool) : M bool :=
  (if screenshot_ then screenshot ("locator_" +:+ value) e else ret tt);;
  '(x, y) ← lift (get_element_center e);
  click_type (Some (x + off_x)) (Some (y + off_y)) ctype;;
  delay None;;
  ret true.

(** A non-empty run of decimal digits. *)
Fixpoint all_digits (s : string) : bool :=
  match s with
  | EmptyString => true
  | String c s' => is_digit c && all_digits s'
  end.

Definition digit_run (s : string) : bool :=
  negb (String.eqb s "") && all_digits s.

(** Whether the character [c] occurs in [s]. *)
Fixpoint occurs (c : ascii) (s : string) : bool :=
  match s with
  | EmptyString => false
  | String c' s' => Ascii.eqb c c' || occurs c s'
  end.

(** The text of a rectangle, [(L<left>, T<top>, R<right>, B<bottom>)]. *)
Definition rectangle_text (left_ top_ right_ bottom_ : string) : string :=
  "(L" +:+ left_ +:+ ", T" +:+ top_ +:+ ", R" +:+ right_ +:+ ", B" +:+ bottom_ +:+ ")".

(** The two exceptions the guard of [click_type] can end in. *)
Definition cannot_click : exn :=
  Exn ValueError "Can't click on given coordinates: ({x}, {y})".

Definition none_lt_int : exn :=
  Exn TypeError "'<' not supported between instances of 'NoneType' and 'int'".

(** The active pointer is -1 or a registered id, and no registered id is
    above the counter. *)
Definition registry_ok (w : Windows) : Prop :=
  (_active_app_instance w = -1 ∨ is_Some (_apps w !! _active_app_instance w)) ∧
  (∀ k, is_Some (_apps w !! k) → k ≤ _app_instance_id w).

(** From [w0] to [w] the registry stays well formed, the counter does not
    go down and no id leaves the registry. *)
Definition grows (w0 w : Windows) : Prop :=
  registry_ok w ∧
  _app_instance_id w0 ≤ _app_instance_id w ∧
  (∀ k, is_Some (_apps w0 !! k) → is_Some (_apps w !! k)).

(** A method body that keeps [grows], whether it returns or raises. *)
Definition ok {A} (m : M A) : Prop := ∀ w0 w, grows w0 w → grows w0 (m w).2.

(** The part of the state [grows] reads. *)
Definition same_registry (w w' : Windows) : Prop :=
  _apps w' = _apps w ∧
  _app_instance_id w' = _app_instance_id w ∧
  _active_app_instance w' = _active_app_instance w.

(** Unfolds the monad so that a method applied to a state computes. *)
Ltac run_method :=
  repeat (cbn -[Z.add Z.sub Z.ltb Z.leb Z.eqb pretty String.append] in *;
          unfold mbind, M_bind, fmap, M_fmap, bind, ret, raise, read, update,
                 call, lift, delay in *).

(** ** Vocabulary of the further properties *)

(** A run of digits with a minus sign in front, and a run with or without. *)
Definition negative_run (s : string) : bool :=
  match s with
  | String c d => Ascii.eqb c "-" && digit_run d
  | EmptyString => false
  end.

Definition signed_run (s : string) : bool := digit_run s || negative_run s.

(** A record as [_add_app_instance] stores it under [k], whose handle has
    the method [quit] calls under its flag: a COM application object with a
    true flag, a pywinauto [Application] with a false one. *)
Definition live_session (k : Z) (rec : gmap string pyval) : Prop :=
  rec !! "id" = Some (VInt k) ∧
  ∃ d a, rec !! "dispatched" = Some d ∧ rec !! "app" = Some a ∧
         has_method a (terminate_method d) = true.

(** The backend call that ends the session of a record. *)
Definition terminate_call (rec : gmap string pyval) : option backend_call :=
  d ← rec !! "dispatched";
  a ← rec !! "app";
  Some (if truthy d then App_Quit a else App_kill a).

(** The record after [quit]. *)
Definition clear_handle (rec : gmap string pyval) : gmap string pyval :=
  <["app" := VNone]> rec.

(** A record whose session [quit] cannot end: its handle lacks the method
    called under its flag, because it was cleared by an earlier [quit]
    ([None]) or is of the other kind. *)
Definition stuck_session (rec : gmap string pyval) : Prop :=
  is_Some (rec !! "id") ∧
  ∃ d a, rec !! "dispatched" = Some d ∧ rec !! "app" = Some a ∧
         has_method a (terminate_method d) = false.

(** The title [open_dialog] works with: the one given, or the stored one
    when the one given is empty or [None]. *)
Definition dialog_title (title : pyval) (w : Windows) : pyval :=
  if truthy title then title else windowtitle w.

(** The state [open_dialog] leaves when the active session is registered
    with the record [rec], whose handle is [a]. *)
Definition after_open_dialog (title : pyval) (highlight : bool)
    (rec : gmap string pyval) (a : pyval) (w : Windows) : Windows :=
  let d := VWindow (dialog_title title w) in
  let connect := bool_decide (a = VNone) in
  mkWindows
    (<[_active_app_instance w :=
         if connect then <["app" := VConnected d]> (<["dlg" := d]> rec)
         else <["dlg" := d]> rec]> (_apps w))
    (_app_instance_id w) (_active_app_instance w)
    (if connect then VConnected d else app w)
    d (dialog_title title w)
    (backend_calls w ++ (if connect then [Application_connect d] else [])
                     ++ (if highlight then [Dlg_draw_outline d] else []))
    (debug_log w).

(** The record [_add_app_instance] builds from [params]. *)
Definition merged_record (id : Z) (a : pyval)
    (params : option (gmap string pyval)) : gmap string pyval :=
  let default_params : gmap string pyval :=
    {[ "app" := a; "id" := VInt id; "dispatched" := VBool false ]} in
  match params with
  | Some params_ =>
      if bool_decide (params_ ≠ ∅) then params_ ∪ default_params
      else default_params
  | None => default_params
  end.

(** The state of [_add_app_instance] when the record is stored and made
    active, before the dialog is looked at. *)
Definition registered (id : Z) (a : pyval) (rec : gmap string pyval)
    (w : Windows) : Windows :=
  set_active_app_instance id
    (set_apps (<[id := rec]> (_apps w)) (set_app a (set_app_instance_id id w))).

(** The keystrokes [send_keys_to_input(executable)] sends with its default
    arguments, after the key that opens the run dialog or the search. *)
Definition typed_command (first_key executable : string) : list backend_call :=
  [Keyboard_send_keys first_key; Delay (Some 1%Q);
   LoadKeyboardLayout "00000409" 1; Keyboard_send_keys executable;
   Delay (Some 1%Q); Keyboard_send_keys "{ENTER}"; Delay (Some (7 # 2)%Q)].

(** The object after [open_using_run_dialog] or [open_from_search] typed
    [executable] behind [first_key]. *)
Definition opened_by_typing (first_key executable title : string)
    (w : Windows) : Windows :=
  let id := _app_instance_id w + 1 in
  let d := VWindow (dialog_title (VStr title) w) in
  let connect := bool_decide (app w = VNone) in
  let a := if connect then VConnected d else app w in
  mkWindows
    (<[id := {[ "app" := a; "id" := VInt id; "dispatched" := VBool false;
                "executable" := VStr executable;
                "windowtitle" := VStr title; "dlg" := d ]}]> (_apps w))
    id id a d (dialog_title (VStr title) w)
    (backend_calls w ++ typed_command first_key executable
     ++ (if connect then [Application_connect d] else []))
    (debug_log w).

(** A method body that adds no click to the backend calls, whether it
    returns or raises. *)
Definition quiet {A} (m : M A) : Prop := ∀ w, clicks (m w).2 = clicks w.

(** Closes a case in which the call [out] came back without a click. *)
Ltac stopped out :=
  subst out; unfold mbind, M_bind, bind, raise, ret; cbn [fst snd];
  split; [|split]; [by intros ? | by intros ? | by intros err _].

(** What an [app] attribute holds: [None] or an application object of the
    backend. *)
Definition is_handle (a : pyval) : bool :=
  bool_decide (a = VNone) || is_backend_object a.

(** The record of session [k]: its own id, the dispatch flag, a handle. *)
Definition session_record (k : Z) (rec : gmap string pyval) : Prop :=
  rec !! "id" = Some (VInt k) ∧
  (∃ b, rec !! "dispatched" = Some (VBool b)) ∧
  (∃ a, rec !! "app" = Some a ∧ is_handle a = true).

(** The registry holds the ids 1 to the counter, each with a session
    record; the active pointer is -1 or one of them. *)
Definition sessions_ok (w : Windows) : Prop :=
  0 ≤ _app_instance_id w ∧
  (∀ k, is_Some (_apps w !! k) ↔ 1 ≤ k ≤ _app_instance_id w) ∧
  (∀ k rec, _apps w !! k = Some rec → session_record k rec) ∧
  is_handle (app w) = true ∧
  (_active_app_instance w = -1 ∨
   1 ≤ _active_app_instance w ≤ _app_instance_id w).

(** The calls of the public interface. *)
Definition public (c : method_call) : bool :=
  match c with
  | Call_add_app_instance _ _ _ => false
  | _ => true
  end.

(** A method body that keeps [sessions_ok], whether it returns or raises,
    and returns values in [P] only. *)
Definition keeps {A} (m : M A) (P : A → Prop) : Prop :=
  ∀ w, sessions_ok w →
    sessions_ok (m w).2 ∧ ∀ a, (m w).1 = Return a → P a.

(** No condition on the value returned. *)
Definition any_value {A} : A → Prop := λ _, True.

(** The parameters the public methods register a session with: they name
    neither the id nor the handle, and a dispatch flag that is a boolean. *)
Definition public_params (params : option (gmap string pyval)) : Prop :=
  ∀ p, params = Some p →
    p !! "id" = None ∧ p !! "app" = None ∧
    (p !! "dispatched" = None ∨ ∃ b, p !! "dispatched" = Some (VBool b)).

(** The tag that stands for a criterion in a locator. *)
Definition tag_of (criteria : string) : option string :=
  if String.eqb criteria "name" then Some "name:"
  else if String.eqb criteria "class_name" then Some "class:"
  else if String.eqb criteria "control_type" then Some "type:"
  else if String.eqb criteria "automation_id" then Some "id:"
  else None.

(** Whether [self.dlg] holds [None] or a window of the backend. *)
Definition dlg_is_window (w : Windows) : Prop :=
  match dlg w with
  | VNone | VWindow _ => True
  | _ => False
  end.

(** A method body that keeps [dlg_is_window], whether it returns or
    raises. *)
Definition keeps_dlg {A} (m : M A) : Prop :=
  ∀ w, dlg_is_window w → dlg_is_window (m w).2.

(** * Properties *)

(** ** Locator parser *)

(** C2, the failing input: the locator of the element named [File name:]
    (the label of the edit box of a file dialog) loses the second [name:];
    the value searched for is [File ], not [File name:]. *)
Theorem determine_search_criteria_strips_every_tag :
  _determine_search_criteria "name:File name:" = ("name", "File ").
Proof. reflexivity. Qed.

(** The same defect with the tag [id:], which ends many words. *)
Example determine_search_criteria_id_grid :
  _determine_search_criteria "id:grid:1" = ("automation_id", "gr1").
Proof. reflexivity. Qed.

(** A locator with none of the four tags in front is passed through. *)
Lemma determine_search_criteria_any (locator : string) :
  startswith locator "name:" = false →
  startswith locator "class:" = false →
  startswith locator "type:" = false →
  startswith locator "id:" = false →
  _determine_search_criteria locator = ("any", locator).
Proof.
  intros Hn Hc Ht Hi. unfold _determine_search_criteria.
  by rewrite Hn, Hc, Ht, Hi.
Qed.

(** ** Matching *)

Lemma is_element_matching_specific (d : nat) (itemdict : element)
    (locator criteria : string) :
  criteria ≠ "any" →
  is_element_matching_upto d itemdict locator criteria
  = bool_decide (itemdict !! criteria = Some locator).
Proof.
  intros Hne. destruct d; simpl.
  all: rewrite (bool_decide_eq_true_2 _ Hne), (bool_decide_eq_false_2 _ Hne).
  all: destruct (itemdict !! criteria) as [v|] eqn:Hv; simpl.
  all: rewrite ?bool_decide_eq_true_2 by (apply elem_of_dom; eauto).
  all: rewrite ?bool_decide_eq_false_2 by (rewrite elem_of_dom, Hv; by intros [??]).
  all: simpl; repeat case_bool_decide; done.
Qed.

Lemma is_element_matching_any (d : nat) (itemdict : element) (locator : string) :
  is_element_matching_upto (S d) itemdict locator "any"
  = bool_decide (itemdict !! "name" = Some locator)
    || bool_decide (itemdict !! "class_name" = Some locator)
    || bool_decide (itemdict !! "control_type" = Some locator)
    || bool_decide (itemdict !! "automation_id" = Some locator).
Proof.
  simpl. rewrite !is_element_matching_specific by done.
  by destruct (_ || _).
Qed.

(** One level of nesting is all the method ever uses. *)
Lemma is_element_matching_depth (d : nat) (itemdict : element)
    (locator criteria : string) :
  is_element_matching_upto (S d) itemdict locator criteria
  = is_element_matching itemdict locator criteria.
Proof.
  unfold is_element_matching.
  destruct (decide (criteria = "any")) as [->|Hne].
  - by rewrite !is_element_matching_any.
  - by rewrite !is_element_matching_specific by done.
Qed.

(** C6: under the criterion [any] an element matches exactly when the
    locator value equals its [name], [class_name], [control_type] or
    [automation_id]; under any other criterion, exactly when the locator
    value equals the field the criterion names. *)
Theorem is_element_matching_iff (itemdict : element) (locator criteria : string) :
  (is_element_matching itemdict locator "any" = true ↔
     itemdict !! "name" = Some locator ∨
     itemdict !! "class_name" = Some locator ∨
     itemdict !! "control_type" = Some locator ∨
     itemdict !! "automation_id" = Some locator) ∧
  (criteria ≠ "any" →
     (is_element_matching itemdict locator criteria = true ↔
        itemdict !! criteria = Some locator)).
Proof.
  split.
  - unfold is_element_matching. rewrite is_element_matching_any.
    rewrite !orb_true_iff, !bool_decide_eq_true. tauto.
  - intros Hne. unfold is_element_matching.
    rewrite is_element_matching_specific by done.
    apply bool_decide_eq_true.
Qed.

(** C6 at a button: found by its class under [any] and under [class_name],
    not under [name]. *)
Lemma is_element_matching_iff_witness :
  is_element_matching {[ "name" := "OK"; "class_name" := "Button" ]} "Button" "any" = true ∧
  is_element_matching {[ "name" := "OK"; "class_name" := "Button" ]} "Button" "class_name" = true ∧
  is_element_matching {[ "name" := "OK"; "class_name" := "Button" ]} "Button" "name" = false.
Proof.
  pose proof (is_element_matching_iff
    {[ "name" := "OK"; "class_name" := "Button" ]} "Button" "class_name") as [Hany Hone].
  split; [|split].
  - apply Hany. right; left. reflexivity.
  - apply Hone; [discriminate | reflexivity].
  - reflexivity.
Defined.

(** ** Coordinate click *)

(** The guard of [click_type], case by case. *)
Lemma click_type_both_none (ctype : string) (w : Windows) :
  click_type None None ctype w = (Raise cannot_click, w).
Proof. reflexivity. Qed.

Lemma click_type_x_none (y : Z) (ctype : string) (w : Windows) :
  click_type None (Some y) ctype w = (Raise none_lt_int, w).
Proof. reflexivity. Qed.

Lemma click_type_x_negative (x : Z) (y : option Z) (ctype : string) (w : Windows) :
  x < 0 → click_type (Some x) y ctype w = (Raise cannot_click, w).
Proof.
  intros Hx. unfold click_type. run_method.
  rewrite (proj2 (Z.ltb_lt x 0) Hx). reflexivity.
Qed.

Lemma click_type_y_none (x : Z) (ctype : string) (w : Windows) :
  0 ≤ x → click_type (Some x) None ctype w = (Raise none_lt_int, w).
Proof.
  intros Hx. unfold click_type. run_method.
  rewrite (proj2 (Z.ltb_ge x 0) Hx). reflexivity.
Qed.

Lemma click_type_y_negative (x y : Z) (ctype : string) (w : Windows) :
  0 ≤ x → y < 0 → click_type (Some x) (Some y) ctype w = (Raise cannot_click, w).
Proof.
  intros Hx Hy. unfold click_type. run_method.
  rewrite (proj2 (Z.ltb_ge x 0) Hx). run_method.
  rewrite (proj2 (Z.ltb_lt y 0) Hy). reflexivity.
Qed.

Lemma click_type_dispatch (x y : Z) (ctype : string) (w : Windows) :
  0 ≤ x → 0 ≤ y →
  click_type (Some x) (Some y) ctype w
  = (Return tt, from_option (λ c, add_backend_call c w) w (click_of ctype x y)).
Proof.
  intros Hx Hy. unfold click_type, click_of. run_method.
  rewrite (proj2 (Z.ltb_ge x 0) Hx). run_method.
  rewrite (proj2 (Z.ltb_ge y 0) Hy). run_method.
  by repeat destruct (String.eqb _ _).
Qed.

Lemma mouse_click_coords_unfold (x y : option Z) (ctype : string) (w : Windows) :
  mouse_click_coords x y ctype w
  = match click_type x y ctype w with
    | (Return _, w') => (Return tt, add_backend_call (Delay None) w')
    | (Raise e, w') => (Raise e, w')
    end.
Proof. reflexivity. Qed.

Lemma clicks_add_backend_call (c : backend_call) (w : Windows) :
  clicks (add_backend_call c w) = clicks w ++ (if is_click c then [c] else []).
Proof.
  unfold clicks. simpl. rewrite filter_app. f_equal.
  rewrite filter_cons, filter_nil. by destruct (is_click c).
Qed.

(** C7 as stated fails: with non-negative coordinates and a click type
    other than [click], [double] and [right], no branch of [click_type] is
    taken; the call returns and no backend click is made. *)
Lemma coordinate_click_undocumented_type :
  click_type (Some 3) (Some 4) "middle" __init__ = (Return tt, __init__) ∧
  (mouse_click_coords (Some 3) (Some 4) "middle" __init__).1 = Return tt ∧
  clicks (mouse_click_coords (Some 3) (Some 4) "middle" __init__).2 = [].
Proof. split; [|split]; vm_compute; reflexivity. Qed.

(** C7, amended: a coordinate click with a negative [x] or [y] raises
    [ValueError] and leaves the state, hence the list of backend calls, as
    it was; with both coordinates non-negative and the click type one of
    [click] (left click), [double], [right], [click_type] makes the one
    backend call of the click type and nothing else, and
    [mouse_click_coords] follows it with the delay; with any other click
    type it makes no backend click and returns. *)
Theorem coordinate_click (x y : Z) (w : Windows) :
  (x < 0 ∨ y < 0 → ∀ ctype,
     click_type (Some x) (Some y) ctype w = (Raise cannot_click, w) ∧
     mouse_click_coords (Some x) (Some y) ctype w = (Raise cannot_click, w)) ∧
  (0 ≤ x → 0 ≤ y →
     click_type (Some x) (Some y) "click" w
       = (Return tt, add_backend_call (Mouse_click x y) w) ∧
     click_type (Some x) (Some y) "double" w
       = (Return tt, add_backend_call (Mouse_double_click x y) w) ∧
     click_type (Some x) (Some y) "right" w
       = (Return tt, add_backend_call (Mouse_right_click x y) w) ∧
     (∀ ctype c, click_of ctype x y = Some c →
        mouse_click_coords (Some x) (Some y) ctype w
          = (Return tt, add_backend_call (Delay None) (add_backend_call c w)) ∧
        clicks (mouse_click_coords (Some x) (Some y) ctype w).2
          = clicks w ++ [c]) ∧
     (∀ ctype, click_of ctype x y = None →
        click_type (Some x) (Some y) ctype w = (Return tt, w) ∧
        mouse_click_coords (Some x) (Some y) ctype w
          = (Return tt, add_backend_call (Delay None) w) ∧
        clicks (mouse_click_coords (Some x) (Some y) ctype w).2 = clicks w)).
Proof.
  split.
  - intros Hneg ctype.
    assert (click_type (Some x) (Some y) ctype w = (Raise cannot_click, w)) as E.
    { destruct (Z.lt_ge_cases x 0) as [Hx|Hx].
      - by apply click_type_x_negative.
      - apply click_type_y_negative; [done | lia]. }
    split; [done |].
    by rewrite mouse_click_coords_unfold, E.
  - intros Hx Hy.
    split; [by rewrite click_type_dispatch |].
    split; [by rewrite click_type_dispatch |].
    split; [by rewrite click_type_dispatch |].
    split.
    + intros ctype c Hc.
      rewrite mouse_click_coords_unfold, click_type_dispatch, Hc by done.
      split; [done |]. simpl.
      rewrite !clicks_add_backend_call, app_nil_r.
      unfold click_of in Hc.
      by repeat destruct (String.eqb _ _); simplify_eq.
    + intros ctype Hc.
      rewrite mouse_click_coords_unfold, click_type_dispatch, Hc by done.
      split; [done |]. split; [done |]. simpl.
      by rewrite clicks_add_backend_call, app_nil_r.
Qed.

(** C7 at the points [(-3, 4)] and [(3, 4)]. *)
Lemma coordinate_click_witness :
  click_type (Some (-3)) (Some 4) "click" __init__ = (Raise cannot_click, __init__) ∧
  clicks (mouse_click_coords (Some 3) (Some 4) "double" __init__).2
    = [Mouse_double_click 3 4].
Proof.
  pose proof (coordinate_click (-3) 4 __init__) as [Hneg _].
  pose proof (coordinate_click 3 4 __init__) as [_ Hpos].
  split.
  - apply Hneg. left. lia.
  - destruct Hpos as (_ & _ & _ & Hc & _); [lia | lia |].
    apply (Hc "double" (Mouse_double_click 3 4)). reflexivity.
Defined.

(** A click type outside the three documented ones makes no backend call,
    and the call still returns. *)
Lemma click_type_unknown_type (x y : Z) (ctype : string) (w : Windows) :
  0 ≤ x → 0 ≤ y → click_of ctype x y = None →
  click_type (Some x) (Some y) ctype w = (Return tt, w).
Proof. intros Hx Hy Hc. rewrite click_type_dispatch by done. by rewrite Hc. Qed.

(** C10 as stated fails: with [x = -1] and [y = None] exactly one coordinate
    is [None], yet [x < 0] is true, [or] never looks at [y], and the call
    raises [ValueError]. *)
Lemma click_type_negative_x_none_y :
  click_type (Some (-1)) None "click" __init__ = (Raise cannot_click, __init__) ∧
  exn_type cannot_click = ValueError ∧ ValueError ≠ TypeError.
Proof. split; [reflexivity | split; [reflexivity | discriminate]]. Qed.

(** C10, amended: [click_type] raises [TypeError] exactly when [x] is [None]
    and [y] is a number, or [x] is a non-negative number and [y] is [None];
    it raises [ValueError] exactly when both are [None], or [x] is a negative
    number (whatever [y] is), or [x] is a non-negative number and [y] a
    negative one; in both cases the state is left as it was. *)
Theorem click_type_guard (x y : option Z) (ctype : string) (w : Windows) :
  (click_type x y ctype w = (Raise none_lt_int, w) ↔
     (x = None ∧ ∃ b, y = Some b) ∨ (∃ a, x = Some a ∧ 0 ≤ a ∧ y = None)) ∧
  (click_type x y ctype w = (Raise cannot_click, w) ↔
     (x = None ∧ y = None) ∨
     (∃ a, x = Some a ∧ a < 0) ∨
     (∃ a b, x = Some a ∧ 0 ≤ a ∧ y = Some b ∧ b < 0)).
Proof.
  destruct x as [a|], y as [b|].
  - destruct (Z.lt_ge_cases a 0) as [Ha|Ha].
    + rewrite click_type_x_negative by done. split; [naive_solver lia | naive_solver].
    + destruct (Z.lt_ge_cases b 0) as [Hb|Hb].
      * rewrite click_type_y_negative by done.
        split; [naive_solver lia | naive_solver].
      * rewrite click_type_dispatch by done. split; naive_solver lia.
  - destruct (Z.lt_ge_cases a 0) as [Ha|Ha].
    + rewrite click_type_x_negative by done. split; [naive_solver lia | naive_solver].
    + rewrite click_type_y_none by done. split; [naive_solver | naive_solver lia].
  - rewrite click_type_x_none. split; naive_solver.
  - rewrite click_type_both_none. split; naive_solver.
Qed.

(** C10, amended, at [x = None, y = 5] and at [x = -1, y = None]. *)
Lemma click_type_guard_witness :
  click_type None (Some 5) "click" __init__ = (Raise none_lt_int, __init__) ∧
  click_type (Some (-1)) None "click" __init__ = (Raise cannot_click, __init__).
Proof.
  split.
  - apply (click_type_guard None (Some 5) "click" __init__). left. eauto.
  - apply (click_type_guard (Some (-1)) None "click" __init__).
    right; left. exists (-1). split; [reflexivity | lia].
Defined.

(** ** Teardown *)

(** C9 as stated fails: an [OSError] raised by the clipboard helper is not
    an instance of [RuntimeError]; [__del__] lets it through and logs
    nothing. *)
Lemma del_reraises_os_error :
  let err := Exn OSError "OpenClipboard failed" in
  issubclass (exn_type err) RuntimeError = false ∧
  (__del__ (Raise err) __init__).1 = Raise err ∧
  debug_log (__del__ (Raise err) __init__).2 = [].
Proof. by cbv zeta. Qed.

(** C9, amended: when the clipboard call raises an instance of
    [RuntimeError] (of the class or of a subclass), [__del__] returns
    normally and the one thing it does besides the clipboard call is to log
    the failure; when the clipboard call returns, [__del__] returns and logs
    nothing; an exception of any other class leaves [__del__] as it was
    raised. *)
Theorem del_swallows_runtime_errors (err : exn) (w : Windows) :
  (issubclass (exn_type err) RuntimeError = true →
     __del__ (Raise err) w
     = (Return tt,
        add_debug_log ("Failed to clear clipboard: " +:+ exn_str err)
          (add_backend_call Clipboard_clear w))) ∧
  __del__ (Return tt) w = (Return tt, add_backend_call Clipboard_clear w) ∧
  (issubclass (exn_type err) RuntimeError = false →
     __del__ (Raise err) w = (Raise err, add_backend_call Clipboard_clear w)).
Proof.
  unfold __del__. run_method.
  split; [|split]; [intros -> | | intros ->]; reflexivity.
Qed.

(** C9, amended, at a [NotImplementedError], a subclass of [RuntimeError]. *)
Lemma del_swallows_runtime_errors_witness :
  (__del__ (Raise (Exn NotImplementedError "no clipboard")) __init__).1 = Return tt ∧
  debug_log (__del__ (Raise (Exn NotImplementedError "no clipboard")) __init__).2
    = ["Failed to clear clipboard: no clipboard"].
Proof.
  destruct (del_swallows_runtime_errors
              (Exn NotImplementedError "no clipboard") __init__) as [H _].
  rewrite H by reflexivity. split; reflexivity.
Defined.

(** The classes [except RuntimeError] catches. *)
Lemma issubclass_RuntimeError (c : exn_class) :
  issubclass c RuntimeError = true ↔
  c = RuntimeError ∨ c = NotImplementedError ∨ c = RecursionError.
Proof. destruct c; cbv; naive_solver. Qed.

(** ** Switching *)

(** C4: for an id that is not in the registry, [switch_to_application]
    raises the [ValueError] that says no application is open under that id,
    and the state it leaves is the state it found: active pointer, registry,
    attributes and the list of backend calls are all unchanged. *)
Theorem switch_to_unknown_application (app_id : Z) (w : Windows) :
  _apps w !! app_id = None →
  switch_to_application app_id w
  = (Raise (Exn ValueError
       ("No open application with id '" +:+ pretty app_id +:+ "'")), w).
Proof.
  intros Habsent. unfold switch_to_application. run_method.
  rewrite (bool_decide_eq_false_2 (app_id ∈ dom (_apps w))).
  - by rewrite andb_false_r.
  - by rewrite not_elem_of_dom.
Qed.

(** C4 with one session open and the id 7 asked for. *)
Lemma switch_to_unknown_application_witness :
  let w := (open_executable "notepad.exe" "Untitled - Notepad" __init__).2 in
  _active_app_instance w = 1 ∧
  switch_to_application 7 w
  = (Raise (Exn ValueError "No open application with id '7'"), w).
Proof.
  cbv zeta. split; [reflexivity |].
  apply (switch_to_unknown_application 7). reflexivity.
Defined.

(** ** Rectangle text and element center *)

Lemma occurs_cons (c x : ascii) (s : string) :
  occurs c (String x s) = Ascii.eqb c x || occurs c s.
Proof. reflexivity. Qed.

Lemma string_app_nil (b : string) : "" +:+ b = b.
Proof. reflexivity. Qed.

Lemma string_app_cons (x : ascii) (a b : string) :
  String x a +:+ b = String x (a +:+ b).
Proof. reflexivity. Qed.

Lemma string_app_assoc (a b c : string) : (a +:+ b) +:+ c = a +:+ b +:+ c.
Proof.
  induction a as [|x a IH]; [done |].
  by rewrite !string_app_cons, IH.
Qed.

Lemma occurs_app (c : ascii) (a b : string) :
  occurs c (a +:+ b) = occurs c a || occurs c b.
Proof.
  induction a as [|x a IH]; [done |].
  by rewrite string_app_cons, !occurs_cons, IH, orb_assoc.
Qed.

Lemma occurs_digits (c : ascii) (s : string) :
  is_digit c = false → all_digits s = true → occurs c s = false.
Proof.
  intros Hc. induction s as [|x s IH]; [done |].
  rewrite occurs_cons. cbn [all_digits].
  intros [Hx Hs]%andb_true_iff. rewrite IH by done.
  destruct (Ascii.eqb_spec c x) as [->|]; [congruence | done].
Qed.

Lemma all_digits_no_newline (s : string) :
  all_digits s = true → occurs "010" s = false.
Proof. by apply occurs_digits. Qed.

Section RegexLemmas.
Context {R : Type}.
Implicit Types (k : string → option R) (s : string).

(** [c] does not occur: [.*] followed by [c] finds nothing. *)
Lemma re_dot_star_char_none (c : ascii) k s :
  occurs c s = false → re_dot_star (re_char c k) s = None.
Proof.
  induction s as [|x s IH]; [done |].
  rewrite occurs_cons. intros [Hx Hs]%orb_false_iff.
  cbn [re_dot_star re_char]. rewrite IH, Hx by done.
  by destruct (is_newline x).
Qed.

(** [.*] gives up characters only when the rest of the pattern fails on
    every longer run: a match found after a prefix without newline stands. *)
Lemma re_dot_star_skip (pre : string) k s (r : R) :
  occurs "010" pre = false →
  re_dot_star k s = Some r → re_dot_star k (pre +:+ s) = Some r.
Proof.
  induction pre as [|x pre IH]; [done |].
  rewrite string_app_cons, occurs_cons.
  intros [Hx Hpre]%orb_false_iff Hs. cbn [re_dot_star].
  unfold is_newline. rewrite Ascii.eqb_sym, Hx. by rewrite IH.
Qed.

(** The last place where the rest of the pattern matches is the one [.*]
    stops at. *)
Lemma re_dot_star_last (c : ascii) k s (r : R) :
  is_newline c = false → occurs c s = false →
  k s = Some r → re_dot_star (re_char c k) (String c s) = Some r.
Proof.
  intros Hnl Hc Hk. cbn [re_dot_star re_char].
  rewrite Hnl, re_dot_star_char_none, Ascii.eqb_refl by done. done.
Qed.

(** [\d+] takes the whole run when the rest of the pattern then matches. *)
Lemma re_digits_whole_run (kd : string → string → option R)
    (seen ds rest : string) (r : R) :
  digit_run ds = true →
  (match rest with String c _ => is_digit c | EmptyString => false end) = false →
  kd (seen +:+ ds) rest = Some r →
  re_digits kd seen (ds +:+ rest) = Some r.
Proof.
  intros [Hne Hds]%andb_true_iff Hrest.
  revert seen. induction ds as [|c ds IH]; [done |]. clear Hne.
  cbn [all_digits] in Hds. apply andb_true_iff in Hds as [Hc Hds].
  intros seen Hk. rewrite string_app_cons. cbn [re_digits]. rewrite Hc.
  destruct ds as [|c' ds].
  - rewrite string_app_nil.
    replace (re_digits kd _ rest) with (@None R); [done |].
    destruct rest; cbn [re_digits]; [done | by rewrite Hrest].
  - rewrite IH; [done | done | done |].
    by rewrite string_app_assoc, string_app_cons, string_app_nil.
Qed.

End RegexLemmas.

(** On a rectangle text the four groups are the four runs of digits. *)
Lemma rectangle_match_text (dl dt dr db : string) :
  digit_run dl = true → digit_run dt = true →
  digit_run dr = true → digit_run db = true →
  rectangle_match (rectangle_text dl dt dr db) = Some (dl, dt, dr, db).
Proof.
  intros Hl Ht Hr Hb.
  pose proof Ht as [_ Ht']%andb_true_iff.
  pose proof Hr as [_ Hr']%andb_true_iff.
  pose proof Hb as [_ Hb']%andb_true_iff.
  unfold rectangle_match, rectangle_text.
  rewrite !string_app_cons, !string_app_nil. simpl.
  apply re_digits_whole_run; [done | done |].
  apply (re_dot_star_skip ", "); [done |].
  apply re_dot_star_last; [done | |].
  { repeat (rewrite occurs_app || rewrite occurs_cons).
    by rewrite !(occurs_digits "T") by done. }
  apply re_digits_whole_run; [done | done |].
  apply (re_dot_star_skip ", "); [done |].
  apply re_dot_star_last; [done | |].
  { repeat (rewrite occurs_app || rewrite occurs_cons).
    by rewrite !(occurs_digits "R") by done. }
  apply re_digits_whole_run; [done | done |].
  apply (re_dot_star_skip ", "); [done |].
  apply re_dot_star_last; [done | |].
  { repeat (rewrite occurs_app || rewrite occurs_cons).
    by rewrite !(occurs_digits "B") by done. }
  apply re_digits_whole_run; [done | done |].
  simpl. done.
Qed.

Lemma int_half_exact (n : Z) :
  Z.abs n < 2 ^ 53 → int_half n = Return (Z.quot n 2).
Proof.
  intros Hn. unfold int_half, truediv_2, float_mantissa_bits.
  replace ((if Z.abs n =? 0 then 0 else Z.log2 (Z.abs n) + 1) <=? 53) with true.
  - reflexivity.
  - symmetry. apply Z.leb_le. destruct (Z.eqb_spec (Z.abs n) 0); [lia |].
    assert (Z.log2 (Z.abs n) < 53); [apply Z.log2_lt_pow2; lia | lia].
Qed.

Lemma get_element_center_text (itemdict : element) (rectangle : string)
    (l t r b : Z) :
  itemdict !! "rectangle" = Some rectangle →
  get_element_coordinates rectangle = Return (l, t, r, b) →
  Z.abs (r - l) < 2 ^ 53 → Z.abs (b - t) < 2 ^ 53 →
  get_element_center itemdict = Return (l + Z.quot (r - l) 2, t + Z.quot (b - t) 2).
Proof.
  intros Hrect Hcoord Hx Hy. unfold get_element_center.
  rewrite Hrect, Hcoord, !int_half_exact by done.
  f_equal. f_equal; apply Z.add_comm.
Qed.

(** C8 as stated fails in its general part: for [(L10, T20, R5, B220)] the
    code computes [int(-2.5) + 10 = 8], since [int] rounds toward zero,
    while [left + floor((right - left) / 2)] is [10 + (-3) = 7]. *)
Lemma center_truncates_toward_zero :
  get_element_coordinates "(L10, T20, R5, B220)" = Return (10, 20, 5, 220) ∧
  get_element_center {[ "rectangle" := "(L10, T20, R5, B220)" ]} = Return (8, 120) ∧
  10 + (5 - 10) `div` 2 = 7.
Proof. split; [|split]; reflexivity. Qed.

(** The division is a float division: from [2^54] on the half of an even
    difference need not be a float, and the center is off the exact half. *)
Example center_rounds_large_differences :
  get_element_center {[ "rectangle" := "(L0, T0, R18014398509481986, B0)" ]}
    = Return (9007199254740992, 0) ∧
  0 + (18014398509481986 - 0) `div` 2 = 9007199254740993.
Proof. split; reflexivity. Qed.

(** C8, amended: [(L10, T20, R110, B220)] parses to 10, 20, 110, 220 and its
    center is (60, 120).  For every text [(L<l>, T<t>, R<r>, B<b>)] made of
    four non-empty runs of decimal digits the coordinates are the numbers
    the runs spell; when [|r - l|] and [|b - t|] are below [2^53] the center
    is [(l + (r - l) ÷ 2, t + (b - t) ÷ 2)] with [÷] rounding toward zero,
    which is [(l + floor((r - l) / 2), t + floor((b - t) / 2))] when moreover
    [l ≤ r] and [t ≤ b]. *)
Theorem rectangle_center (dl dt dr db : string) (itemdict : element) :
  get_element_coordinates "(L10, T20, R110, B220)" = Return (10, 20, 110, 220) ∧
  get_element_center {[ "rectangle" := "(L10, T20, R110, B220)" ]} = Return (60, 120) ∧
  (digit_run dl = true → digit_run dt = true →
   digit_run dr = true → digit_run db = true →
   let l := int_of_digits dl in
   let t := int_of_digits dt in
   let r := int_of_digits dr in
   let b := int_of_digits db in
   get_element_coordinates (rectangle_text dl dt dr db) = Return (l, t, r, b) ∧
   (itemdict !! "rectangle" = Some (rectangle_text dl dt dr db) →
    Z.abs (r - l) < 2 ^ 53 → Z.abs (b - t) < 2 ^ 53 →
    get_element_center itemdict
      = Return (l + Z.quot (r - l) 2, t + Z.quot (b - t) 2) ∧
    (l ≤ r → t ≤ b →
     get_element_center itemdict
       = Return (l + (r - l) `div` 2, t + (b - t) `div` 2)))).
Proof.
  split; [reflexivity |]. split; [reflexivity |].
  intros Hl Ht Hr Hb l t r b.
  assert (get_element_coordinates (rectangle_text dl dt dr db) = Return (l, t, r, b))
    as Hcoord.
  { unfold get_element_coordinates. by rewrite rectangle_match_text. }
  split; [done |].
  intros Hrect Hx Hy.
  rewrite (get_element_center_text _ _ _ _ _ _ Hrect Hcoord Hx Hy).
  split; [done |]. intros Hlr Htb.
  by rewrite !Z.quot_div_nonneg by lia.
Qed.

(** C8, amended, at [(L7, T0, R1928, B1049)]. *)
Lemma rectangle_center_witness :
  get_element_coordinates "(L7, T0, R1928, B1049)" = Return (7, 0, 1928, 1049) ∧
  get_element_center {[ "rectangle" := "(L7, T0, R1928, B1049)" ]}
    = Return (967, 524).
Proof.
  destruct (rectangle_center "7" "0" "1928" "1049"
              {[ "rectangle" := "(L7, T0, R1928, B1049)" ]})
    as (_ & _ & H).
  destruct H as [Hcoord Hcenter]; [reflexivity .. |].
  split; [exact Hcoord |].
  destruct Hcenter as [_ Hfloor]; [reflexivity | vm_compute; reflexivity .. |].
  apply Hfloor; vm_compute; discriminate.
Defined.

(** ** Quit *)

Lemma apps_getitem_registered (k : Z) (rec : gmap string pyval) (w : Windows) :
  _apps w !! k = Some rec → apps_getitem (VInt k) w = (Return rec, w).
Proof. intros Hrec. unfold apps_getitem. run_method. by rewrite Hrec. Qed.

Lemma get_app_registered (app_id : Z) (rec : gmap string pyval) (w : Windows) :
  _apps w !! app_id = Some rec →
  get_app (Some app_id) w = (Return rec, w).
Proof.
  intros Hrec. unfold get_app, apps_getitem. run_method. by rewrite Hrec.
Qed.

Lemma apps_setitem_registered (k : Z) (field : string) (v : pyval)
    (rec : gmap string pyval) (w : Windows) :
  _apps w !! k = Some rec →
  apps_setitem (VInt k) field v w
  = (Return tt, set_apps (<[k := <[field := v]> rec]> (_apps w)) w).
Proof.
  intros Hrec. unfold apps_setitem, apps_getitem. run_method. by rewrite Hrec.
Qed.

(** C3 as stated fails: a session that was quit stays in the registry with
    its handle cleared.  Quitting it again finds the record, looks [Quit] up
    on [None] and raises; no backend call is made and the active pointer,
    which a later [open_application] has set to 2, is not reset. *)
Lemma quit_twice_raises :
  let w := (run [Call_open_application "Excel"; Call_quit (Some 1);
                 Call_open_application "Word"] __init__).2 in
  _apps w !! 1 ≫= (.!! "app") = Some VNone ∧
  _active_app_instance w = 2 ∧
  (quit (Some 1) w).1
    = Raise (Exn AttributeError "'NoneType' object has no attribute 'Quit'") ∧
  _active_app_instance (quit (Some 1) w).2 = 2 ∧
  backend_calls (quit (Some 1) w).2 = backend_calls w.
Proof.
  cbv zeta. split; [|split; [|split; [|split]]]; vm_compute; reflexivity.
Qed.

(** C3, amended: for every id registered with a record whose handle has
    the method [quit] calls under the record's flag ([Quit] on a COM
    application object when [dispatched] is true, [kill] on a pywinauto
    [Application] otherwise), [quit] on that id makes exactly that one
    backend call, then stores [None] as the record's handle and sets the
    active pointer to -1, whichever session was active; the other records
    are not touched.  When the handle lacks that method ([None] after an
    earlier [quit], a COM object under a false flag, an [Application] under
    a true one), [quit] raises [AttributeError] and changes nothing.  (The
    record's own [id] is the key it is stored under, as [_add_app_instance]
    writes it.) *)
Theorem quit_registered (app_id : Z) (rec : gmap string pyval) (a d : pyval)
    (w : Windows) :
  _apps w !! app_id = Some rec →
  rec !! "id" = Some (VInt app_id) →
  rec !! "dispatched" = Some d →
  rec !! "app" = Some a →
  let w' := (quit (Some app_id) w).2 in
  (has_method a (terminate_method d) = true →
     (quit (Some app_id) w).1 = Return tt ∧
     backend_calls w'
       = backend_calls w ++ [if truthy d then App_Quit a else App_kill a] ∧
     _apps w' !! app_id = Some (<["app" := VNone]> rec) ∧
     (∀ k, k ≠ app_id → _apps w' !! k = _apps w !! k) ∧
     _active_app_instance w' = -1) ∧
  (has_method a (terminate_method d) = false →
     ∃ e, exn_type e = AttributeError ∧ quit (Some app_id) w = (Raise e, w)).
Proof.
  intros Hrec Hid Hd Ha. cbv zeta. unfold terminate_method. split; intros Hm.
  - assert (quit (Some app_id) w
            = (Return tt,
               set_active_app_instance (-1)
                 (set_apps (<[app_id := <["app" := VNone]> rec]> (_apps w))
                    (add_backend_call
                       (if truthy d then App_Quit a else App_kill a) w)))) as ->.
    { unfold quit. run_method.
      rewrite (get_app_registered _ _ _ Hrec).
      unfold getitem. rewrite Hid, Hd, Ha. run_method.
      unfold call_method.
      destruct (truthy d); rewrite Hm; run_method;
        by erewrite apps_setitem_registered by exact Hrec. }
    simpl. split; [done |]. split; [done |].
    split; [by rewrite lookup_insert_eq |].
    split; [|done]. intros k Hk. by rewrite lookup_insert_ne.
  - unfold quit. run_method.
    rewrite (get_app_registered _ _ _ Hrec).
    unfold getitem. rewrite Hid, Hd, Ha. run_method.
    unfold call_method.
    destruct (truthy d); rewrite Hm; (eexists; split; [|reflexivity]; reflexivity).
Qed.

(** C3, amended, at two open sessions: Excel (dispatched, id 1) and Notepad
    (launched, id 2, the active one).  Quitting Excel calls [Quit()], and
    the active pointer drops to -1 although Notepad was active; quitting
    Notepad calls [kill()]. *)
Lemma quit_registered_witness :
  let w := (run [Call_open_application "Excel";
                 Call_open_executable "notepad.exe" "Untitled - Notepad"]
                __init__).2 in
  _active_app_instance w = 2 ∧
  backend_calls (quit (Some 1) w).2
    = backend_calls w ++ [App_Quit (VDispatch "Excel")] ∧
  _active_app_instance (quit (Some 1) w).2 = -1 ∧
  backend_calls (quit (Some 2) w).2
    = backend_calls w ++ [App_kill (VStarted "notepad.exe")].
Proof.
  cbv zeta. split; [vm_compute; reflexivity |].
  set (w := (run _ __init__).2).
  destruct (quit_registered 1
              {[ "app" := VDispatch "Excel"; "id" := VInt 1;
                 "dispatched" := VBool true ]}
              (VDispatch "Excel") (VBool true) w)
    as [Hexcel _]; [vm_compute; reflexivity .. |].
  destruct Hexcel as (_ & Hcalls & _ & _ & Hactive); [reflexivity |].
  destruct (quit_registered 2
              (<["dlg" := VWindow (VStr "Untitled - Notepad")]>
                 ({[ "executable" := VStr "notepad.exe";
                     "windowtitle" := VStr "Untitled - Notepad" ]}
                  ∪ {[ "app" := VStarted "notepad.exe"; "id" := VInt 2;
                       "dispatched" := VBool false ]}))
              (VStarted "notepad.exe") (VBool false) w)
    as [Hnotepad _]; [vm_compute; reflexivity .. |].
  destruct Hnotepad as (_ & Hcalls2 & _); [reflexivity |].
  split; [exact Hcalls |]. split; [exact Hactive | exact Hcalls2].
Defined.

(** ** Where the locator parser does strip the tag once *)

Lemma string_app_nil_r (s : string) : s +:+ "" = s.
Proof. induction s as [|c s IH]; [done |]. by rewrite string_app_cons, IH. Qed.

Lemma rev_app_app (a b s : string) :
  String.rev_app a b +:+ s = String.rev_app a (b +:+ s).
Proof. revert b. induction a as [|c a IH]; intros b; [done |]. apply IH. Qed.

(** Without an occurrence of the separator there is one piece. *)
Lemma split_go_no_occurrence (sep cur s : string) :
  contains sep s = false → split_go sep 0 cur s = [String.rev cur +:+ s].
Proof.
  revert cur. induction s as [|c s IH]; intros cur Hs.
  - simpl. by rewrite string_app_nil_r.
  - cbn [contains] in Hs. apply orb_false_iff in Hs as [Hp Hs].
    cbn [split_go]. rewrite Hp, IH by done. f_equal.
    unfold String.rev. cbn [String.rev_app]. by rewrite !rev_app_app.
Qed.

(** The characters of a found separator are passed over. *)
Lemma split_go_skip (sep cur pre s : string) :
  split_go sep (String.length pre) cur (pre +:+ s) = split_go sep 0 cur s.
Proof.
  induction pre as [|c pre IH]; [done |].
  rewrite string_app_cons. cbn [String.length split_go]. exact IH.
Qed.

Lemma prefix_app (tag rest : string) : String.prefix tag (tag +:+ rest) = true.
Proof.
  induction tag as [|c tag IH]; [by destruct rest |].
  rewrite string_app_cons. cbn [String.prefix].
  destruct (ascii_dec c c); [done | congruence].
Qed.

(** [tag] taken off the front once, when it does not occur again. *)
Lemma strip_tag_once (c : ascii) (tag rest : string) :
  contains (String c tag) rest = false →
  join_empty (drop 1 (split (String c tag +:+ rest) (String c tag))) = rest.
Proof.
  intros Hrest. unfold split. rewrite string_app_cons. cbn [split_go].
  rewrite <- string_app_cons, prefix_app.
  replace (String.length (String c tag) - 1)%nat with (String.length tag)
    by (simpl; lia).
  rewrite split_go_skip, split_go_no_occurrence by done.
  simpl. by rewrite string_app_nil_r.
Qed.

(** The part of C2 the code does satisfy: a recognised tag in front of a
    value in which that tag does not occur again is stripped, and the value
    is returned as it is, under the criterion of the tag. *)
Lemma determine_search_criteria_tag_once (rest : string) :
  (contains "name:" rest = false →
     _determine_search_criteria ("name:" +:+ rest) = ("name", rest)) ∧
  (contains "class:" rest = false →
     _determine_search_criteria ("class:" +:+ rest) = ("class_name", rest)) ∧
  (contains "type:" rest = false →
     _determine_search_criteria ("type:" +:+ rest) = ("control_type", rest)) ∧
  (contains "id:" rest = false →
     _determine_search_criteria ("id:" +:+ rest) = ("automation_id", rest)).
Proof.
  unfold _determine_search_criteria, startswith.
  repeat split; intros Hrest.
  - rewrite prefix_app. by rewrite strip_tag_once.
  - replace (String.prefix "name:" ("class:" +:+ rest)) with false by done.
    rewrite prefix_app. by rewrite strip_tag_once.
  - replace (String.prefix "name:" ("type:" +:+ rest)) with false by done.
    replace (String.prefix "class:" ("type:" +:+ rest)) with false by done.
    rewrite prefix_app. by rewrite strip_tag_once.
  - replace (String.prefix "name:" ("id:" +:+ rest)) with false by done.
    replace (String.prefix "class:" ("id:" +:+ rest)) with false by done.
    replace (String.prefix "type:" ("id:" +:+ rest)) with false by done.
    rewrite prefix_app. by rewrite strip_tag_once.
Qed.

(** ** The locator as the specification reads it *)

Lemma strip_prefix_Some (tag s value : string) :
  strip_prefix tag s = Some value → s = tag +:+ value.
Proof.
  revert s. induction tag as [|a tag IH]; intros s.
  - cbn [strip_prefix]. rewrite string_app_nil. by intros [= ->].
  - destruct s as [|b s]; cbn [strip_prefix]; [done |].
    destruct (Ascii.eqb_spec a b) as [->|_]; [|done].
    intros Hs%IH. by rewrite string_app_cons, Hs.
Qed.

Lemma strip_prefix_None (tag s : string) :
  strip_prefix tag s = None → startswith s tag = false.
Proof.
  unfold startswith. revert s. induction tag as [|a tag IH]; intros s; [done |].
  destruct s as [|b s]; cbn [strip_prefix String.prefix]; [done |].
  destruct (Ascii.eqb_spec a b) as [->|Hne].
  - intros Hs%IH. by destruct (ascii_dec b b).
  - intros _. by destruct (ascii_dec a b).
Qed.

(** Where the tag does not occur again behind itself, the code reads the
    locator as the specification does. *)
Lemma parse_as_specified (locator : string) :
  tag_repeats locator = false →
  _determine_search_criteria locator = spec_parse locator.
Proof.
  unfold tag_repeats, spec_parse.
  destruct (strip_prefix "name:" locator) as [v|] eqn:Hn.
  { apply strip_prefix_Some in Hn as ->.
    by apply determine_search_criteria_tag_once. }
  destruct (strip_prefix "class:" locator) as [v|] eqn:Hc.
  { apply strip_prefix_Some in Hc as ->.
    by apply determine_search_criteria_tag_once. }
  destruct (strip_prefix "type:" locator) as [v|] eqn:Ht.
  { apply strip_prefix_Some in Ht as ->.
    by apply determine_search_criteria_tag_once. }
  destruct (strip_prefix "id:" locator) as [v|] eqn:Hi.
  { apply strip_prefix_Some in Hi as ->.
    by apply determine_search_criteria_tag_once. }
  intros _. apply determine_search_criteria_any; by apply strip_prefix_None.
Qed.

Lemma matches_as_specified (locator : string) (e : element) :
  tag_repeats locator = false →
  matches_as_parsed locator e = spec_matches locator e.
Proof.
  intros Htag. unfold matches_as_parsed, spec_matches.
  rewrite (parse_as_specified locator Htag).
  destruct (spec_parse locator) as [criterion value]. cbn [fst snd].
  unfold is_element_matching.
  destruct (String.eqb_spec criterion "any") as [->|Hne].
  - apply is_element_matching_any.
  - by apply is_element_matching_specific.
Qed.

Lemma filter_as_specified (locator : string) (elements : list element) :
  tag_repeats locator = false →
  filter (matches_as_parsed locator) elements
  = filter (spec_matches locator) elements.
Proof.
  intros Htag. apply list_filter_iff. intros e.
  by rewrite (matches_as_specified locator e Htag).
Qed.

(** ** Locator click *)

Lemma find_element_matching (elements : list element) (locator criteria : string) :
  (find_element elements locator criteria).1
  = filter (λ e, is_element_matching e locator criteria) elements.
Proof.
  induction elements as [|e elements IH]; [done |].
  cbn [find_element]. destruct (find_element elements locator criteria) as [m l].
  simpl in IH. subst m. rewrite filter_cons. simpl.
  by destruct (is_element_matching e locator criteria).
Qed.

(** With a registered active session [open_dialog] returns; it clicks
    nothing, keeps counter and active pointer, writes to the active
    session's record only, and makes no directory. *)
Lemma open_dialog_registered (title : pyval) (rec : gmap string pyval) (w : Windows) :
  _apps w !! _active_app_instance w = Some rec →
  is_Some (rec !! "app") →
  ∃ w', open_dialog title false w = (Return tt, w') ∧ clicks w' = clicks w ∧
    _app_instance_id w' = _app_instance_id w ∧
    _active_app_instance w' = _active_app_instance w ∧
    is_Some (_apps w' !! _active_app_instance w) ∧
    (∀ k, k ≠ _active_app_instance w → _apps w' !! k = _apps w !! k) ∧
    images_dir_exists w' = images_dir_exists w.
Proof.
  intros Hrec [a Ha]. unfold open_dialog.
  destruct (truthy title); run_method.
  all: unfold apps_setitem, apps_getitem, getitem; run_method.
  all: rewrite Hrec; run_method.
  all: rewrite lookup_insert_eq; run_method.
  all: rewrite lookup_insert_ne by done; rewrite Ha; run_method.
  all: case_bool_decide; run_method.
  all: unfold connect_by_handle, apps_setitem, apps_getitem; run_method.
  all: rewrite ?lookup_insert_eq; run_method.
  all: eexists; split; [reflexivity |]; simpl.
  all: split;
    [unfold clicks; simpl;
     rewrite ?filter_app, ?filter_cons, ?filter_nil; simpl;
     by rewrite ?app_nil_r |].
  all: split; [done |]; split; [done |].
  all: rewrite lookup_insert_eq; split; [by eexists |].
  all: split; [intros k Hk; by rewrite !lookup_insert_ne |].
  all: unfold images_dir_exists; simpl.
  all: rewrite ?existsb_app; simpl; by rewrite ?orb_false_r.
Qed.

(** One step of a method body. *)
Lemma bind_read {A B} (f : Windows → A) (k : A → M B) (w : Windows) :
  (x ← read f; k x) w = k (f w) w.
Proof. reflexivity. Qed.

Lemma bind_call {B} (c : backend_call) (k : M B) (w : Windows) :
  (call c;; k) w = k (add_backend_call c w).
Proof. reflexivity. Qed.

Lemma bind_returns {A B} (m : M A) (k : A → M B) (w w' : Windows) (a : A) :
  m w = (Return a, w') → (x ← m; k x) w = k a w'.
Proof. intros Hm. unfold mbind, M_bind, bind. by rewrite Hm. Qed.

(** The three-way branch, once the dialog has been waited for and
    re-attached. *)
Lemma mouse_click_locator_branches (elements : list element) (locator : string)
    (off_x off_y : Z) (ctype : string) (screenshot_ : bool)
    (rec : gmap string pyval) (w : Windows) :
  is_backend_object (dlg w) = true →
  _apps w !! _active_app_instance w = Some rec →
  is_Some (rec !! "app") →
  ∃ w1, clicks w1 = clicks w ∧ images_dir_exists w1 = images_dir_exists w ∧
    mouse_click_locator elements locator off_x off_y ctype screenshot_ w
    = match filter (matches_as_parsed locator) elements with
      | [e] => click_single_match (_determine_search_criteria locator).2 e
                 off_x off_y ctype screenshot_ w1
      | _ => (Return false, w1)
      end.
Proof.
  intros Hdlg Hrec Happ.
  destruct (open_dialog_registered (windowtitle w) rec
              (add_backend_call
                 (Dlg_wait (dlg w) "exists enabled visible ready") w))
    as (w1 & Hopen & Hclicks & _ & _ & _ & _ & Hdir); [done | done |].
  exists w1. split; [|split].
  { rewrite Hclicks, clicks_add_backend_call. simpl. by rewrite app_nil_r. }
  { rewrite Hdir. unfold images_dir_exists. simpl.
    rewrite existsb_app. simpl. by rewrite orb_false_r. }
  unfold mouse_click_locator. rewrite bind_read.
  unfold call_method, has_method. cbn [String.eqb Ascii.eqb Bool.eqb].
  rewrite Hdlg, bind_call, bind_read.
  cbn [windowtitle add_backend_call].
  rewrite (bind_returns _ _ _ _ _ Hopen).
  unfold matches_as_parsed.
  destruct (_determine_search_criteria locator) as [criteria value].
  pose proof (find_element_matching elements value criteria) as Hfind.
  destruct (find_element elements value criteria) as [matching locators].
  simpl in Hfind. subst matching. cbn [fst snd].
  destruct (filter _ elements) as [|e [|e' rest]]; reflexivity.
Qed.

(** Taking the screenshot of an element whose center can be computed
    returns when the directory [images] is not there yet, and clicks
    nothing. *)
Lemma screenshot_of_element (filename : string) (e : element) (c : Z * Z)
    (w : Windows) :
  get_element_center e = Return c →
  images_dir_exists w = false →
  ∃ w', screenshot filename e w = (Return tt, w') ∧ clicks w' = clicks w.
Proof.
  unfold get_element_center, screenshot, makedirs_images. intros Hc Hdir.
  destruct (e !! "rectangle") as [rectangle|] eqn:Hrect; [|done].
  rewrite bool_decide_eq_true_2 by (intros ->; by rewrite lookup_empty in Hrect).
  destruct (get_element_coordinates rectangle) as [coords|]; [|done].
  run_method. rewrite Hdir. run_method. eexists. split; [reflexivity |].
  rewrite !clicks_add_backend_call. simpl. by rewrite !app_nil_r.
Qed.

(** C1 as stated fails: one element matches [name:OK], its center is
    (60, 120), and with [off_x = -100] the click would land at x = -40;
    [click_type] raises [ValueError], no backend click is made and nothing
    is returned. *)
Lemma locator_click_negative_offset :
  let w := (open_executable "notepad.exe" "Untitled - Notepad" __init__).2 in
  let ok : element := {[ "name" := "OK"; "class_name" := "Button";
                         "rectangle" := "(L10, T20, R110, B220)" ]} in
  filter (spec_matches "name:OK") [ok] = [ok] ∧
  (mouse_click_locator [ok] "name:OK" (-100) 0 "click" false w).1
    = Raise cannot_click ∧
  clicks (mouse_click_locator [ok] "name:OK" (-100) 0 "click" false w).2 = [].
Proof. cbv zeta. split; [|split]; vm_compute; reflexivity. Qed.

(** C1 fails as well where the tag occurs again behind itself (C2).  The
    locator [name:File name:] names the element called [File name:]; the
    code looks for the name [File ] instead.  With that label alone in the
    window, one element matches and nothing is clicked; with an element
    called [File ] beside it, that other element is clicked. *)
Example locator_click_repeated_tag :
  let w := (open_executable "notepad.exe" "Save As" __init__).2 in
  let label : element := {[ "name" := "File name:";
                            "rectangle" := "(L10, T20, R110, B220)" ]} in
  let other : element := {[ "name" := "File ";
                            "rectangle" := "(L300, T400, R500, B600)" ]} in
  filter (spec_matches "name:File name:") [label; other] = [label] ∧
  (mouse_click_locator [label] "name:File name:" 0 0 "click" false w).1
    = Return false ∧
  (mouse_click_locator [label; other] "name:File name:" 0 0 "click" false w).1
    = Return true ∧
  clicks (mouse_click_locator [label; other] "name:File name:" 0 0 "click"
            false w).2 = [Mouse_click 400 500].
Proof. cbv zeta. split; [|split; [|split]]; vm_compute; reflexivity. Qed.

(** With [screenshot=True] the first locator click makes the directory
    [images]; the second one finds it there, [os.makedirs] raises
    [FileExistsError] and the element is not clicked again. *)
Example locator_click_second_screenshot :
  let w := (open_executable "notepad.exe" "Untitled - Notepad" __init__).2 in
  let ok : element := {[ "name" := "OK"; "class_name" := "Button";
                         "rectangle" := "(L10, T20, R110, B220)" ]} in
  let first := mouse_click_locator [ok] "name:OK" 0 0 "click" true w in
  let second := mouse_click_locator [ok] "name:OK" 0 0 "click" true first.2 in
  first.1 = Return true ∧ clicks first.2 = [Mouse_click 60 120] ∧
  second.1 = Raise images_dir_is_there ∧ clicks second.2 = [Mouse_click 60 120].
Proof. cbv zeta. split; [|split; [|split]]; vm_compute; reflexivity. Qed.

(** C1, amended.  Let the object have a dialog attached and an active
    session in the registry, and let the locator be one whose tag does not
    occur again in the value behind it.  If exactly one element of the
    window matches the locator, its center [(x, y)] can be computed from its
    rectangle, [x + off_x] and [y + off_y] are non-negative, the click type
    is one of [click], [double], [right], and no screenshot is asked for or
    the directory [images] is not there yet, then [mouse_click_locator]
    makes exactly one backend click, of that type, at
    [(x + off_x, y + off_y)], and returns [True].  If no element or more
    than one element matches, it makes no backend click and returns
    [False], without raising.  Matching is the specification's
    ([spec_matches]), not the code's parser. *)
Theorem locator_click (elements : list element) (locator : string)
    (off_x off_y : Z) (ctype : string) (screenshot_ : bool)
    (rec : gmap string pyval) (w : Windows) :
  tag_repeats locator = false →
  is_backend_object (dlg w) = true →
  _apps w !! _active_app_instance w = Some rec →
  is_Some (rec !! "app") →
  let out := mouse_click_locator elements locator off_x off_y ctype screenshot_ w in
  (∀ e x y c,
     filter (spec_matches locator) elements = [e] →
     get_element_center e = Return (x, y) →
     0 ≤ x + off_x → 0 ≤ y + off_y →
     click_of ctype (x + off_x) (y + off_y) = Some c →
     screenshot_ && images_dir_exists w = false →
     out.1 = Return true ∧ clicks out.2 = clicks w ++ [c]) ∧
  (length (filter (spec_matches locator) elements) ≠ 1%nat →
     out.1 = Return false ∧ clicks out.2 = clicks w).
Proof.
  intros Htag Hdlg Hrec Happ out. subst out.
  destruct (mouse_click_locator_branches elements locator off_x off_y ctype
              screenshot_ rec w Hdlg Hrec Happ) as (w1 & Hclicks & Hdir & ->).
  rewrite (filter_as_specified locator elements Htag).
  split.
  - intros e x y c -> Hcenter Hx Hy Hc Hshot. unfold click_single_match.
    assert (∃ w2, (if screenshot_
                   then screenshot ("locator_" +:+ (_determine_search_criteria locator).2) e
                   else ret tt) w1 = (Return tt, w2) ∧ clicks w2 = clicks w1)
      as (w2 & Hshot2 & Hclicks2).
    { destruct screenshot_; [|by exists w1].
      eapply screenshot_of_element; [done |]. by rewrite Hdir. }
    rewrite (bind_returns _ _ _ _ _ Hshot2).
    erewrite bind_returns by (unfold lift; by rewrite Hcenter).
    cbn beta iota zeta.
    erewrite bind_returns by (by rewrite click_type_dispatch, Hc).
    simpl. split; [done |].
    rewrite !clicks_add_backend_call, Hclicks2, Hclicks, app_nil_r.
    unfold click_of in Hc.
    by repeat destruct (String.eqb _ _); simplify_eq.
  - intros Hlen.
    destruct (filter _ elements) as [|e [|e' rest]]; [done | done | done].
Qed.

(** C1, amended, at a Notepad window: one [OK] button, clicked at its
    center moved by (5, -5), with a screenshot taken first; two buttons of
    the class [Button], not clicked. *)
Lemma locator_click_witness :
  let w := (open_executable "notepad.exe" "Untitled - Notepad" __init__).2 in
  let ok : element := {[ "name" := "OK"; "class_name" := "Button";
                         "rectangle" := "(L10, T20, R110, B220)" ]} in
  let cancel : element := {[ "name" := "Cancel"; "class_name" := "Button";
                             "rectangle" := "(L120, T20, R220, B220)" ]} in
  ((mouse_click_locator [ok; cancel] "name:OK" 5 (-5) "click" true w).1 = Return true ∧
   clicks (mouse_click_locator [ok; cancel] "name:OK" 5 (-5) "click" true w).2
     = clicks w ++ [Mouse_click 65 115]) ∧
  ((mouse_click_locator [ok; cancel] "class:Button" 5 (-5) "click" false w).1
     = Return false ∧
   clicks (mouse_click_locator [ok; cancel] "class:Button" 5 (-5) "click" false w).2
     = clicks w).
Proof.
  cbv zeta.
  set (w := (open_executable _ _ __init__).2).
  set (ok := ({[ "name" := "OK"; "class_name" := "Button";
                 "rectangle" := "(L10, T20, R110, B220)" ]} : element)).
  set (cancel := ({[ "name" := "Cancel"; "class_name" := "Button";
                     "rectangle" := "(L120, T20, R220, B220)" ]} : element)).
  set (rec := (<["dlg" := VWindow (VStr "Untitled - Notepad")]>
                 ({[ "executable" := VStr "notepad.exe";
                     "windowtitle" := VStr "Untitled - Notepad" ]}
                  ∪ {[ "app" := VStarted "notepad.exe"; "id" := VInt 1;
                       "dispatched" := VBool false ]}) : gmap string pyval)).
  assert (is_backend_object (dlg w) = true) as Hdlg by (vm_compute; reflexivity).
  assert (_apps w !! _active_app_instance w = Some rec) as Hrec
    by (vm_compute; reflexivity).
  assert (is_Some (rec !! "app")) as Happ by (vm_compute; eexists; reflexivity).
  split.
  - destruct (locator_click [ok; cancel] "name:OK" 5 (-5) "click" true rec w
                eq_refl Hdlg Hrec Happ) as [Hone _].
    apply (Hone ok 60 120 (Mouse_click 65 115));
      [vm_compute; reflexivity | vm_compute; reflexivity | lia | lia
       | reflexivity | vm_compute; reflexivity].
  - destruct (locator_click [ok; cancel] "class:Button" 5 (-5) "click" false rec w
                eq_refl Hdlg Hrec Happ) as [_ Hmany].
    apply Hmany. vm_compute. discriminate.
Defined.

(** ** The registry invariant *)

Lemma grows_refl (w : Windows) : registry_ok w → grows w w.
Proof. intros Hw. by split. Qed.

Lemma grows_same_registry (w0 w w' : Windows) :
  same_registry w w' → grows w0 w → grows w0 w'.
Proof.
  intros (Ha & Hc & Hp) ([Hact Hle] & Hcnt & Hkeys).
  unfold grows, registry_ok. rewrite Ha, Hc, Hp. done.
Qed.

Create HintDb ok_db discriminated.

Lemma ok_ret {A} (a : A) : ok (ret a).
Proof. by intros w0 w. Qed.

Lemma ok_raise {A} (e : exn) : ok (@raise A e).
Proof. by intros w0 w. Qed.

Lemma ok_read {A} (f : Windows → A) : ok (read f).
Proof. by intros w0 w. Qed.

Lemma ok_lift {A} (r : result A) : ok (lift r).
Proof. by intros w0 w. Qed.

Lemma ok_update (f : Windows → Windows) :
  (∀ w, same_registry w (f w)) → ok (update f).
Proof. intros Hf w0 w. by apply grows_same_registry. Qed.

Lemma ok_call (c : backend_call) : ok (call c).
Proof. by apply ok_update. Qed.

Lemma ok_bind {A B} (m : M A) (k : A → M B) :
  ok m → (∀ a, ok (k a)) → ok (x ← m; k x).
Proof.
  intros Hm Hk w0 w Hw. specialize (Hm w0 w Hw).
  unfold mbind, M_bind, bind. destruct (m w) as [[a|e] w']; [|done].
  by apply Hk.
Qed.

Lemma ok_fmap {A B} (f : A → B) (m : M A) : ok m → ok (f <$> m).
Proof. intros Hm. apply ok_bind; [done |]. intros a. apply ok_ret. Qed.

#[local] Hint Resolve ok_ret ok_raise ok_read ok_lift ok_call : ok_db.

(** A method body is gone through step by step: a bind splits, a branch is
    taken both ways, an update of a field outside the registry is [ok]. *)
#[local] Hint Extern 2 (ok (mbind _ _)) => apply ok_bind; [|intros ?] : ok_db.
#[local] Hint Extern 2 (ok (fmap _ _)) => apply ok_fmap : ok_db.
#[local] Hint Extern 2 (ok (update _)) => apply ok_update; by intros ? : ok_db.
#[local] Hint Extern 3 (ok (if ?b then _ else _)) => destruct b : ok_db.
#[local] Hint Extern 3 (ok (match ?x with _ => _ end)) => destruct x : ok_db.

Lemma ok_getitem (d : gmap string pyval) (key : string) : ok (getitem d key).
Proof. unfold getitem. eauto 60 with ok_db. Qed.

Lemma ok_apps_getitem (key : pyval) : ok (apps_getitem key).
Proof. unfold apps_getitem. eauto 60 with ok_db. Qed.

(** Writing a field of a registered record adds and removes no id. *)
Lemma ok_apps_setitem (key : pyval) (field : string) (v : pyval) :
  ok (apps_setitem key field v).
Proof.
  intros w0 w Hw. unfold apps_setitem, apps_getitem. run_method.
  destruct (as_key key) as [k|]; run_method; [|done].
  destruct (_apps w !! k) as [rec|] eqn:Hk; run_method; [|done].
  destruct Hw as ([Hact Hle] & Hcnt & Hkeys).
  split; [split |split]; simpl.
  - destruct Hact as [?|Hact]; [by left | right].
    rewrite lookup_insert. by case_decide.
  - intros k' Hk'. apply Hle. rewrite lookup_insert in Hk'.
    case_decide; subst; [by rewrite Hk | done].
  - done.
  - intros k' Hk'. rewrite lookup_insert. case_decide; [done | by apply Hkeys].
Qed.

Lemma ok_call_method (obj : pyval) (name : string) (c : backend_call) :
  ok (call_method obj name c).
Proof. unfold call_method. eauto 60 with ok_db. Qed.

Lemma ok_handle_of (obj : pyval) : ok (handle_of obj).
Proof. unfold handle_of. eauto 60 with ok_db. Qed.

Lemma ok_delay (seconds : option Q) : ok (delay seconds).
Proof. apply ok_call. Qed.

#[local] Hint Resolve ok_getitem ok_apps_getitem ok_apps_setitem
  ok_call_method ok_handle_of ok_delay : ok_db.

Lemma ok_connect_by_handle (handle : pyval) : ok (connect_by_handle handle).
Proof. unfold connect_by_handle. eauto 60 with ok_db. Qed.

#[local] Hint Resolve ok_connect_by_handle : ok_db.

Lemma ok_open_dialog (title : pyval) (highlight : bool) :
  ok (open_dialog title highlight).
Proof. unfold open_dialog. eauto 60 with ok_db. Qed.

Lemma ok_minimize_dialog (title : pyval) : ok (minimize_dialog title).
Proof. unfold minimize_dialog. eauto 60 with ok_db. Qed.

Lemma ok_restore_dialog (title : pyval) : ok (restore_dialog title).
Proof. unfold restore_dialog. eauto 60 with ok_db. Qed.

Lemma ok_get_app (app_id : option Z) : ok (get_app app_id).
Proof. unfold get_app. eauto 60 with ok_db. Qed.

#[local] Hint Resolve ok_open_dialog ok_minimize_dialog ok_restore_dialog
  ok_get_app : ok_db.

Lemma ok_reset_active : ok (update (set_active_app_instance (-1))).
Proof.
  intros w0 w ([Hact Hle] & Hcnt & Hkeys).
  split; [split | split]; simpl; auto.
Qed.

#[local] Hint Resolve ok_reset_active : ok_db.

Lemma ok_quit (app_id : option Z) : ok (quit app_id).
Proof. unfold quit. eauto 60 with ok_db. Qed.

#[local] Hint Resolve ok_quit : ok_db.

Lemma ok_quit_each (application_ids : list Z) : ok (quit_each application_ids).
Proof.
  induction application_ids as [|aid rest IH]; simpl; eauto 60 with ok_db.
Qed.

#[local] Hint Resolve ok_quit_each : ok_db.

Lemma ok_close_all_applications : ok close_all_applications.
Proof. unfold close_all_applications. eauto 60 with ok_db. Qed.

(** The active pointer moves only to an id found in the registry. *)
Lemma ok_switch_to_application (app_id : Z) : ok (switch_to_application app_id).
Proof.
  intros w0 w Hw. unfold switch_to_application. rewrite bind_read.
  destruct (negb (app_id =? 0) && bool_decide (app_id ∈ dom (_apps w)))
    eqn:Hcond; [|done].
  apply andb_true_iff in Hcond as [_ Hreg%bool_decide_eq_true].
  apply elem_of_dom in Hreg as [rec Hrec].
  rewrite (bind_returns _ _ _ _ _ (get_app_registered _ _ _ Hrec)).
  change ((update (set_active_app_instance app_id);; ?k) w)
    with (k (set_active_app_instance app_id w)).
  assert (ok (a ← getitem rec "app";
              update (set_app a);;
              title ← getitem rec "windowtitle";
              open_dialog title false;;
              delay (Some (1 # 2)%Q);;
              title ← getitem rec "windowtitle";
              restore_dialog title)) as Hrest by eauto 60 with ok_db.
  apply Hrest.
  destruct Hw as ([Hact Hle] & Hcnt & Hkeys).
  split; [split | split]; simpl; eauto.
Qed.

(** What [_add_app_instance] does, in full: it always returns, the id it
    returns is the counter plus one, that id is registered and active
    afterwards, and the records under the other ids are as before. *)
Lemma add_app_instance_returns (app_ : pyval) (dialog : bool)
    (params : option (gmap string pyval)) (w : Windows) :
  ∃ w', _add_app_instance app_ dialog params w
        = (Return (_app_instance_id w + 1), w') ∧
    _app_instance_id w' = _app_instance_id w + 1 ∧
    _active_app_instance w' = _app_instance_id w + 1 ∧
    is_Some (_apps w' !! (_app_instance_id w + 1)) ∧
    (∀ k, k ≠ _app_instance_id w + 1 → _apps w' !! k = _apps w !! k).
Proof.
  set (id := _app_instance_id w + 1).
  set (a := if bool_decide (app_ = VNone) then app w else app_).
  set (default_params :=
         ({[ "app" := a; "id" := VInt id; "dispatched" := VBool false ]}
          : gmap string pyval)).
  set (rec := match params with
              | Some params_ =>
                  if bool_decide (params_ ≠ ∅)
                  then params_ ∪ default_params else default_params
              | None => default_params
              end).
  set (w2 := set_active_app_instance id
               (set_apps (<[id := rec]> (_apps w))
                  (set_app a (set_app_instance_id id w)))).
  assert (is_Some (rec !! "app")) as Happ.
  { subst rec. destruct params as [p|]; [case_bool_decide |].
    - apply lookup_union_is_Some. right. by eexists.
    - by eexists.
    - by eexists. }
  assert (∃ w', (if dialog
                 then rec' ← apps_getitem (VInt id);
                      open_dialog (default VNone (rec' !! "windowtitle")) false
                 else ret tt) w2 = (Return tt, w') ∧
                _app_instance_id w' = id ∧ _active_app_instance w' = id ∧
                is_Some (_apps w' !! id) ∧
                (∀ k, k ≠ id → _apps w' !! k = _apps w !! k))
    as (w' & Hdialog & Hcnt & Hact & Hreg & Hother).
  { assert (_apps w2 !! id = Some rec) as Hrec by apply lookup_insert_eq.
    assert (∀ k, k ≠ id → _apps w2 !! k = _apps w !! k) as Hw2.
    { intros k Hk. by apply lookup_insert_ne. }
    destruct dialog.
    - destruct (open_dialog_registered (default VNone (rec !! "windowtitle"))
                  rec w2 Hrec Happ)
        as (w' & Hopen & _ & Hcnt & Hact & Hreg & Hother & _).
      exists w'. split.
      + by rewrite (bind_returns _ _ _ _ _ (apps_getitem_registered _ _ _ Hrec)).
      + split; [done |]. split; [done |]. split; [done |].
        intros k Hk. rewrite <- Hw2 by done. by apply Hother.
    - exists w2. split; [done |]. split; [done |]. split; [done |].
      split; [by eexists | done]. }
  exists w'. split; [|done].
  transitivity
    (((if dialog
       then rec' ← apps_getitem (VInt id);
            open_dialog (default VNone (rec' !! "windowtitle")) false
       else ret tt);; read _active_app_instance) w2).
  - subst w2 rec default_params a id. unfold _add_app_instance.
    destruct params as [p|]; [destruct (bool_decide (p ≠ ∅)) eqn:Hp |];
      destruct (bool_decide (app_ = VNone)) eqn:Hnone;
      unfold mbind, M_bind, bind, update, read, ret; simpl;
      rewrite ?Hp, ?Hnone; reflexivity.
  - rewrite (bind_returns _ _ _ _ _ Hdialog). unfold read. by rewrite Hact.
Qed.

Lemma ok_add_app_instance (app_ : pyval) (dialog : bool)
    (params : option (gmap string pyval)) :
  ok (_add_app_instance app_ dialog params).
Proof.
  intros w0 w ([Hact Hle] & Hcnt & Hkeys).
  destruct (add_app_instance_returns app_ dialog params w)
    as (w' & -> & Hcnt' & Hact' & Hreg & Hother).
  simpl. split; [split | split].
  - right. by rewrite Hact'.
  - intros k Hk. destruct (decide (k = _app_instance_id w + 1)) as [->|Hne];
      [lia |]. rewrite Hother in Hk by done. specialize (Hle k Hk). lia.
  - lia.
  - intros k Hk. specialize (Hkeys k Hk). specialize (Hle k Hkeys).
    rewrite Hother by lia. done.
Qed.

#[local] Hint Resolve ok_close_all_applications ok_switch_to_application
  ok_add_app_instance : ok_db.

Lemma ok_send_keys (keys : string) : ok (send_keys keys).
Proof. apply ok_call. Qed.

#[local] Hint Resolve ok_send_keys : ok_db.

Lemma ok_send_keys_to_input (keys : string) (with_enter : bool) (sd ed : Q) :
  ok (send_keys_to_input keys with_enter sd ed).
Proof. unfold send_keys_to_input. eauto 60 with ok_db. Qed.

#[local] Hint Resolve ok_send_keys_to_input : ok_db.

Lemma ok_click_type (x y : option Z) (ctype : string) : ok (click_type x y ctype).
Proof. unfold click_type, lt_0. eauto 60 with ok_db. Qed.

#[local] Hint Resolve ok_click_type : ok_db.

Lemma ok_makedirs_images : ok makedirs_images.
Proof. unfold makedirs_images. eauto 60 with ok_db. Qed.

#[local] Hint Resolve ok_makedirs_images : ok_db.

Lemma ok_screenshot (filename : string) (e : element) : ok (screenshot filename e).
Proof. unfold screenshot. eauto 60 with ok_db. Qed.

#[local] Hint Resolve ok_screenshot : ok_db.

Lemma ok_mouse_click_locator (elements : list element) (locator : string)
    (off_x off_y : Z) (ctype : string) (screenshot_ : bool) :
  ok (mouse_click_locator elements locator off_x off_y ctype screenshot_).
Proof. unfold mouse_click_locator. eauto 60 with ok_db. Qed.

#[local] Hint Resolve ok_mouse_click_locator : ok_db.

(** Every call keeps the registry well formed, returning or raising. *)
Lemma ok_exec (c : method_call) : ok (exec c).
Proof.
  destruct c; unfold exec, open_application, open_executable,
    open_using_run_dialog, open_from_search, mouse_click, mouse_click_coords,
    mouse_click_image, mouse_click_ocr; eauto 60 with ok_db.
Qed.

(** ** Instance ids *)

(** The five calls that register end in [_add_app_instance], after backend
    calls that leave the counter alone; the other calls hand back no id. *)
Lemma exec_cases (c : method_call) (w : Windows) :
  (∃ a d p w0, _app_instance_id w0 = _app_instance_id w ∧
     exec c w = (Some <$> _add_app_instance a d p) w0) ∨
  (∃ m : M unit, exec c w = (m;; ret None) w).
Proof.
  destruct c; cbn [exec]; try (right; eexists; reflexivity); left.
  - by exists app_, dialog, params, w.
  - set (w1 := add_backend_call
                 (Com_put (VDispatch application) "Visible" (VBool true))
                 (add_backend_call
                    (EnsureDispatch (application +:+ ".Application")) w)).
    exists (VDispatch application), false,
      (Some {[ "dispatched" := VBool true ]}),
      (if is_backend_object (app w)
       then add_backend_call
              (Com_put_if_hasattr (app w) (VDispatch application)
                 "DisplayAlerts" (VBool false)) w1
       else w1).
    split; [by destruct (is_backend_object (app w)) |].
    subst w1. unfold open_application, fmap, M_fmap, mbind, M_bind, bind, call,
      update, read, ret. cbn [app add_backend_call].
    by destruct (is_backend_object (app w)).
  - exists (VStarted executable), true,
      (Some {[ "executable" := VStr executable;
               "windowtitle" := VStr windowtitle_ ]}),
      (add_backend_call (Application_start executable)
         (set_windowtitle (VStr windowtitle_) w)).
    split; reflexivity.
  - exists VNone, true,
      (Some {[ "windowtitle" := VStr windowtitle_;
               "executable" := VStr executable ]}),
      (foldl (λ w0 c, add_backend_call c w0) w
         [Keyboard_send_keys "{VK_LWIN down}r{VK_LWIN up}"; Delay (Some 1%Q);
          LoadKeyboardLayout "00000409" 1; Keyboard_send_keys executable;
          Delay (Some 1%Q); Keyboard_send_keys "{ENTER}";
          Delay (Some (7 # 2)%Q)]).
    split; reflexivity.
  - exists VNone, true,
      (Some {[ "windowtitle" := VStr windowtitle_;
               "executable" := VStr executable ]}),
      (foldl (λ w0 c, add_backend_call c w0) w
         [Keyboard_send_keys "{LWIN}"; Delay (Some 1%Q);
          LoadKeyboardLayout "00000409" 1; Keyboard_send_keys executable;
          Delay (Some 1%Q); Keyboard_send_keys "{ENTER}";
          Delay (Some (7 # 2)%Q)]).
    split; reflexivity.
Qed.

(** A call that hands back an id has just registered it, as the counter
    plus one. *)
Lemma exec_registers (c : method_call) (w w' : Windows) (id : Z) :
  exec c w = (Return (Some id), w') →
  id = _app_instance_id w + 1 ∧ _app_instance_id w' = id ∧
  _active_app_instance w' = id ∧ is_Some (_apps w' !! id).
Proof.
  destruct (exec_cases c w) as [(a & d & p & w0 & Hw0 & ->)|[m ->]].
  - destruct (add_app_instance_returns a d p w0) as (w1 & He & Hc & Ha & Hr & _).
    unfold fmap, M_fmap, bind, ret. rewrite He, Hw0 in *.
    intros [= <- <-]. done.
  - unfold mbind, M_bind, bind, ret. by destruct (m w) as [[[]|e] w1].
Qed.

(** Along any sequence of calls: the ids handed out lie above the counter
    the sequence started from, are still registered at the end, and come in
    strictly increasing order. *)
Lemma run_ids (cs : list method_call) (w : Windows) :
  registry_ok w →
  grows w (run cs w).2 ∧
  Forall (λ i, _app_instance_id w < i ∧ is_Some (_apps (run cs w).2 !! i))
         (run cs w).1 ∧
  StronglySorted Z.lt (run cs w).1.
Proof.
  revert w. induction cs as [|c cs IH]; intros w Hw.
  { simpl. split; [by apply grows_refl |]. split; constructor. }
  cbn [run].
  pose proof (ok_exec c w w (grows_refl w Hw)) as Hstep.
  pose proof (exec_registers c w) as Hreg.
  destruct (exec c w) as [r w1]. simpl in Hstep.
  specialize (IH w1 (proj1 Hstep)) as (Hgrow & Hall & Hsorted).
  destruct (run cs w1) as [ids w2]. simpl in *.
  destruct Hstep as (_ & Hcnt1 & Hkeys1).
  destruct Hgrow as (Hok2 & Hcnt2 & Hkeys2).
  assert (grows w w2) as Hww2.
  { split; [done |]. split; [lia | auto]. }
  assert (Forall (λ i, _app_instance_id w < i ∧ is_Some (_apps w2 !! i)) ids)
    as Hall'.
  { eapply Forall_impl; [exact Hall |]. simpl. intros i [? ?]. split; [lia | done]. }
  destruct r as [[id|]|e]; simpl; try done.
  destruct (Hreg w1 id eq_refl) as (-> & Hc1 & _ & Hr1).
  split; [done |]. split.
  - constructor; [|done]. split; [lia | by apply Hkeys2].
  - constructor; [done |].
    eapply Forall_impl; [exact Hall |]. simpl. intros i [? _]. lia.
Qed.

Lemma registry_ok_init : registry_ok __init__.
Proof. split; [by left |]. intros k [rec Hk]. simpl in Hk. by rewrite lookup_empty in Hk. Qed.

(** C5: take any sequence of calls on a fresh object.  The instance ids it
    hands out are strictly increasing, hence distinct, and every one of them
    is still in the registry at the end, whatever was quit in between; the
    active pointer is -1 or a registered id.  A registration made next
    always returns; its id is above every id handed out so far and above
    every id in the registry, and afterwards it is registered and is the
    active session. *)
Theorem instance_ids (cs : list method_call) (app_ : pyval) (dialog : bool)
    (params : option (gmap string pyval)) :
  let ids := (run cs __init__).1 in
  let w := (run cs __init__).2 in
  let r := (_add_app_instance app_ dialog params w).1 in
  let w' := (_add_app_instance app_ dialog params w).2 in
  StronglySorted Z.lt ids ∧
  Forall (λ i, is_Some (_apps w !! i)) ids ∧
  (_active_app_instance w = -1 ∨ is_Some (_apps w !! _active_app_instance w)) ∧
  ∃ id, r = Return id ∧
    Forall (λ i, i < id) ids ∧
    (∀ k, is_Some (_apps w !! k) → k < id) ∧
    is_Some (_apps w' !! id) ∧
    _active_app_instance w' = id.
Proof.
  cbv zeta.
  destruct (run_ids cs __init__ registry_ok_init)
    as (([Hact Hle] & _ & _) & Hall & Hsorted).
  destruct (add_app_instance_returns app_ dialog params (run cs __init__).2)
    as (w' & -> & _ & Hact' & Hreg' & _).
  split; [done |]. split.
  { eapply Forall_impl; [exact Hall |]. by intros i [_ ?]. }
  split; [done |].
  eexists. split; [reflexivity |]. simpl. split; [|split; [|done]].
  - eapply Forall_impl; [exact Hall |]. simpl.
    intros i [_ Hi%Hle]. lia.
  - intros k Hk%Hle. lia.
Qed.

(** Three sessions opened with two quits in between get the ids 1, 2, 3. *)
Example instance_ids_after_quit :
  (run [Call_open_application "Excel"; Call_quit None;
        Call_open_executable "notepad.exe" "Untitled - Notepad";
        Call_close_all_applications;
        Call_open_from_search "calc.exe" "Calculator"] __init__).1 = [1; 2; 3].
Proof. vm_compute. reflexivity. Qed.

(** * Further properties *)

(** ** Matching and finding *)

(** X1: an element that matches a value under one of the four field
    criteria [name], [class_name], [control_type], [automation_id] also
    matches that value under the criterion [any]. *)
Theorem is_element_matching_field_implies_any (itemdict : element)
    (locator criteria : string) :
  criteria ∈ ["name"; "class_name"; "control_type"; "automation_id"] →
  is_element_matching itemdict locator criteria = true →
  is_element_matching itemdict locator "any" = true.
Proof.
  intros Hc. unfold is_element_matching.
  rewrite is_element_matching_any, is_element_matching_specific
    by (intros ->; set_solver).
  intros Hm%bool_decide_eq_true.
  rewrite !orb_true_iff, !bool_decide_eq_true.
  set_solver.
Qed.

Lemma is_element_matching_field_implies_any_witness :
  is_element_matching {[ "name" := "OK"; "control_type" := "Button" ]}
    "Button" "any" = true.
Proof.
  apply (is_element_matching_field_implies_any _ _ "control_type");
    [set_solver | reflexivity].
Defined.

Lemma find_element_suggestions_specific (elements : list element)
    (locator criteria : string) :
  criteria ≠ "any" → criteria ≠ "" →
  (find_element elements locator criteria).2 = omap (λ e, e !! criteria) elements.
Proof.
  intros Hany Hempty.
  induction elements as [|e elements IH]; [done |].
  cbn [find_element omap list_omap].
  destruct (find_element elements locator criteria) as [m l]. simpl in *.
  rewrite (proj2 (String.eqb_neq _ _) Hany), (proj2 (String.eqb_neq _ _) Hempty).
  simpl. subst l. by destruct (e !! criteria).
Qed.

(** X2: under a criterion that names a field (neither [any] nor the empty
    string) [find_element] returns, in the order of the window's elements,
    the elements whose field equals the locator and, as suggestions, the
    field's value of every element that has the field; the locator is among
    the suggestions exactly when some element matches. *)
Theorem find_element_specific (elements : list element) (locator criteria : string) :
  criteria ≠ "any" → criteria ≠ "" →
  (find_element elements locator criteria).1
    = filter (λ e, e !! criteria = Some locator) elements ∧
  (find_element elements locator criteria).2
    = omap (λ e, e !! criteria) elements ∧
  (locator ∈ (find_element elements locator criteria).2 ↔
     (find_element elements locator criteria).1 ≠ []).
Proof.
  intros Hany Hempty.
  assert ((find_element elements locator criteria).1
          = filter (λ e, e !! criteria = Some locator) elements) as Hm.
  { rewrite find_element_matching. apply list_filter_iff. intros e.
    unfold is_element_matching.
    rewrite is_element_matching_specific by done.
    by rewrite bool_decide_spec. }
  rewrite Hm, find_element_suggestions_specific by done.
  split; [done |]. split; [done |].
  rewrite list_elem_of_omap. split.
  - intros (e & He & Hl) Hnil.
    assert (e ∈ filter (λ e, e !! criteria = Some locator) elements) as Hin
      by (by apply list_elem_of_filter).
    rewrite Hnil in Hin. by apply not_elem_of_nil in Hin.
  - intros Hne. destruct (filter _ elements) as [|e rest] eqn:Hf; [done |].
    assert (e ∈ filter (λ e, e !! criteria = Some locator) elements) as Hin
      by (rewrite Hf; left).
    apply list_elem_of_filter in Hin as [? ?]. eauto.
Qed.

Lemma find_element_specific_witness :
  let ok : element := {[ "name" := "OK"; "class_name" := "Button" ]} in
  let edit : element := {[ "class_name" := "Edit" ]} in
  (find_element [ok; edit; ok] "OK" "name").1 = [ok; ok] ∧
  (find_element [ok; edit; ok] "OK" "name").2 = ["OK"; "OK"].
Proof.
  cbv zeta.
  destruct (find_element_specific
              [{[ "name" := "OK"; "class_name" := "Button" ]};
               {[ "class_name" := "Edit" ]};
               {[ "name" := "OK"; "class_name" := "Button" ]}] "OK" "name")
    as (Hm & Hl & _); [done | done |].
  split; [rewrite Hm | rewrite Hl]; vm_compute; reflexivity.
Defined.

(** ** Rectangles that cannot be read *)

Lemma occurs_signed_run (c : ascii) (s : string) :
  is_digit c = false → Ascii.eqb c "-" = false →
  signed_run s = true → occurs c s = false.
Proof.
  intros Hd Hm [Hs|Hs]%orb_true_iff.
  - apply andb_true_iff in Hs as [_ Hs]. by apply occurs_digits.
  - destruct s as [|x d]; [done |]. cbn [negative_run] in Hs.
    apply andb_true_iff in Hs as [Hx [_ Hs]%andb_true_iff].
    rewrite occurs_cons, (occurs_digits c d) by done.
    apply Ascii.eqb_eq in Hx as ->. by rewrite Hm.
Qed.

Section RegexFailure.
Context {R : Type}.
Implicit Types (k : string → option R) (kd : string → string → option R).

(** [.*] then [c]: with a single [c] in the text, after which the rest of
    the pattern fails, there is no match. *)
Lemma re_dot_star_char_unique_none (c : ascii) k (pre s : string) :
  occurs c pre = false → occurs c s = false → k s = None →
  re_dot_star (re_char c k) (pre +:+ String c s) = None.
Proof.
  intros Hpre Hs Hk. induction pre as [|x pre IH].
  - rewrite string_app_nil. cbn [re_dot_star re_char].
    rewrite re_dot_star_char_none, Ascii.eqb_refl, Hk by done.
    by destruct (is_newline c).
  - rewrite string_app_cons. rewrite occurs_cons in Hpre.
    apply orb_false_iff in Hpre as [Hx Hpre].
    cbn [re_dot_star re_char]. rewrite IH, Hx by done.
    by destruct (is_newline x).
Qed.

(** [(\d+)]: when the rest of the pattern fails after every non-empty part
    of the run of digits, there is no match. *)
Lemma re_digits_none kd (seen ds rest : string) :
  all_digits ds = true →
  (match rest with String c _ => is_digit c | EmptyString => false end) = false →
  (∀ cap ds', all_digits ds' = true → kd cap (ds' +:+ rest) = None) →
  re_digits kd seen (ds +:+ rest) = None.
Proof.
  intros Hds Hrest Hk. revert seen.
  induction ds as [|c ds IH]; intros seen.
  - rewrite string_app_nil. destruct rest; cbn [re_digits]; [done | by rewrite Hrest].
  - cbn [all_digits] in Hds. apply andb_true_iff in Hds as [Hc Hds].
    rewrite string_app_cons. cbn [re_digits]. by rewrite Hc, IH, Hk.
Qed.

(** One number of the rectangle text, after its letter: if the number is
    negative, or the rest of the pattern fails whatever part of the number
    is captured, the match fails from this letter on. *)
Lemma re_number_none (c : ascii) kd (pre num rest : string) :
  is_digit c = false → Ascii.eqb c "-" = false →
  occurs c pre = false → occurs c rest = false →
  (match rest with String x _ => is_digit x | EmptyString => false end) = false →
  signed_run num = true →
  (negative_run num = false →
   ∀ cap ds', all_digits ds' = true → kd cap (ds' +:+ rest) = None) →
  re_dot_star (re_char c (re_digits kd "")) (pre +:+ String c (num +:+ rest)) = None.
Proof.
  intros Hd Hm Hpre Hrest Hhead Hnum Hk.
  apply re_dot_star_char_unique_none; [done | |].
  { by rewrite occurs_app, (occurs_signed_run c num), Hrest. }
  destruct (negative_run num) eqn:Hneg.
  - destruct num as [|x d]; [done |]. cbn [negative_run] in Hneg.
    apply andb_true_iff in Hneg as [->%Ascii.eqb_eq _].
    rewrite string_app_cons. reflexivity.
  - unfold signed_run in Hnum. rewrite Hneg, orb_false_r in Hnum.
    apply andb_true_iff in Hnum as [_ Hnum].
    by apply re_digits_none; [| |apply Hk].
Qed.

End RegexFailure.

Lemma string_app_separator (d : string) (c : ascii) (s : string) :
  d +:+ String "," (String " " (String c s)) = (d +:+ ", ") +:+ String c s.
Proof. by rewrite string_app_assoc. Qed.

(** X3: a rectangle text [(L.., T.., R.., B..)] whose four numbers are
    runs of digits, at least one of them with a minus sign in front, is not
    read: [get_element_coordinates] raises [AttributeError] (the pattern has
    no place for a sign and [re.match] returns [None]), and so does
    [get_element_center] on an element with that rectangle. *)
Theorem negative_rectangle_rejected (l t r b : string) (itemdict : element) :
  signed_run l = true → signed_run t = true →
  signed_run r = true → signed_run b = true →
  negative_run l || negative_run t || negative_run r || negative_run b = true →
  get_element_coordinates (rectangle_text l t r b)
    = Raise (Exn AttributeError "'NoneType' object has no attribute 'groups'") ∧
  (itemdict !! "rectangle" = Some (rectangle_text l t r b) →
   get_element_center itemdict
     = Raise (Exn AttributeError "'NoneType' object has no attribute 'groups'")).
Proof.
  intros Hl Ht Hr Hb Hneg.
  assert (rectangle_match (rectangle_text l t r b) = None) as Hnone.
  { unfold rectangle_match, rectangle_text.
    rewrite !string_app_cons, !string_app_nil. cbn [re_char].
    change (Ascii.eqb "(" "(") with true. change (Ascii.eqb "L" "L") with true.
    cbv iota.
    destruct (negative_run l) eqn:Hnl.
    { destruct l as [|x d]; [done |]. cbn [negative_run] in Hnl.
      apply andb_true_iff in Hnl as [->%Ascii.eqb_eq _]. reflexivity. }
    unfold signed_run in Hl. rewrite Hnl, orb_false_r in Hl.
    apply andb_true_iff in Hl as [_ Hl].
    apply re_digits_none; [done | done |]. intros g1 d1 Hd1.
    cbv beta. rewrite string_app_separator.
    apply re_number_none; try done.
    { rewrite occurs_app, (occurs_digits "T") by done. done. }
    { repeat (rewrite occurs_app || rewrite occurs_cons).
      by rewrite !(occurs_signed_run "T") by done. }
    intros Hnt g2 d2 Hd2.
    cbv beta. rewrite string_app_separator.
    apply re_number_none; try done.
    { rewrite occurs_app, (occurs_digits "R") by done. done. }
    { repeat (rewrite occurs_app || rewrite occurs_cons).
      by rewrite !(occurs_signed_run "R") by done. }
    intros Hnr g3 d3 Hd3.
    cbv beta. rewrite string_app_separator.
    apply re_number_none; try done.
    { rewrite occurs_app, (occurs_digits "B") by done. done. }
    intros Hnb. rewrite Hnt, Hnr, Hnb in Hneg. done. }
  assert (get_element_coordinates (rectangle_text l t r b)
          = Raise (Exn AttributeError "'NoneType' object has no attribute 'groups'"))
    as Hcoord.
  { unfold get_element_coordinates. by rewrite Hnone. }
  split; [done |]. intros Hrect. unfold get_element_center.
  by rewrite Hrect, Hcoord.
Qed.

Lemma negative_rectangle_rejected_witness :
  get_element_center {[ "rectangle" := "(L-8, T-8, R1928, B1048)" ]}
    = Raise (Exn AttributeError "'NoneType' object has no attribute 'groups'").
Proof.
  refine (proj2 (negative_rectangle_rejected "-8" "-8" "1928" "1048" _ _ _ _ _ _) _);
    reflexivity.
Defined.

(** ** The center lies in the rectangle *)

(** X4: when the rectangle of an element is read as [(l, t, r, b)] with
    [l <= r], [t <= b] and sides below 2^53, [get_element_center] returns a
    point inside the rectangle, as far from the left edge as from the right
    one or one pixel nearer to the left, and likewise from top and bottom. *)
Theorem center_inside_rectangle (itemdict : element) (rectangle : string)
    (l t r b : Z) :
  itemdict !! "rectangle" = Some rectangle →
  get_element_coordinates rectangle = Return (l, t, r, b) →
  l ≤ r → t ≤ b → r - l < 2 ^ 53 → b - t < 2 ^ 53 →
  ∃ x y, get_element_center itemdict = Return (x, y) ∧
    l ≤ x ≤ r ∧ t ≤ y ≤ b ∧
    (r - x) - (x - l) ∈ [0; 1] ∧ (b - y) - (y - t) ∈ [0; 1].
Proof.
  intros Hrect Hcoord Hlr Htb Hw Hh.
  rewrite (get_element_center_text _ _ _ _ _ _ Hrect Hcoord) by lia.
  eexists _, _. split; [reflexivity |].
  rewrite !Z.quot_div_nonneg by lia.
  pose proof (Z.div_mod (r - l) 2 ltac:(lia)) as Hx.
  pose proof (Z.mod_pos_bound (r - l) 2 ltac:(lia)) as Hx'.
  pose proof (Z.div_mod (b - t) 2 ltac:(lia)) as Hy.
  pose proof (Z.mod_pos_bound (b - t) 2 ltac:(lia)) as Hy'.
  repeat split; try lia.
  - assert ((r - l) `mod` 2 = 0 ∨ (r - l) `mod` 2 = 1) as [?|?] by lia.
    + replace (r - (l + (r - l) `div` 2) - (l + (r - l) `div` 2 - l)) with 0 by lia.
      set_solver.
    + replace (r - (l + (r - l) `div` 2) - (l + (r - l) `div` 2 - l)) with 1 by lia.
      set_solver.
  - assert ((b - t) `mod` 2 = 0 ∨ (b - t) `mod` 2 = 1) as [?|?] by lia.
    + replace (b - (t + (b - t) `div` 2) - (t + (b - t) `div` 2 - t)) with 0 by lia.
      set_solver.
    + replace (b - (t + (b - t) `div` 2) - (t + (b - t) `div` 2 - t)) with 1 by lia.
      set_solver.
Qed.

Lemma center_inside_rectangle_witness :
  ∃ x y, get_element_center {[ "rectangle" := "(L7, T0, R1928, B1049)" ]}
           = Return (x, y) ∧
    7 ≤ x ≤ 1928 ∧ 0 ≤ y ≤ 1049 ∧
    (1928 - x) - (x - 7) ∈ [0; 1] ∧ (1049 - y) - (y - 0) ∈ [0; 1].
Proof.
  apply (center_inside_rectangle _ "(L7, T0, R1928, B1049)");
    [reflexivity | reflexivity | lia | lia | reflexivity | reflexivity].
Defined.

(** ** Looking a session up *)

(** X5: [get_app] changes nothing.  With an id it returns the record
    registered under it and raises [KeyError] with that id when there is
    none; without an id it does the same with the active id, and when no
    session is active (-1) it looks [None] up and raises [KeyError] with
    [None]. *)
Theorem get_app_cases (w : Windows) :
  (∀ k rec, _apps w !! k = Some rec → get_app (Some k) w = (Return rec, w)) ∧
  (∀ k, _apps w !! k = None →
        get_app (Some k) w = (Raise (Exn KeyError (pretty k)), w)) ∧
  (∀ rec, _active_app_instance w ≠ -1 →
          _apps w !! _active_app_instance w = Some rec →
          get_app None w = (Return rec, w)) ∧
  (_active_app_instance w ≠ -1 → _apps w !! _active_app_instance w = None →
   get_app None w
     = (Raise (Exn KeyError (pretty (_active_app_instance w))), w)) ∧
  (_active_app_instance w = -1 →
   get_app None w = (Raise (Exn KeyError "None"), w)).
Proof.
  unfold get_app, apps_getitem. run_method.
  split; [|split; [|split; [|split]]].
  - by intros k rec ->.
  - by intros k ->.
  - intros rec Hact Hrec. by rewrite bool_decide_eq_true_2, Hrec.
  - intros Hact Hrec. by rewrite bool_decide_eq_true_2, Hrec.
  - intros Hact. by rewrite bool_decide_eq_false_2 by (by intros ?).
Qed.

Lemma get_app_cases_witness :
  let w := (open_executable "notepad.exe" "Untitled - Notepad" __init__).2 in
  (get_app (Some 7) w).1 = Raise (Exn KeyError "7") ∧
  (get_app None __init__).1 = Raise (Exn KeyError "None") ∧
  (get_app None w).1 = (get_app (Some 1) w).1.
Proof.
  cbv zeta. set (w := (open_executable _ _ __init__).2).
  set (rec := (<["dlg" := VWindow (VStr "Untitled - Notepad")]>
                 ({[ "executable" := VStr "notepad.exe";
                     "windowtitle" := VStr "Untitled - Notepad" ]}
                  ∪ {[ "app" := VStarted "notepad.exe"; "id" := VInt 1;
                       "dispatched" := VBool false ]}) : gmap string pyval)).
  destruct (get_app_cases w) as (Hreg & Habs & Hact & _ & _).
  destruct (get_app_cases __init__) as (_ & _ & _ & _ & Hnone).
  split; [|split].
  - rewrite Habs; [reflexivity | vm_compute; reflexivity].
  - rewrite Hnone; reflexivity.
  - rewrite (Hact rec), (Hreg 1 rec);
      [reflexivity | vm_compute; reflexivity
       | vm_compute; discriminate | vm_compute; reflexivity].
Defined.

(** ** Quitting *)

Lemma quit_live (k : Z) (rec : gmap string pyval) (w : Windows) :
  _apps w !! k = Some rec → live_session k rec →
  ∃ c, terminate_call rec = Some c ∧
    quit (Some k) w
    = (Return tt,
       set_active_app_instance (-1)
         (set_apps (<[k := clear_handle rec]> (_apps w))
            (add_backend_call c w))).
Proof.
  intros Hrec (Hid & d & a & Hd & Ha & Hm).
  exists (if truthy d then App_Quit a else App_kill a).
  split; [unfold terminate_call; by rewrite Hd, Ha |].
  unfold quit. run_method.
  rewrite (get_app_registered _ _ _ Hrec).
  unfold getitem. rewrite Hid, Hd, Ha. run_method.
  unfold call_method. unfold terminate_method in Hm.
  destruct (truthy d); rewrite Hm; run_method;
    by erewrite apps_setitem_registered by exact Hrec.
Qed.

(** X6: [quit()] without an id quits the active session; when no session
    is active it raises [KeyError] with [None], and [quit] on an id that is
    not registered raises [KeyError] with that id; in both cases the state is
    as it was and no backend call was made. *)
Theorem quit_defaults_to_active (w : Windows) :
  (_active_app_instance w ≠ -1 →
   quit None w = quit (Some (_active_app_instance w)) w) ∧
  (_active_app_instance w = -1 →
   quit None w = (Raise (Exn KeyError "None"), w)) ∧
  (∀ k, _apps w !! k = None →
        quit (Some k) w = (Raise (Exn KeyError (pretty k)), w)).
Proof.
  unfold quit, get_app, apps_getitem. run_method.
  split; [|split].
  - intros Hact. by rewrite bool_decide_eq_true_2.
  - intros Hact. by rewrite bool_decide_eq_false_2 by (by intros ?).
  - by intros k ->.
Qed.

Lemma quit_defaults_to_active_witness :
  let w := (open_executable "notepad.exe" "Untitled - Notepad" __init__).2 in
  backend_calls (quit None w).2
    = backend_calls w ++ [App_kill (VStarted "notepad.exe")] ∧
  quit None __init__ = (Raise (Exn KeyError "None"), __init__) ∧
  quit (Some 5) w = (Raise (Exn KeyError "5"), w).
Proof.
  cbv zeta. set (w := (open_executable _ _ __init__).2).
  destruct (quit_defaults_to_active w) as (Hact & _ & Habs).
  destruct (quit_defaults_to_active __init__) as (_ & Hnone & _).
  split; [|split].
  - rewrite Hact; [vm_compute; reflexivity | vm_compute; discriminate].
  - apply Hnone. reflexivity.
  - apply Habs. vm_compute. reflexivity.
Defined.

(** ** Closing every application *)

Lemma quit_each_live (ks : list Z) (w : Windows) :
  NoDup ks →
  (∀ k, k ∈ ks → ∃ rec, _apps w !! k = Some rec ∧ live_session k rec) →
  ∃ w', quit_each ks w = (Return tt, w') ∧
    (∀ k, _apps w' !! k
          = if bool_decide (k ∈ ks) then clear_handle <$> _apps w !! k
            else _apps w !! k) ∧
    backend_calls w'
      = backend_calls w ++ omap (λ k, _apps w !! k ≫= terminate_call) ks ∧
    _active_app_instance w'
      = (if bool_decide (ks = []) then _active_app_instance w else -1).
Proof.
  revert w. induction ks as [|k ks IH]; intros w Hnd Hlive.
  { exists w. split; [done |]. split; [done |]. split; [by rewrite app_nil_r | done]. }
  apply NoDup_cons in Hnd as [Hk Hnd].
  destruct (Hlive k) as (rec & Hrec & Hl); [left |].
  destruct (quit_live k rec w Hrec Hl) as (c & Hc & Hquit).
  set (w1 := set_active_app_instance (-1)
               (set_apps (<[k := clear_handle rec]> (_apps w))
                  (add_backend_call c w))) in *.
  destruct (IH w1 Hnd) as (w' & Hrest & Happs & Hcalls & Hact).
  { intros k' Hk'. destruct (Hlive k') as (rec' & Hrec' & Hl'); [by right |].
    exists rec'. split; [|done]. simpl.
    rewrite lookup_insert_ne by (intros ->; done). done. }
  exists w'. split.
  { cbn [quit_each]. by rewrite (bind_returns _ _ _ _ _ Hquit). }
  split; [|split].
  - intros k'. rewrite Happs. simpl.
    destruct (decide (k' = k)) as [->|Hne].
    + rewrite (bool_decide_eq_false_2 (k ∈ ks)) by done.
      rewrite bool_decide_eq_true_2 by left.
      by rewrite lookup_insert_eq, Hrec.
    + rewrite lookup_insert_ne by done.
      destruct (decide (k' ∈ ks)).
      * by rewrite !bool_decide_eq_true_2 by (done || by right).
      * rewrite !bool_decide_eq_false_2; [done | | done].
        intros [?|?]%elem_of_cons; done.
  - rewrite Hcalls. simpl. rewrite Hrec. simpl. rewrite Hc. simpl.
    rewrite <- app_assoc. simpl. do 2 f_equal.
    apply list_omap_ext, Forall2_same_length_lookup_2; [done |].
    intros i k1 k2 Hk1 Hk2. simplify_eq.
    rewrite lookup_insert_ne; [done |].
    intros ->. apply Hk. by eapply list_elem_of_lookup_2.
  - rewrite Hact. simpl. by repeat case_bool_decide.
Qed.

(** X7: when the handle of every registered session has the method
    called under the session's flag (a COM application object with a true
    flag, a pywinauto [Application] with a false one),
    [close_all_applications] returns; it terminates the sessions in
    increasing order of their ids, each by [Quit()] or [kill()] according to
    its dispatch flag, clears the handle of every record, keeps every id in
    the registry, and resets the active pointer unless the registry is
    empty. *)
Theorem close_all_live (w : Windows) :
  (∀ k rec, _apps w !! k = Some rec → live_session k rec) →
  ∃ w', close_all_applications w = (Return tt, w') ∧
    _apps w' = clear_handle <$> _apps w ∧
    backend_calls w'
      = backend_calls w
        ++ omap (λ k, _apps w !! k ≫= terminate_call)
                (merge_sort Z.le (elements (dom (_apps w)))) ∧
    _active_app_instance w'
      = (if bool_decide (_apps w = ∅) then _active_app_instance w else -1).
Proof.
  intros Hlive.
  assert (merge_sort Z.le (elements (dom (_apps w))) ≡ₚ elements (dom (_apps w)))
    as Hperm by apply merge_sort_Permutation.
  destruct (quit_each_live (merge_sort Z.le (elements (dom (_apps w)))) w)
    as (w' & Hq & Happs & Hcalls & Hact).
  { rewrite Hperm. apply NoDup_elements. }
  { intros k Hk. rewrite Hperm in Hk.
    apply elem_of_elements, elem_of_dom in Hk as [rec Hrec]. eauto. }
  exists w'. split; [exact Hq |]. split; [|split; [done |]].
  - apply map_eq. intros k. rewrite Happs, lookup_fmap.
    destruct (decide (k ∈ merge_sort Z.le (elements (dom (_apps w)))))
      as [Hk|Hk]; [by rewrite bool_decide_eq_true_2 |].
    rewrite bool_decide_eq_false_2 by done.
    rewrite Hperm, elem_of_elements, not_elem_of_dom in Hk.
    by rewrite Hk.
  - rewrite Hact. destruct (decide (_apps w = ∅)) as [He|Hne].
    + rewrite !bool_decide_eq_true_2; [done | done |].
      by rewrite He, dom_empty_L, elements_empty.
    + rewrite !bool_decide_eq_false_2; [done | done |].
      intros Hnil. rewrite Hnil in Hperm. apply Hne.
      apply dom_empty_iff_L, leibniz_equiv, elements_empty_iff.
      symmetry in Hperm. by apply Permutation_nil_r in Hperm.
Qed.

Lemma close_all_live_witness :
  let w := (run [Call_open_application "Excel";
                 Call_open_executable "notepad.exe" "Untitled - Notepad"]
                __init__).2 in
  ∃ w', close_all_applications w = (Return tt, w') ∧
    _apps w' = clear_handle <$> _apps w ∧
    backend_calls w'
      = backend_calls w
        ++ [App_Quit (VDispatch "Excel"); App_kill (VStarted "notepad.exe")] ∧
    _active_app_instance w' = -1.
Proof.
  cbv zeta. set (w := (run _ __init__).2).
  destruct (close_all_live w) as (w' & Hc & Happs & Hcalls & Hact).
  { apply (map_Forall_to_list (λ k rec, live_session k rec)).
    set (l := map_to_list _). vm_compute in l. subst l.
    repeat (constructor;
            [split; [reflexivity |]; do 2 eexists;
             split; [reflexivity |]; split; reflexivity |]).
    constructor. }
  exists w'. split; [exact Hc |]. split; [exact Happs |]. split.
  - rewrite Hcalls. f_equal.
  - rewrite Hact. reflexivity.
Defined.

Lemma quit_each_app (pre rest : list Z) (w : Windows) :
  quit_each (pre ++ rest) w
  = match quit_each pre w with
    | (Return _, w') => quit_each rest w'
    | (Raise e, w') => (Raise e, w')
    end.
Proof.
  revert w. induction pre as [|k pre IH]; intros w; [done |].
  rewrite <- app_comm_cons. cbn [quit_each]. unfold mbind, M_bind, bind.
  destruct (quit (Some k) w) as [[[]|e] w1]; [apply IH | done].
Qed.

Lemma quit_stuck_session (k : Z) (rec : gmap string pyval) (w : Windows) :
  _apps w !! k = Some rec → stuck_session rec →
  ∃ e, exn_type e = AttributeError ∧ quit (Some k) w = (Raise e, w).
Proof.
  intros Hrec ([i Hi] & d & a & Hd & Ha & Hm).
  unfold quit. run_method.
  rewrite (get_app_registered _ _ _ Hrec).
  unfold getitem. rewrite Hi, Hd, Ha. run_method.
  unfold call_method. unfold terminate_method in Hm.
  destruct (truthy d); rewrite Hm; (eexists; split; [|reflexivity]; reflexivity).
Qed.

Lemma filter_all_lt (k : Z) (l : list Z) :
  (∀ x, x ∈ l → x < k) → filter (λ x, x < k) l = l.
Proof.
  induction l as [|x l IH]; intros Hl; [done |].
  rewrite filter_cons_True by (apply Hl; left).
  rewrite IH; [done |]. intros y Hy. apply Hl. by right.
Qed.

Lemma filter_none_lt (k : Z) (l : list Z) :
  (∀ x, x ∈ l → k < x) → filter (λ x, x < k) l = [].
Proof.
  induction l as [|x l IH]; intros Hl; [done |].
  rewrite filter_cons_False by (specialize (Hl x ltac:(left)); lia).
  apply IH. intros y Hy. apply Hl. by right.
Qed.

(** X8: [close_all_applications] stops at the first session it cannot
    end.  If the handle of [k] lacks the method called under the flag of
    [k] (it was cleared by an earlier [quit], or it is of the other kind)
    and the handles of the sessions below [k] all have theirs, the call
    raises [AttributeError] after terminating the sessions below [k]: their
    handles are cleared, the records from [k] on are untouched and no
    session above [k] is terminated. *)
Theorem close_all_stops_at_stuck_session (k : Z) (rec : gmap string pyval)
    (w : Windows) :
  _apps w !! k = Some rec → stuck_session rec →
  (∀ k' rec', _apps w !! k' = Some rec' → k' < k → live_session k' rec') →
  ∃ e w', close_all_applications w = (Raise e, w') ∧
    exn_type e = AttributeError ∧
    (∀ k', k' < k → _apps w' !! k' = clear_handle <$> _apps w !! k') ∧
    (∀ k', k ≤ k' → _apps w' !! k' = _apps w !! k') ∧
    backend_calls w'
      = backend_calls w
        ++ omap (λ k', _apps w !! k' ≫= terminate_call)
                (filter (λ k', k' < k)
                        (merge_sort Z.le (elements (dom (_apps w))))).
Proof.
  intros Hrec Hquit Hlive.
  unfold close_all_applications. rewrite bind_read.
  set (L := merge_sort Z.le (elements (dom (_apps w)))).
  assert (L ≡ₚ elements (dom (_apps w))) as Hperm by apply merge_sort_Permutation.
  assert (NoDup L) as Hnd by (rewrite Hperm; apply NoDup_elements).
  assert (StronglySorted Z.le L) as Hsorted
    by (apply StronglySorted_merge_sort; apply _).
  assert (k ∈ L) as Hk.
  { rewrite Hperm, elem_of_elements. by apply elem_of_dom_2 in Hrec. }
  apply list_elem_of_split in Hk as (pre & post & HL).
  rewrite HL in Hnd, Hsorted |- *.
  apply NoDup_app in Hnd as (Hnd_pre & Hpre_k & Hnd_post).
  apply NoDup_cons in Hnd_post as [Hk_post _].
  assert (∀ k', k' ∈ pre → k' < k) as Hpre.
  { intros k' Hk'.
    assert (k' ≤ k) by (eapply StronglySorted_app_1_elem_of; [done | done | left]).
    assert (k' ≠ k) by (intros ->; eapply Hpre_k; [done | left]). lia. }
  assert (∀ k', k' ∈ post → k < k') as Hpost.
  { intros k' Hk'. apply StronglySorted_app_1_r in Hsorted.
    apply StronglySorted_cons in Hsorted as [Hle _].
    rewrite Forall_forall in Hle. specialize (Hle k' Hk').
    assert (k' ≠ k) by (by intros ->). lia. }
  destruct (quit_each_live pre w Hnd_pre) as (w1 & Hq & Happs & Hcalls & _).
  { intros k' Hk'.
    assert (k' ∈ L) as Hin by (rewrite HL, elem_of_app; by left).
    rewrite Hperm in Hin. apply elem_of_elements, elem_of_dom in Hin as [rec' Hrec'].
    exists rec'. split; [done |]. eapply Hlive; [done | by apply Hpre]. }
  assert (_apps w1 !! k = Some rec) as Hrec1.
  { rewrite Happs, bool_decide_eq_false_2; [done |].
    intros Hin%Hpre. lia. }
  destruct (quit_stuck_session k rec w1 Hrec1 Hquit) as (e & He & Hraise).
  exists e, w1. split.
  { rewrite quit_each_app, Hq. cbn [quit_each].
    unfold mbind, M_bind, bind. by rewrite Hraise. }
  split; [done |]. split; [|split].
  - intros k' Hk'. rewrite Happs.
    destruct (decide (k' ∈ pre)); [by rewrite bool_decide_eq_true_2 |].
    rewrite bool_decide_eq_false_2 by done.
    destruct (_apps w !! k') as [rec'|] eqn:Hrec'; [|done].
    exfalso. assert (k' ∈ L) as Hin.
    { rewrite Hperm, elem_of_elements. by apply elem_of_dom_2 in Hrec'. }
    rewrite HL, elem_of_app, elem_of_cons in Hin.
    destruct Hin as [?|[->|Hin%Hpost]]; [done | lia | lia].
  - intros k' Hk'. rewrite Happs, bool_decide_eq_false_2; [done |].
    intros Hin%Hpre. lia.
  - rewrite Hcalls. do 2 f_equal.
    rewrite filter_app, filter_cons_False by lia.
    by rewrite filter_all_lt, filter_none_lt, app_nil_r.
Qed.

Lemma close_all_stops_at_stuck_session_witness :
  let w := (run [Call_open_application "Excel";
                 Call_open_using_run_dialog "calc.exe" "Calculator";
                 Call_open_executable "notepad.exe" "Untitled - Notepad"]
                __init__).2 in
  _apps w !! 2 ≫= (.!! "app") = Some (VDispatch "Excel") ∧
  ∃ e w', close_all_applications w = (Raise e, w') ∧
    exn_type e = AttributeError ∧
    _apps w' !! 3 = _apps w !! 3 ∧
    backend_calls w' = backend_calls w ++ [App_Quit (VDispatch "Excel")].
Proof.
  cbv zeta. set (w := (run _ __init__).2).
  split; [vm_compute; reflexivity |].
  set (rec := (<["dlg" := VWindow (VStr "Calculator")]>
                 ({[ "windowtitle" := VStr "Calculator";
                     "executable" := VStr "calc.exe" ]}
                  ∪ {[ "app" := VDispatch "Excel"; "id" := VInt 2;
                       "dispatched" := VBool false ]}) : gmap string pyval)).
  destruct (close_all_stops_at_stuck_session 2 rec w)
    as (e & w' & Hc & He & _ & Hkept & Hcalls).
  { vm_compute. reflexivity. }
  { split; [by eexists |]. exists (VBool false), (VDispatch "Excel").
    split; [reflexivity |]. split; reflexivity. }
  { apply (map_Forall_to_list (λ k rec, k < 2 → live_session k rec)).
    set (l := map_to_list _). vm_compute in l. subst l.
    repeat (constructor;
            [simpl; intros Hlt;
             first [ lia
                   | split; [reflexivity |]; do 2 eexists;
                     split; [reflexivity |]; split; reflexivity ] |]).
    constructor. }
  exists e, w'. split; [exact Hc |]. split; [exact He |].
  split; [apply Hkept; lia |].
  rewrite Hcalls. f_equal.
Defined.

(** ** Switching to a registered session *)

(** X9: [switch_to_application] on a registered id other than 0 whose
    record holds a non-empty window title returns: the session becomes the
    active one, the dialog is attached by that title and stored in the
    record, and after a delay of half a second the dialog is restored.  When
    the record's handle is [None] (the session was quit) the application is
    connected to again through the dialog, and the new handle is stored;
    otherwise the record's handle becomes the object's. *)
Theorem switch_to_registered (k : Z) (rec : gmap string pyval) (a t : pyval)
    (w : Windows) :
  k ≠ 0 → _apps w !! k = Some rec →
  rec !! "app" = Some a → rec !! "windowtitle" = Some t → truthy t = true →
  let w' := (switch_to_application k w).2 in
  let reconnected := bool_decide (a = VNone) in
  (switch_to_application k w).1 = Return tt ∧
  _active_app_instance w' = k ∧
  windowtitle w' = t ∧ dlg w' = VWindow t ∧
  app w' = (if reconnected then VConnected (VWindow t) else a) ∧
  backend_calls w'
    = backend_calls w
      ++ (if reconnected then [Application_connect (VWindow t)] else [])
      ++ [Delay (Some (1 # 2)%Q); Dlg_restore (VWindow t)] ∧
  _apps w'
    = <[k := (if reconnected
              then <["app" := VConnected (VWindow t)]>
                     (<["dlg" := VWindow t]> rec)
              else <["dlg" := VWindow t]> rec)]> (_apps w).
Proof.
  intros Hk Hrec Ha Ht Htruthy. cbv zeta.
  unfold switch_to_application. rewrite bind_read.
  rewrite (proj2 (Z.eqb_neq k 0) Hk).
  rewrite bool_decide_eq_true_2 by (by apply elem_of_dom_2 in Hrec).
  cbn [negb andb].
  rewrite (bind_returns _ _ _ _ _ (get_app_registered _ _ _ Hrec)).
  unfold getitem. rewrite Ha, Ht.
  unfold open_dialog, restore_dialog, call_method. run_method.
  rewrite Htruthy.
  unfold apps_setitem, apps_getitem, getitem. run_method.
  rewrite Hrec. run_method.
  rewrite lookup_insert_eq. run_method.
  rewrite lookup_insert_ne by done. rewrite Ha. run_method.
  case_bool_decide; run_method.
  - unfold connect_by_handle, apps_setitem, apps_getitem. run_method.
    rewrite lookup_insert_eq. run_method.
    rewrite insert_insert_eq. repeat split; by rewrite <- ?app_assoc.
  - repeat split; by rewrite <- ?app_assoc.
Qed.

Lemma switch_to_registered_witness :
  let w := (run [Call_open_executable "notepad.exe" "Untitled - Notepad";
                 Call_quit (Some 1)] __init__).2 in
  let w' := (switch_to_application 1 w).2 in
  _active_app_instance w = -1 ∧
  (switch_to_application 1 w).1 = Return tt ∧
  _active_app_instance w' = 1 ∧
  app w' = VConnected (VWindow (VStr "Untitled - Notepad")) ∧
  backend_calls w'
    = backend_calls w
      ++ [Application_connect (VWindow (VStr "Untitled - Notepad"));
          Delay (Some (1 # 2)%Q);
          Dlg_restore (VWindow (VStr "Untitled - Notepad"))].
Proof.
  cbv zeta. set (w := (run _ __init__).2).
  set (rec := (<["app" := VNone]>
                 (<["dlg" := VWindow (VStr "Untitled - Notepad")]>
                    ({[ "executable" := VStr "notepad.exe";
                        "windowtitle" := VStr "Untitled - Notepad" ]}
                     ∪ {[ "app" := VStarted "notepad.exe"; "id" := VInt 1;
                          "dispatched" := VBool false ]})) : gmap string pyval)).
  split; [vm_compute; reflexivity |].
  destruct (switch_to_registered 1 rec VNone (VStr "Untitled - Notepad") w)
    as (Hr & Hact & _ & _ & Happ & Hcalls & _);
    [lia | vm_compute; reflexivity | reflexivity | reflexivity | reflexivity |].
  split; [exact Hr |]. split; [exact Hact |]. split; [exact Happ | exact Hcalls].
Defined.

(** X10: [switch_to_application] on a registered id other than 0 whose
    record has no window title (a session opened by [open_application])
    raises [KeyError] with ['windowtitle'], after it has moved the active
    pointer to that id and taken the record's handle; no backend call is
    made. *)
Theorem switch_without_windowtitle (k : Z) (rec : gmap string pyval) (a : pyval)
    (w : Windows) :
  k ≠ 0 → _apps w !! k = Some rec →
  rec !! "app" = Some a → rec !! "windowtitle" = None →
  switch_to_application k w
  = (Raise (Exn KeyError "'windowtitle'"),
     set_app a (set_active_app_instance k w)).
Proof.
  intros Hk Hrec Ha Ht.
  unfold switch_to_application. rewrite bind_read.
  rewrite (proj2 (Z.eqb_neq k 0) Hk).
  rewrite bool_decide_eq_true_2 by (by apply elem_of_dom_2 in Hrec).
  cbn [negb andb].
  rewrite (bind_returns _ _ _ _ _ (get_app_registered _ _ _ Hrec)).
  unfold getitem. rewrite Ha, Ht. reflexivity.
Qed.

Lemma switch_without_windowtitle_witness :
  let w := (run [Call_open_application "Excel";
                 Call_open_executable "notepad.exe" "Untitled - Notepad"]
                __init__).2 in
  _active_app_instance w = 2 ∧
  (switch_to_application 1 w).1 = Raise (Exn KeyError "'windowtitle'") ∧
  _active_app_instance (switch_to_application 1 w).2 = 1 ∧
  app (switch_to_application 1 w).2 = VDispatch "Excel" ∧
  backend_calls (switch_to_application 1 w).2 = backend_calls w.
Proof.
  cbv zeta. set (w := (run _ __init__).2).
  split; [vm_compute; reflexivity |].
  rewrite (switch_without_windowtitle 1
             {[ "app" := VDispatch "Excel"; "id" := VInt 1;
                "dispatched" := VBool true ]} (VDispatch "Excel") w);
    [| lia | vm_compute; reflexivity | reflexivity | reflexivity].
  repeat split.
Defined.

(** ** Attaching a dialog *)

Lemma open_dialog_exact (title : pyval) (highlight : bool)
    (rec : gmap string pyval) (a : pyval) (w : Windows) :
  _apps w !! _active_app_instance w = Some rec → rec !! "app" = Some a →
  open_dialog title highlight w
  = (Return tt, after_open_dialog title highlight rec a w).
Proof.
  intros Hrec Ha. unfold open_dialog, after_open_dialog, dialog_title.
  destruct (truthy title); run_method.
  all: unfold apps_setitem, apps_getitem, getitem; run_method.
  all: rewrite Hrec; run_method.
  all: rewrite lookup_insert_eq; run_method.
  all: rewrite lookup_insert_ne by done; rewrite Ha; run_method.
  all: case_bool_decide; run_method.
  all: unfold connect_by_handle, apps_setitem, apps_getitem; run_method.
  all: rewrite ?lookup_insert_eq; run_method.
  all: destruct highlight; unfold call_method; run_method.
  all: unfold set_apps, set_app, set_dlg, set_windowtitle, add_backend_call; simpl.
  all: by rewrite ?insert_insert_eq, ?app_nil_r, <- ?app_assoc.
Qed.

(** X11: with the active session registered, [open_dialog] returns.  The
    title used is the one given, or the object's when the one given is
    empty or [None]; the dialog of that title becomes the object's and the
    record's; only when the record holds no handle is the application
    connected to through the dialog; the dialog is outlined only when
    [highlight] is set; the active pointer does not move. *)
Theorem open_dialog_state (title : pyval) (highlight : bool)
    (rec : gmap string pyval) (a : pyval) (w : Windows) :
  _apps w !! _active_app_instance w = Some rec → rec !! "app" = Some a →
  let w' := (open_dialog title highlight w).2 in
  let d := VWindow (dialog_title title w) in
  (open_dialog title highlight w).1 = Return tt ∧
  dlg w' = d ∧ windowtitle w' = dialog_title title w ∧
  _active_app_instance w' = _active_app_instance w ∧
  (a ≠ VNone →
     app w' = app w ∧
     _apps w' = <[_active_app_instance w := <["dlg" := d]> rec]> (_apps w) ∧
     backend_calls w'
       = backend_calls w ++ (if highlight then [Dlg_draw_outline d] else [])) ∧
  (a = VNone →
     app w' = VConnected d ∧
     _apps w' = <[_active_app_instance w :=
                    <["app" := VConnected d]> (<["dlg" := d]> rec)]> (_apps w) ∧
     backend_calls w'
       = backend_calls w ++ [Application_connect d]
         ++ (if highlight then [Dlg_draw_outline d] else [])).
Proof.
  intros Hrec Ha. cbv zeta. rewrite (open_dialog_exact _ _ _ _ _ Hrec Ha).
  unfold after_open_dialog. simpl.
  split; [done |]. split; [done |]. split; [done |]. split; [done |].
  split; intros Hnone.
  - by rewrite !bool_decide_eq_false_2 by done.
  - by rewrite !bool_decide_eq_true_2 by done.
Qed.

Lemma open_dialog_state_witness :
  let w := (run [Call_open_executable "notepad.exe" "Untitled - Notepad"]
                __init__).2 in
  let w' := (open_dialog VNone true w).2 in
  dlg w' = VWindow (VStr "Untitled - Notepad") ∧
  backend_calls w'
    = backend_calls w ++ [Dlg_draw_outline (VWindow (VStr "Untitled - Notepad"))].
Proof.
  cbv zeta. set (w := (run _ __init__).2).
  set (rec := (<["dlg" := VWindow (VStr "Untitled - Notepad")]>
                 ({[ "executable" := VStr "notepad.exe";
                     "windowtitle" := VStr "Untitled - Notepad" ]}
                  ∪ {[ "app" := VStarted "notepad.exe"; "id" := VInt 1;
                       "dispatched" := VBool false ]}) : gmap string pyval)).
  destruct (open_dialog_state VNone true rec (VStarted "notepad.exe") w)
    as (_ & Hdlg & _ & _ & Hlive & _); [vm_compute; reflexivity | reflexivity |].
  destruct Hlive as (_ & _ & Hcalls); [discriminate |].
  split; [exact Hdlg | exact Hcalls].
Defined.

(** ** What the ways to open an application leave behind *)

Lemma add_app_instance_exact (app_ : pyval) (dialog : bool)
    (params : option (gmap string pyval)) (a' : pyval) (w : Windows) :
  let id := _app_instance_id w + 1 in
  let a := if bool_decide (app_ = VNone) then app w else app_ in
  let rec := merged_record id a params in
  rec !! "app" = Some a' →
  _add_app_instance app_ dialog params w
  = (Return id,
     if dialog
     then after_open_dialog (default VNone (rec !! "windowtitle")) false rec a'
            (registered id a rec w)
     else registered id a rec w).
Proof.
  cbv zeta. intros Happ.
  set (id := _app_instance_id w + 1) in *.
  set (a := if bool_decide (app_ = VNone) then app w else app_) in *.
  set (rec := merged_record id a params) in *.
  transitivity
    (((if dialog
       then rec' ← apps_getitem (VInt id);
            open_dialog (default VNone (rec' !! "windowtitle")) false
       else ret tt);; read _active_app_instance) (registered id a rec w)).
  - subst rec a id. unfold _add_app_instance, registered, merged_record.
    destruct params as [p|]; [destruct (bool_decide (p ≠ ∅)) eqn:Hp |];
      destruct (bool_decide (app_ = VNone)) eqn:Hnone;
      unfold mbind, M_bind, bind, update, read, ret; simpl;
      rewrite ?Hp, ?Hnone; reflexivity.
  - assert (_apps (registered id a rec w) !! id = Some rec) as Hrec
      by apply lookup_insert_eq.
    destruct dialog; [|done].
    assert (_active_app_instance (registered id a rec w) = id) as Hact by done.
    rewrite (bind_returns _ _ _
               (after_open_dialog (default VNone (rec !! "windowtitle")) false
                  rec a' (registered id a rec w)) tt).
    + reflexivity.
    + rewrite (bind_returns _ _ _ _ _ (apps_getitem_registered _ _ _ Hrec)).
      apply open_dialog_exact; [exact Hrec | exact Happ].
Qed.

Lemma merged_record_executable (id : Z) (a : pyval) (executable title : string) :
  merged_record id a
    (Some {[ "executable" := VStr executable; "windowtitle" := VStr title ]})
  = {[ "app" := a; "id" := VInt id; "dispatched" := VBool false;
       "executable" := VStr executable; "windowtitle" := VStr title ]}.
Proof.
  unfold merged_record.
  rewrite bool_decide_eq_true_2 by apply insert_non_empty.
  apply map_eq. intros k.
  destruct (decide (k = "executable")) as [->|?]; [by simplify_map_eq |].
  destruct (decide (k = "windowtitle")) as [->|?]; [by simplify_map_eq |].
  destruct (decide (k = "app")) as [->|?]; [by simplify_map_eq |].
  destruct (decide (k = "id")) as [->|?]; [by simplify_map_eq |].
  destruct (decide (k = "dispatched")) as [->|?]; [by simplify_map_eq |].
  rewrite lookup_union. by simplify_map_eq.
Qed.

Lemma params_order (executable title : string) :
  ({[ "windowtitle" := VStr title; "executable" := VStr executable ]}
     : gmap string pyval)
  = {[ "executable" := VStr executable; "windowtitle" := VStr title ]}.
Proof.
  apply map_eq. intros k.
  destruct (decide (k = "executable")) as [->|?]; [by simplify_map_eq |].
  destruct (decide (k = "windowtitle")) as [->|?]; by simplify_map_eq.
Qed.

Lemma send_keys_to_input_default (keys : string) (w : Windows) :
  send_keys_to_input keys true 1%Q (7 # 2)%Q w
  = (Return tt,
     mkWindows (_apps w) (_app_instance_id w) (_active_app_instance w) (app w)
       (dlg w) (windowtitle w)
       (backend_calls w
        ++ [LoadKeyboardLayout "00000409" 1; Keyboard_send_keys keys;
            Delay (Some 1%Q); Keyboard_send_keys "{ENTER}";
            Delay (Some (7 # 2)%Q)])
       (debug_log w)).
Proof.
  unfold send_keys_to_input, send_keys. run_method.
  unfold add_backend_call. simpl. by rewrite <- !app_assoc.
Qed.

Lemma record_with_dialog (a d : pyval) (id : Z) (executable title : string) :
  <["dlg" := d]>
    ({[ "app" := a; "id" := VInt id; "dispatched" := VBool false;
        "executable" := VStr executable; "windowtitle" := VStr title ]}
       : gmap string pyval)
  = {[ "app" := a; "id" := VInt id; "dispatched" := VBool false;
       "executable" := VStr executable; "windowtitle" := VStr title;
       "dlg" := d ]}.
Proof.
  apply map_eq. intros k.
  destruct (decide (k = "dlg")) as [->|?]; [by simplify_map_eq |].
  destruct (decide (k = "executable")) as [->|?]; [by simplify_map_eq |].
  destruct (decide (k = "windowtitle")) as [->|?]; [by simplify_map_eq |].
  destruct (decide (k = "app")) as [->|?]; [by simplify_map_eq |].
  destruct (decide (k = "id")) as [->|?]; [by simplify_map_eq |].
  destruct (decide (k = "dispatched")) as [->|?]; by simplify_map_eq.
Qed.

(** X12: [open_executable] always returns the counter plus one.  The
    backend is called once, to start the executable; the new record holds the
    started application, the id, the dispatch flag [False], the executable,
    the window title and the dialog of that title; it becomes the active
    session, and no connection by handle is made. *)
Theorem open_executable_state (executable title : string) (w : Windows) :
  let id := _app_instance_id w + 1 in
  let d := VWindow (VStr title) in
  open_executable executable title w
  = (Return id,
     mkWindows
       (<[id := {[ "app" := VStarted executable; "id" := VInt id;
                   "dispatched" := VBool false;
                   "executable" := VStr executable;
                   "windowtitle" := VStr title; "dlg" := d ]}]> (_apps w))
       id id (VStarted executable) d (VStr title)
       (backend_calls w ++ [Application_start executable]) (debug_log w)).
Proof.
  cbv zeta. unfold open_executable. run_method.
  rewrite (add_app_instance_exact _ _ _ (VStarted executable)); cycle 1.
  { cbn [app set_app set_windowtitle add_backend_call].
    rewrite ?(bool_decide_eq_false_2 (VStarted executable = VNone)) by done.
    rewrite merged_record_executable. by simplify_map_eq. }
  cbn [app set_app set_windowtitle add_backend_call _app_instance_id].
  rewrite ?(bool_decide_eq_false_2 (VStarted executable = VNone)) by done.
  rewrite merged_record_executable.
  replace (default VNone _) with (VStr title) by by simplify_map_eq.
  unfold after_open_dialog, registered, dialog_title. simpl.
  rewrite ?(bool_decide_eq_false_2 (VStarted executable = VNone)) by done.
  rewrite insert_insert_eq, record_with_dialog, app_nil_r.
  by destruct (String.eqb title "").
Qed.

Lemma merged_record_dispatched (id : Z) (a : pyval) :
  merged_record id a (Some {[ "dispatched" := VBool true ]})
  = {[ "app" := a; "id" := VInt id; "dispatched" := VBool true ]}.
Proof.
  unfold merged_record.
  rewrite bool_decide_eq_true_2 by apply insert_non_empty.
  apply map_eq. intros k.
  destruct (decide (k = "dispatched")) as [->|?]; [by simplify_map_eq |].
  destruct (decide (k = "app")) as [->|?]; [by simplify_map_eq |].
  destruct (decide (k = "id")) as [->|?]; [by simplify_map_eq |].
  rewrite lookup_union. by simplify_map_eq.
Qed.

(** X13: [open_application] always returns the counter plus one.  It
    asks the backend for [<application>.Application], writes [Visible =
    True] to the new COM object and, when the object held before the call
    is a backend object, writes [DisplayAlerts = False] to the new one under
    the guard [hasattr] of the object held before; on an object that holds a
    plain value ([None] when fresh) there is no third call.  The new record
    holds the dispatched object, the id and the dispatch flag [True] and
    nothing else; it becomes the active session; the dialog and the window
    title of the object are not touched. *)
Theorem open_application_state (application : string) (w : Windows) :
  let id := _app_instance_id w + 1 in
  let com := VDispatch application in
  open_application application w
  = (Return id,
     mkWindows
       (<[id := {[ "app" := com; "id" := VInt id;
                   "dispatched" := VBool true ]}]> (_apps w))
       id id com (dlg w) (windowtitle w)
       (backend_calls w
        ++ [EnsureDispatch (application +:+ ".Application");
            Com_put com "Visible" (VBool true)]
        ++ (if is_backend_object (app w)
            then [Com_put_if_hasattr (app w) com "DisplayAlerts" (VBool false)]
            else []))
       (debug_log w)).
Proof.
  cbv zeta. unfold open_application. rewrite !bind_call, bind_read.
  cbn [app add_backend_call].
  set (w1 := add_backend_call _ (add_backend_call _ w)).
  assert (∀ w2, _apps w2 = _apps w → _app_instance_id w2 = _app_instance_id w →
                _add_app_instance (VDispatch application) false
                  (Some {[ "dispatched" := VBool true ]}) w2
                = (Return (_app_instance_id w + 1),
                   mkWindows
                     (<[_app_instance_id w + 1 :=
                          {[ "app" := VDispatch application;
                             "id" := VInt (_app_instance_id w + 1);
                             "dispatched" := VBool true ]}]> (_apps w))
                     (_app_instance_id w + 1) (_app_instance_id w + 1)
                     (VDispatch application) (dlg w2) (windowtitle w2)
                     (backend_calls w2) (debug_log w2))) as Hadd.
  { intros w2 Happs Hcnt.
    rewrite (add_app_instance_exact _ _ _ (VDispatch application)); cycle 1.
    { rewrite ?(bool_decide_eq_false_2 (VDispatch application = VNone)) by done.
      rewrite merged_record_dispatched. by simplify_map_eq. }
    rewrite ?(bool_decide_eq_false_2 (VDispatch application = VNone)) by done.
    rewrite merged_record_dispatched.
    unfold registered. simpl. by rewrite Happs, Hcnt. }
  destruct (is_backend_object (app w)).
  - rewrite bind_call, Hadd by done. subst w1. simpl.
    by rewrite <- !app_assoc.
  - rewrite (bind_returns _ _ w1 w1 tt) by done.
    rewrite Hadd by done. subst w1. simpl.
    by rewrite <- ?app_assoc, ?app_nil_r.
Qed.

Lemma opened_by_keys (first_key executable title : string) (w : Windows) :
  let id := _app_instance_id w + 1 in
  let d := VWindow (dialog_title (VStr title) w) in
  let connect := bool_decide (app w = VNone) in
  let a := if connect then VConnected d else app w in
  (send_keys first_key;; delay (Some 1%Q);;
   send_keys_to_input executable true 1%Q (7 # 2)%Q;;
   _add_app_instance VNone true
     (Some {[ "executable" := VStr executable; "windowtitle" := VStr title ]})) w
  = (Return id,
     mkWindows
       (<[id := {[ "app" := a; "id" := VInt id; "dispatched" := VBool false;
                   "executable" := VStr executable;
                   "windowtitle" := VStr title; "dlg" := d ]}]> (_apps w))
       id id a d (dialog_title (VStr title) w)
       (backend_calls w ++ typed_command first_key executable
        ++ (if connect then [Application_connect d] else []))
       (debug_log w)).
Proof.
  cbv zeta. unfold send_keys at 1. unfold delay at 1.
  rewrite bind_call, bind_call.
  rewrite (bind_returns _ _ _ _ _ (send_keys_to_input_default _ _)).
  set (w1 := mkWindows _ _ _ _ _ _ _ _).
  rewrite (add_app_instance_exact _ _ _ (app w)); cycle 1.
  { rewrite merged_record_executable. by simplify_map_eq. }
  rewrite bool_decide_eq_true_2 by done.
  rewrite merged_record_executable.
  replace (default VNone _) with (VStr title) by by simplify_map_eq.
  unfold after_open_dialog, registered, dialog_title, w1, typed_command. simpl.
  rewrite insert_insert_eq.
  rewrite record_with_dialog, <- !app_assoc.
  destruct (bool_decide (app w = VNone)); simpl.
  - by rewrite insert_insert_eq.
  - by rewrite ?app_nil_r.
Qed.

(** X14: [open_using_run_dialog] and [open_from_search] always return the
    counter plus one, and differ in the first key sent only.  After the
    keystrokes the new record holds the handle the object held before the
    call; only when the object held none is the application connected to
    through the dialog of the window title, and that connection stored. *)
Theorem open_by_typing_state (executable title : string) (w : Windows) :
  open_using_run_dialog executable title w
  = (Return (_app_instance_id w + 1),
     opened_by_typing "{VK_LWIN down}r{VK_LWIN up}" executable title w) ∧
  open_from_search executable title w
  = (Return (_app_instance_id w + 1),
     opened_by_typing "{LWIN}" executable title w).
Proof.
  unfold open_using_run_dialog, open_from_search. cbv zeta.
  rewrite params_order. split; apply opened_by_keys.
Qed.

Lemma quit_active (w : Windows) :
  _active_app_instance w ≠ -1 →
  quit None w = quit (Some (_active_app_instance w)) w.
Proof.
  intros Hact. unfold quit, get_app, apps_getitem. run_method.
  by rewrite bool_decide_eq_true_2.
Qed.

(** X15: when the object holds a handle, a session opened by
    [open_using_run_dialog] takes that handle over instead of one of its
    own, and makes no connection to the window of the new executable.
    [quit()] right after it therefore reaches the application held before:
    when that is a pywinauto [Application], it is the one [kill()] is
    called on; when it has no [kill] (a COM object, after
    [open_application]), [quit()] raises [AttributeError], no application
    is ended, and the new session stays active with that handle. *)
Theorem quit_after_typing_kills_held_application
    (executable title : string) (w : Windows) :
  app w ≠ VNone → 0 ≤ _app_instance_id w →
  let id := _app_instance_id w + 1 in
  let out := (open_using_run_dialog executable title;; quit None) w in
  let typed :=
    backend_calls w ++ typed_command "{VK_LWIN down}r{VK_LWIN up}" executable in
  (has_method (app w) "kill" = true →
     out.1 = Return tt ∧
     backend_calls out.2 = typed ++ [App_kill (app w)] ∧
     app out.2 = app w ∧
     (∃ rec, _apps out.2 !! id = Some rec ∧ rec !! "app" = Some VNone ∧
             rec !! "executable" = Some (VStr executable))) ∧
  (has_method (app w) "kill" = false →
     (∃ e, out.1 = Raise e ∧ exn_type e = AttributeError) ∧
     backend_calls out.2 = typed ∧
     _active_app_instance out.2 = id ∧
     (∃ rec, _apps out.2 !! id = Some rec ∧ rec !! "app" = Some (app w))).
Proof.
  intros Hheld Hid. cbv zeta.
  rewrite (bind_returns _ _ _ _ _ (opened_by_keys _ executable title w)
             : (open_using_run_dialog executable title;; quit None) w = _).
  set (w1 := mkWindows _ _ _ _ _ _ _ _).
  set (id := _app_instance_id w + 1).
  set (rec := ({[ "app" := app w; "id" := VInt id; "dispatched" := VBool false;
                  "executable" := VStr executable; "windowtitle" := VStr title;
                  "dlg" := VWindow (dialog_title (VStr title) w) ]}
               : gmap string pyval)).
  assert (_apps w1 !! id = Some rec) as Hrec.
  { subst w1. simpl. rewrite lookup_insert_eq.
    by rewrite !bool_decide_eq_false_2 by done. }
  assert (backend_calls w1
          = backend_calls w
            ++ typed_command "{VK_LWIN down}r{VK_LWIN up}" executable) as Hcalls.
  { subst w1. simpl. rewrite !bool_decide_eq_false_2 by done.
    by rewrite ?app_nil_r. }
  assert (app w1 = app w) as Happ
    by (subst w1; simpl; by rewrite !bool_decide_eq_false_2 by done).
  assert (_active_app_instance w1 = id) as Hact by done.
  clearbody w1.
  rewrite quit_active by (rewrite Hact; lia). rewrite Hact.
  split; intros Hkill.
  - destruct (quit_live id rec w1 Hrec) as (c & Hc & ->).
    { split; [by simplify_map_eq |]. exists (VBool false), (app w).
      split; [by simplify_map_eq |]. split; [by simplify_map_eq | done]. }
    assert (c = App_kill (app w)) as ->.
    { unfold terminate_call in Hc. subst rec. by simplify_map_eq. }
    split; [done |]. cbn [snd backend_calls app _apps set_active_app_instance
                          set_apps add_backend_call].
    split; [by rewrite Hcalls |]. split; [done |].
    eexists. split; [apply lookup_insert_eq |].
    unfold clear_handle. subst rec. split; by simplify_map_eq.
  - destruct (quit_stuck_session id rec w1 Hrec) as (e & He & ->).
    { split; [by eexists |]. exists (VBool false), (app w).
      split; [by simplify_map_eq |]. split; [by simplify_map_eq | done]. }
    split; [by exists e |]. cbn [snd]. split; [done |]. split; [done |].
    exists rec. split; [done | by simplify_map_eq].
Qed.

Lemma quit_after_typing_kills_held_application_witness :
  let notepad := (open_executable "notepad.exe" "Untitled - Notepad" __init__).2 in
  let excel := (open_application "Excel" __init__).2 in
  backend_calls
    ((open_using_run_dialog "calc.exe" "Calculator";; quit None) notepad).2
  = (backend_calls notepad
     ++ typed_command "{VK_LWIN down}r{VK_LWIN up}" "calc.exe")
    ++ [App_kill (VStarted "notepad.exe")] ∧
  backend_calls
    ((open_using_run_dialog "calc.exe" "Calculator";; quit None) excel).2
  = backend_calls excel
    ++ typed_command "{VK_LWIN down}r{VK_LWIN up}" "calc.exe" ∧
  _active_app_instance
    ((open_using_run_dialog "calc.exe" "Calculator";; quit None) excel).2 = 2.
Proof.
  cbv zeta.
  set (notepad := (open_executable _ _ __init__).2).
  set (excel := (open_application _ __init__).2).
  destruct (quit_after_typing_kills_held_application "calc.exe" "Calculator"
              notepad) as [Hkill _]; [discriminate | vm_compute; discriminate |].
  destruct (quit_after_typing_kills_held_application "calc.exe" "Calculator"
              excel) as [_ Hstuck]; [discriminate | vm_compute; discriminate |].
  destruct Hkill as (_ & Hcalls & _); [reflexivity |].
  destruct Hstuck as (_ & Hcalls' & Hact & _); [reflexivity |].
  split; [exact Hcalls |]. split; [exact Hcalls' | exact Hact].
Defined.

(** ** Locator clicks that cannot start or cannot finish *)

(** X16: a locator click on an object without a dialog raises
    [AttributeError] for [wait] and changes nothing; with a dialog but an
    active pointer that is not in the registry (after [quit], say) it waits
    for the dialog, attaches it again and raises [KeyError] with the active
    pointer, whatever the locator and the elements are. *)
Theorem locator_click_needs_dialog_and_session (elements : list element)
    (locator : string) (off_x off_y : Z) (ctype : string) (screenshot_ : bool)
    (w : Windows) :
  (is_backend_object (dlg w) = false →
   mouse_click_locator elements locator off_x off_y ctype screenshot_ w
   = (Raise (Exn AttributeError
        ("'" +:+ type_name (dlg w) +:+ "' object has no attribute 'wait'")), w)) ∧
  (is_backend_object (dlg w) = true →
   _apps w !! _active_app_instance w = None →
   mouse_click_locator elements locator off_x off_y ctype screenshot_ w
   = (Raise (Exn KeyError (pretty (_active_app_instance w))),
      mkWindows (_apps w) (_app_instance_id w) (_active_app_instance w) (app w)
        (VWindow (windowtitle w)) (windowtitle w)
        (backend_calls w ++ [Dlg_wait (dlg w) "exists enabled visible ready"])
        (debug_log w))).
Proof.
  unfold mouse_click_locator. rewrite bind_read.
  unfold call_method, has_method. cbn [String.eqb Ascii.eqb Bool.eqb].
  split.
  - intros ->. reflexivity.
  - intros -> Hnone. rewrite bind_call, bind_read.
    unfold open_dialog, apps_setitem, apps_getitem.
    cbn [windowtitle add_backend_call].
    destruct (truthy (windowtitle w)); run_method; by rewrite Hnone.
Qed.

Lemma locator_click_needs_dialog_and_session_witness :
  let w := ((open_executable "notepad.exe" "Untitled - Notepad";; quit None)
              __init__).2 in
  mouse_click_locator [] "name:File" 0 0 "click" false __init__
  = (Raise (Exn AttributeError "'NoneType' object has no attribute 'wait'"),
     __init__) ∧
  (mouse_click_locator [] "name:File" 0 0 "click" false w).1
  = Raise (Exn KeyError "-1").
Proof.
  cbv zeta. set (w := (_ __init__).2).
  destruct (locator_click_needs_dialog_and_session [] "name:File" 0 0 "click"
              false __init__) as [Hinit _].
  destruct (locator_click_needs_dialog_and_session [] "name:File" 0 0 "click"
              false w) as [_ Hquit].
  split.
  - apply Hinit. reflexivity.
  - rewrite Hquit; [reflexivity | reflexivity | vm_compute; reflexivity].
Defined.

(** ** What makes a click *)

Create HintDb quiet_db discriminated.

Lemma quiet_ret {A} (a : A) : quiet (ret a).
Proof. by intros w. Qed.

Lemma quiet_raise {A} (e : exn) : quiet (@raise A e).
Proof. by intros w. Qed.

Lemma quiet_read {A} (f : Windows → A) : quiet (read f).
Proof. by intros w. Qed.

Lemma quiet_lift {A} (r : result A) : quiet (lift r).
Proof. by intros w. Qed.

Lemma quiet_update (f : Windows → Windows) :
  (∀ w, backend_calls (f w) = backend_calls w) → quiet (update f).
Proof. intros Hf w. unfold clicks, update. simpl. by rewrite Hf. Qed.

Lemma quiet_call (c : backend_call) : is_click c = false → quiet (call c).
Proof.
  intros Hc w. unfold call, update. cbn [snd].
  by rewrite clicks_add_backend_call, Hc, app_nil_r.
Qed.

Lemma quiet_bind {A B} (m : M A) (k : A → M B) :
  quiet m → (∀ a, quiet (k a)) → quiet (x ← m; k x).
Proof.
  intros Hm Hk w. specialize (Hm w).
  unfold mbind, M_bind, bind. destruct (m w) as [[a|e] w']; [|done].
  by rewrite Hk.
Qed.

Lemma quiet_fmap {A B} (f : A → B) (m : M A) : quiet m → quiet (f <$> m).
Proof. intros Hm. apply quiet_bind; [done |]. intros a. apply quiet_ret. Qed.

#[local] Hint Resolve quiet_ret quiet_raise quiet_read quiet_lift : quiet_db.
#[local] Hint Extern 2 (quiet (mbind _ _)) =>
  apply quiet_bind; [|intros ?] : quiet_db.
#[local] Hint Extern 2 (quiet (fmap _ _)) => apply quiet_fmap : quiet_db.
#[local] Hint Extern 2 (quiet (update _)) =>
  apply quiet_update; by intros ? : quiet_db.
#[local] Hint Extern 2 (quiet (call _)) => apply quiet_call; reflexivity : quiet_db.
#[local] Hint Extern 2 (quiet (delay _)) => apply quiet_call; reflexivity : quiet_db.
#[local] Hint Extern 3 (quiet (if ?b then _ else _)) => destruct b : quiet_db.
#[local] Hint Extern 3 (quiet (match ?x with _ => _ end)) => destruct x : quiet_db.

Lemma quiet_getitem (d : gmap string pyval) (key : string) : quiet (getitem d key).
Proof. unfold getitem. eauto 60 with quiet_db. Qed.

Lemma quiet_apps_getitem (key : pyval) : quiet (apps_getitem key).
Proof. unfold apps_getitem. eauto 60 with quiet_db. Qed.

#[local] Hint Resolve quiet_getitem quiet_apps_getitem : quiet_db.

Lemma quiet_apps_setitem (key : pyval) (field : string) (v : pyval) :
  quiet (apps_setitem key field v).
Proof. unfold apps_setitem. eauto 60 with quiet_db. Qed.

Lemma quiet_call_method (obj : pyval) (name : string) (c : backend_call) :
  is_click c = false → quiet (call_method obj name c).
Proof.
  intros Hc. unfold call_method.
  destruct (has_method obj name); [by apply quiet_call | apply quiet_raise].
Qed.

Lemma quiet_handle_of (obj : pyval) : quiet (handle_of obj).
Proof. unfold handle_of. eauto 60 with quiet_db. Qed.

#[local] Hint Resolve quiet_apps_setitem quiet_handle_of : quiet_db.
#[local] Hint Extern 2 (quiet (call_method _ _ _)) =>
  apply quiet_call_method; reflexivity : quiet_db.

Lemma quiet_connect_by_handle (handle : pyval) : quiet (connect_by_handle handle).
Proof. unfold connect_by_handle. eauto 60 with quiet_db. Qed.

#[local] Hint Resolve quiet_connect_by_handle : quiet_db.

Lemma quiet_open_dialog (title : pyval) (highlight : bool) :
  quiet (open_dialog title highlight).
Proof. unfold open_dialog. eauto 60 with quiet_db. Qed.

Lemma quiet_minimize_dialog (title : pyval) : quiet (minimize_dialog title).
Proof. unfold minimize_dialog. eauto 60 with quiet_db. Qed.

Lemma quiet_restore_dialog (title : pyval) : quiet (restore_dialog title).
Proof. unfold restore_dialog. eauto 60 with quiet_db. Qed.

Lemma quiet_get_app (app_id : option Z) : quiet (get_app app_id).
Proof. unfold get_app. eauto 60 with quiet_db. Qed.

#[local] Hint Resolve quiet_open_dialog quiet_minimize_dialog
  quiet_restore_dialog quiet_get_app : quiet_db.

Lemma quiet_quit (app_id : option Z) : quiet (quit app_id).
Proof. unfold quit. eauto 60 with quiet_db. Qed.

#[local] Hint Resolve quiet_quit : quiet_db.

Lemma quiet_quit_each (application_ids : list Z) :
  quiet (quit_each application_ids).
Proof.
  induction application_ids as [|aid rest IH]; simpl; eauto 60 with quiet_db.
Qed.

#[local] Hint Resolve quiet_quit_each : quiet_db.

Lemma quiet_close_all_applications : quiet close_all_applications.
Proof. unfold close_all_applications. eauto 60 with quiet_db. Qed.

Lemma quiet_switch_to_application (app_id : Z) :
  quiet (switch_to_application app_id).
Proof. unfold switch_to_application. eauto 60 with quiet_db. Qed.

Lemma quiet_add_app_instance (app_ : pyval) (dialog : bool)
    (params : option (gmap string pyval)) :
  quiet (_add_app_instance app_ dialog params).
Proof. unfold _add_app_instance. eauto 80 with quiet_db. Qed.

Lemma quiet_send_keys (keys : string) : quiet (send_keys keys).
Proof. by apply quiet_call. Qed.

#[local] Hint Resolve quiet_add_app_instance quiet_send_keys : quiet_db.

Lemma quiet_send_keys_to_input (keys : string) (with_enter : bool) (sd ed : Q) :
  quiet (send_keys_to_input keys with_enter sd ed).
Proof. unfold send_keys_to_input. eauto 60 with quiet_db. Qed.

#[local] Hint Resolve quiet_send_keys_to_input : quiet_db.

Lemma quiet_screenshot (filename : string) (e : element) :
  quiet (screenshot filename e).
Proof. unfold screenshot, makedirs_images. eauto 60 with quiet_db. Qed.

Lemma quiet_del (clear_clipboard : result unit) : quiet (__del__ clear_clipboard).
Proof. unfold __del__. eauto 60 with quiet_db. Qed.

#[local] Hint Resolve quiet_close_all_applications quiet_switch_to_application
  quiet_screenshot : quiet_db.


(** X18: what [mouse_click_locator] has done when it comes back, for a
    locator whose tag does not occur again in the value behind it.  If it
    returns [True], exactly one element matches the locator (as the
    specification reads it), its center [(x, y)] was computed, [x + off_x]
    and [y + off_y] are not negative, and the one click of a documented
    click type (none for another click type) was made there.  If it returns
    [False], the number of matching elements is not one and no click was
    made.  If it raises, no click was made. *)
Theorem locator_click_outcomes (elements : list element) (locator : string)
    (off_x off_y : Z) (ctype : string) (screenshot_ : bool) (w : Windows) :
  tag_repeats locator = false →
  let out := mouse_click_locator elements locator off_x off_y ctype screenshot_ w in
  (out.1 = Return true →
     ∃ e x y, filter (spec_matches locator) elements = [e] ∧
       get_element_center e = Return (x, y) ∧
       0 ≤ x + off_x ∧ 0 ≤ y + off_y ∧
       clicks out.2
         = clicks w ++ option_list (click_of ctype (x + off_x) (y + off_y))) ∧
  (out.1 = Return false →
     length (filter (spec_matches locator) elements) ≠ 1%nat ∧
     clicks out.2 = clicks w) ∧
  (∀ err, out.1 = Raise err → clicks out.2 = clicks w).
Proof.
  intros Htag. cbv zeta.
  rewrite <- !(filter_as_specified locator elements Htag).
  remember (mouse_click_locator elements locator off_x off_y ctype screenshot_ w)
    as out eqn:Hout.
  unfold mouse_click_locator in Hout. rewrite bind_read in Hout.
  unfold call_method, has_method in Hout.
  cbn [String.eqb Ascii.eqb Bool.eqb] in Hout.
  destruct (is_backend_object (dlg w)) eqn:Hdlg; [|stopped out].
  rewrite bind_call, bind_read in Hout.
  set (w0 := add_backend_call _ w) in Hout.
  assert (clicks w0 = clicks w) as Hw0.
  { unfold w0. by rewrite clicks_add_backend_call, app_nil_r. }
  pose proof (quiet_open_dialog (windowtitle w0) false w0) as Hopen.
  unfold mbind at 1, M_bind at 1, bind at 1 in Hout.
  destruct (open_dialog (windowtitle w0) false w0) as [[[]|err0] w1];
    cbn [snd] in Hopen; rewrite Hw0 in Hopen; [|stopped out].
  unfold matches_as_parsed.
  destruct (_determine_search_criteria locator) as [criteria value].
  pose proof (find_element_matching elements value criteria) as Hfind.
  destruct (find_element elements value criteria) as [matching locators].
  simpl in Hfind. subst matching. cbn [fst snd].
  destruct (filter _ elements) as [|e [|e' rest]];
    [stopped out | | stopped out].
  set (shot := if screenshot_ then screenshot ("locator_" +:+ value) e else ret tt)
    in Hout.
  assert (quiet shot) as Hshot by (unfold shot; destruct screenshot_;
                                     [apply quiet_screenshot | apply quiet_ret]).
  specialize (Hshot w1). rewrite Hopen in Hshot.
  unfold mbind at 1, M_bind at 1, bind at 1 in Hout.
  destruct (shot w1) as [[[]|err1] w2]; cbn [snd] in Hshot; [|stopped out].
  unfold mbind at 1, M_bind at 1, bind at 1, lift in Hout.
  destruct (get_element_center e) as [[x y]|err2] eqn:Hcenter; [|stopped out].
  unfold mbind at 1, M_bind at 1, bind at 1 in Hout.
  destruct (Z.lt_ge_cases (x + off_x) 0) as [Hx|Hx].
  { rewrite click_type_x_negative in Hout by done. stopped out. }
  destruct (Z.lt_ge_cases (y + off_y) 0) as [Hy|Hy].
  { rewrite click_type_y_negative in Hout by done. stopped out. }
  rewrite click_type_dispatch in Hout by done. subst out.
  split; [|by split].
  intros _. exists e, x, y. do 4 (split; [done |]).
  unfold delay. rewrite bind_call. cbn [ret snd].
  rewrite clicks_add_backend_call. cbn [is_click]. rewrite app_nil_r.
  destruct (click_of ctype (x + off_x) (y + off_y)) as [c|] eqn:Hc; simpl.
  - rewrite clicks_add_backend_call, Hshot.
    unfold click_of in Hc.
    by repeat destruct (String.eqb _ _); simplify_eq.
  - by rewrite app_nil_r.
Qed.

Lemma locator_click_outcomes_witness :
  let w := (open_executable "notepad.exe" "Untitled - Notepad" __init__).2 in
  let ok : element := {[ "name" := "OK"; "class_name" := "Button";
                         "rectangle" := "(L10, T20, R110, B220)" ]} in
  let cancel : element := {[ "name" := "Cancel"; "class_name" := "Button";
                             "rectangle" := "(L120, T20, R220, B220)" ]} in
  (∃ e x y, filter (spec_matches "name:OK") [ok; cancel] = [e] ∧
     get_element_center e = Return (x, y) ∧ 0 ≤ x + 5 ∧ 0 ≤ y + -5 ∧
     clicks (mouse_click_locator [ok; cancel] "name:OK" 5 (-5) "click" true w).2
       = clicks w ++ option_list (click_of "click" (x + 5) (y + -5))) ∧
  length (filter (spec_matches "class:Button") [ok; cancel]) ≠ 1%nat ∧
  clicks (mouse_click_locator [ok; cancel] "class:Button" 0 0 "click" false w).2
    = clicks w.
Proof.
  cbv zeta.
  set (w := (open_executable _ _ __init__).2).
  set (ok := ({[ "name" := "OK"; "class_name" := "Button";
                 "rectangle" := "(L10, T20, R110, B220)" ]} : element)).
  set (cancel := ({[ "name" := "Cancel"; "class_name" := "Button";
                     "rectangle" := "(L120, T20, R220, B220)" ]} : element)).
  destruct (locator_click_outcomes [ok; cancel] "name:OK" 5 (-5) "click" true w
              eq_refl) as [Htrue _].
  destruct (locator_click_outcomes [ok; cancel] "class:Button" 0 0 "click" false
              w eq_refl) as (_ & Hfalse & _).
  split; [apply Htrue | apply Hfalse]; vm_compute; reflexivity.
Defined.

(** ** The session records of the public methods *)

Lemma keeps_ret {A} (a : A) (P : A → Prop) : P a → keeps (ret a) P.
Proof. intros Ha w Hw. split; [done |]. by intros ? [= <-]. Qed.

Lemma keeps_raise {A} (e : exn) (P : A → Prop) : keeps (raise e) P.
Proof. intros w Hw. by split. Qed.

Lemma keeps_lift {A} (r : result A) : keeps (lift r) any_value.
Proof. intros w Hw. by split. Qed.

Lemma keeps_read {A} (f : Windows → A) : keeps (read f) any_value.
Proof. intros w Hw. by split. Qed.

Lemma keeps_read_app : keeps (read app) (λ a, is_handle a = true).
Proof.
  intros w Hw. split; [done |]. intros a [= <-]. by destruct Hw as (_ & _ & _ & ? & _).
Qed.

Lemma keeps_weaken {A} (m : M A) (P Q : A → Prop) :
  keeps m P → (∀ a, P a → Q a) → keeps m Q.
Proof. intros Hm HPQ w Hw. destruct (Hm w Hw) as [? HP]. split; eauto. Qed.

Lemma keeps_any {A} (m : M A) (P : A → Prop) : keeps m P → keeps m any_value.
Proof. intros Hm. by apply (keeps_weaken m P). Qed.

Lemma keeps_bind {A B} (m : M A) (k : A → M B) (P : A → Prop) (Q : B → Prop) :
  keeps m P → (∀ a, P a → keeps (k a) Q) → keeps (x ← m; k x) Q.
Proof.
  intros Hm Hk w Hw. destruct (Hm w Hw) as [Hw' HP].
  unfold mbind, M_bind, bind. destruct (m w) as [[a|e] w']; [|by split].
  apply Hk; [by apply HP | done].
Qed.

Lemma keeps_then {A B} (m : M A) (k : M B) (Q : B → Prop) :
  keeps m any_value → keeps k Q → keeps (m;; k) Q.
Proof. intros Hm Hk. by apply (keeps_bind m _ any_value). Qed.

Lemma keeps_fmap {A B} (f : A → B) (m : M A) : keeps m any_value → keeps (f <$> m) any_value.
Proof.
  intros Hm. apply (keeps_bind m _ any_value); [done |]. intros a _. by apply keeps_ret.
Qed.

Lemma keeps_update (f : Windows → Windows) :
  (∀ w, sessions_ok w → sessions_ok (f w)) → keeps (update f) any_value.
Proof. intros Hf w Hw. split; [by apply Hf | done]. Qed.

Lemma keeps_call (c : backend_call) : keeps (call c) any_value.
Proof. by apply keeps_update. Qed.

Lemma keeps_set_dlg (d : pyval) : keeps (update (set_dlg d)) any_value.
Proof. by apply keeps_update. Qed.

Lemma keeps_set_windowtitle (t : pyval) : keeps (update (set_windowtitle t)) any_value.
Proof. by apply keeps_update. Qed.

Lemma keeps_set_app (a : pyval) :
  is_handle a = true → keeps (update (set_app a)) any_value.
Proof.
  intros Ha. apply keeps_update. intros w (? & ? & ? & _ & ?).
  split; [done |]. split; [done |]. split; [done |]. by split.
Qed.

Lemma keeps_reset_active : keeps (update (set_active_app_instance (-1))) any_value.
Proof.
  apply keeps_update. intros w (? & ? & ? & ? & _).
  split; [done |]. split; [done |]. split; [done |]. split; [done |]. by left.
Qed.

Lemma keeps_getitem (rec : gmap string pyval) (key : string) (P : pyval → Prop) :
  (∀ v, rec !! key = Some v → P v) → keeps (getitem rec key) P.
Proof.
  intros HP. unfold getitem. destruct (rec !! key) as [v|].
  - apply keeps_ret. by apply HP.
  - apply keeps_raise.
Qed.

Lemma keeps_apps_getitem (key : pyval) :
  keeps (apps_getitem key) (λ rec, ∃ k, session_record k rec).
Proof.
  intros w Hw. unfold apps_getitem. rewrite bind_read.
  destruct (as_key key ≫= λ k, _apps w !! k) as [rec|] eqn:Hrec; [|by split].
  split; [done |]. intros ? [= <-].
  destruct (as_key key) as [k|]; [|done]. simpl in Hrec.
  exists k. by apply Hw.
Qed.

Lemma session_record_insert (k : Z) (rec : gmap string pyval) (field : string)
    (v : pyval) :
  field ≠ "id" → field ≠ "dispatched" →
  (field = "app" → is_handle v = true) →
  session_record k rec → session_record k (<[field := v]> rec).
Proof.
  intros Hid Hd Hv (Hi & [b Hb] & a & Ha & Hh).
  split; [by rewrite lookup_insert_ne |].
  split; [exists b; by rewrite lookup_insert_ne |].
  destruct (decide (field = "app")) as [->|Hne].
  - exists v. rewrite lookup_insert_eq. auto.
  - exists a. by rewrite lookup_insert_ne.
Qed.

Lemma keeps_apps_setitem (key : pyval) (field : string) (v : pyval) :
  field ≠ "id" → field ≠ "dispatched" →
  (field = "app" → is_handle v = true) →
  keeps (apps_setitem key field v) any_value.
Proof.
  intros Hid Hd Hv w Hw. unfold apps_setitem, apps_getitem. run_method.
  destruct (as_key key) as [k|]; run_method; [|by split].
  destruct (_apps w !! k) as [rec|] eqn:Hk; run_method; [|by split].
  split; [|done].
  destruct Hw as (Hcnt & Hdom & Hrec & Happ & Hact).
  split; [done |]. split; [|split; [|done]].
  - intros k'. simpl. rewrite lookup_insert, <- Hdom.
    case_decide; [subst|done]. rewrite Hk. split; by eexists.
  - intros k' rec'. simpl. rewrite lookup_insert.
    case_decide; [subst|by apply Hrec].
    intros [= <-]. apply session_record_insert; auto.
Qed.

Lemma keeps_call_method (obj : pyval) (name : string) (c : backend_call) :
  keeps (call_method obj name c) any_value.
Proof.
  unfold call_method. destruct (has_method obj name);
    [apply keeps_call | apply keeps_raise].
Qed.

Lemma keeps_handle_of (obj : pyval) : keeps (handle_of obj) any_value.
Proof.
  unfold handle_of. destruct (is_backend_object obj);
    [by apply keeps_ret | apply keeps_raise].
Qed.

Lemma keeps_delay (seconds : option Q) : keeps (delay seconds) any_value.
Proof. apply keeps_call. Qed.

Lemma keeps_connect_by_handle (handle : pyval) :
  keeps (connect_by_handle handle) any_value.
Proof.
  unfold connect_by_handle.
  apply keeps_then; [apply keeps_call |].
  apply keeps_then; [by apply keeps_set_app |].
  apply (keeps_bind _ _ any_value); [apply keeps_read |]. intros active _.
  apply (keeps_bind _ _ _ _ keeps_read_app). intros a Ha.
  by apply keeps_apps_setitem.
Qed.

Lemma keeps_open_dialog (title : pyval) (highlight : bool) :
  keeps (open_dialog title highlight) any_value.
Proof.
  unfold open_dialog.
  apply (keeps_bind _ _ any_value).
  { destruct (truthy title); [|apply keeps_read].
    apply keeps_then; [apply keeps_set_windowtitle | by apply keeps_ret]. }
  intros t _.
  apply keeps_then; [apply keeps_set_dlg |].
  apply (keeps_bind _ _ any_value); [apply keeps_read |]. intros active _.
  apply (keeps_bind _ _ any_value); [apply keeps_read |]. intros d _.
  apply keeps_then; [by apply keeps_apps_setitem |].
  apply (keeps_bind _ _ _ _ (keeps_apps_getitem _)). intros rec _.
  apply (keeps_bind _ _ any_value); [by apply keeps_getitem |]. intros a _.
  apply keeps_then.
  { case_bool_decide; [|by apply keeps_ret].
    apply (keeps_bind _ _ any_value); [apply keeps_read |]. intros d' _.
    apply (keeps_bind _ _ any_value); [apply keeps_handle_of |]. intros h _.
    apply keeps_connect_by_handle. }
  destruct highlight; [|by apply keeps_ret].
  apply (keeps_bind _ _ any_value); [apply keeps_read |]. intros d' _.
  apply keeps_call_method.
Qed.

Lemma keeps_minimize_dialog (title : pyval) : keeps (minimize_dialog title) any_value.
Proof.
  unfold minimize_dialog. apply keeps_then; [apply keeps_set_dlg |].
  apply (keeps_bind _ _ any_value); [apply keeps_read |]. intros d _.
  apply keeps_call_method.
Qed.

Lemma keeps_restore_dialog (title : pyval) : keeps (restore_dialog title) any_value.
Proof.
  unfold restore_dialog. apply keeps_then; [apply keeps_set_dlg |].
  apply (keeps_bind _ _ any_value); [apply keeps_read |]. intros d _.
  apply keeps_call_method.
Qed.

Lemma keeps_get_app (app_id : option Z) :
  keeps (get_app app_id) (λ rec, ∃ k, session_record k rec).
Proof.
  unfold get_app. apply (keeps_bind _ _ any_value); [apply keeps_read |].
  intros active _. destruct (_ && _); apply keeps_apps_getitem.
Qed.

Lemma keeps_quit (app_id : option Z) : keeps (quit app_id) any_value.
Proof.
  unfold quit. apply (keeps_bind _ _ _ _ (keeps_get_app _)). intros rec _.
  apply (keeps_bind _ _ any_value); [by apply keeps_getitem |]. intros i _.
  apply (keeps_bind _ _ any_value); [by apply keeps_getitem |]. intros d _.
  apply keeps_then.
  { destruct (truthy d).
    all: apply (keeps_bind _ _ any_value); [by apply keeps_getitem |]; intros a _.
    all: apply keeps_call_method. }
  apply keeps_then; [by apply keeps_apps_setitem |].
  apply keeps_reset_active.
Qed.

Lemma keeps_quit_each (application_ids : list Z) :
  keeps (quit_each application_ids) any_value.
Proof.
  induction application_ids as [|aid rest IH]; simpl.
  - by apply keeps_ret.
  - apply keeps_then; [apply keeps_quit | apply IH].
Qed.

Lemma keeps_close_all_applications : keeps close_all_applications any_value.
Proof.
  unfold close_all_applications.
  apply (keeps_bind _ _ any_value); [apply keeps_read |]. intros apps _.
  apply keeps_quit_each.
Qed.

Lemma keeps_switch_to_application (app_id : Z) :
  keeps (switch_to_application app_id) any_value.
Proof.
  intros w Hw. unfold switch_to_application. rewrite bind_read.
  destruct (negb (app_id =? 0) && bool_decide (app_id ∈ dom (_apps w)))
    eqn:Hcond; [|by split].
  apply andb_true_iff in Hcond as [_ Hreg%bool_decide_eq_true].
  apply elem_of_dom in Hreg as [rec Hrec].
  rewrite (bind_returns _ _ _ _ _ (get_app_registered _ _ _ Hrec)).
  change ((update (set_active_app_instance app_id);; ?k) w)
    with (k (set_active_app_instance app_id w)).
  assert (session_record app_id rec) as (_ & _ & a & Ha & Hh) by by apply Hw.
  apply (keeps_bind _ _ (λ v, is_handle v = true)).
  - apply keeps_getitem. intros v Hv. by simplify_eq.
  - intros v Hv. apply keeps_then; [by apply keeps_set_app |].
    apply (keeps_bind _ _ any_value); [by apply keeps_getitem |]. intros t _.
    apply keeps_then; [apply keeps_open_dialog |].
    apply keeps_then; [apply keeps_delay |].
    apply (keeps_bind _ _ any_value); [by apply keeps_getitem |]. intros t' _.
    apply keeps_restore_dialog.
  - destruct Hw as (Hcnt & Hdom & Hrecs & Happ & Hact).
    split; [done |]. split; [done |]. split; [done |]. split; [done |].
    right. apply Hdom. by eexists.
Qed.

(** Bodies that read no record go through step by step. *)
Create HintDb keeps_db discriminated.

#[local] Hint Resolve keeps_raise keeps_lift keeps_read keeps_call keeps_delay
  keeps_call_method keeps_open_dialog keeps_set_dlg keeps_set_windowtitle
  : keeps_db.
#[local] Hint Extern 1 (keeps (ret _) any_value) => by apply keeps_ret : keeps_db.
#[local] Hint Extern 2 (keeps (mbind _ _) any_value) =>
  apply (keeps_bind _ _ any_value); [|intros ? _] : keeps_db.
#[local] Hint Extern 2 (keeps (update _) any_value) =>
  apply keeps_update; by intros ? : keeps_db.
#[local] Hint Extern 3 (keeps (if ?b then _ else _) any_value) => destruct b : keeps_db.
#[local] Hint Extern 3 (keeps (match ?x with _ => _ end) any_value) =>
  destruct x : keeps_db.

Lemma keeps_send_keys (keys : string) : keeps (send_keys keys) any_value.
Proof. apply keeps_call. Qed.

#[local] Hint Resolve keeps_send_keys : keeps_db.

Lemma keeps_send_keys_to_input (keys : string) (with_enter : bool) (sd ed : Q) :
  keeps (send_keys_to_input keys with_enter sd ed) any_value.
Proof. unfold send_keys_to_input. eauto 60 with keeps_db. Qed.

Lemma keeps_lt_0 (v : option Z) : keeps (lt_0 v) any_value.
Proof. unfold lt_0. eauto 60 with keeps_db. Qed.

#[local] Hint Resolve keeps_send_keys_to_input keeps_lt_0 : keeps_db.

Lemma keeps_click_type (x y : option Z) (ctype : string) :
  keeps (click_type x y ctype) any_value.
Proof. unfold click_type. eauto 60 with keeps_db. Qed.

Lemma keeps_screenshot (filename : string) (e : element) :
  keeps (screenshot filename e) any_value.
Proof. unfold screenshot, makedirs_images. eauto 60 with keeps_db. Qed.

#[local] Hint Resolve keeps_click_type keeps_screenshot : keeps_db.

Lemma keeps_mouse_click_locator (elements : list element) (locator : string)
    (off_x off_y : Z) (ctype : string) (screenshot_ : bool) :
  keeps (mouse_click_locator elements locator off_x off_y ctype screenshot_) any_value.
Proof.
  unfold mouse_click_locator.
  destruct (_determine_search_criteria locator) as [criteria value].
  destruct (find_element elements value criteria) as [matching locators].
  eauto 80 with keeps_db.
Qed.

#[local] Hint Resolve keeps_mouse_click_locator : keeps_db.

Lemma keeps_mouse_click (elements : list element) (locator : string)
    (x y : option Z) (off_x off_y : Z) (method ctype : string)
    (screenshot_ : bool) :
  keeps (mouse_click elements locator x y off_x off_y method ctype screenshot_)
    any_value.
Proof.
  unfold mouse_click, mouse_click_coords, mouse_click_image, mouse_click_ocr.
  eauto 60 with keeps_db.
Qed.

Lemma merged_record_session (id : Z) (a : pyval)
    (params : option (gmap string pyval)) :
  is_handle a = true → public_params params →
  merged_record id a params !! "app" = Some a ∧
  session_record id (merged_record id a params).
Proof.
  intros Ha Hp. unfold merged_record.
  set (default_params :=
         ({[ "app" := a; "id" := VInt id; "dispatched" := VBool false ]}
          : gmap string pyval)).
  assert (default_params !! "app" = Some a ∧ session_record id default_params)
    as Hdefault.
  { split; [done |]. split; [done |]. split; [by exists false |]. by exists a. }
  destruct params as [p|]; [|done]. case_bool_decide; [|done].
  destruct (Hp p eq_refl) as (Hid & Happ & Hd).
  assert ((p ∪ default_params) !! "app" = Some a) as Hu
    by (by rewrite lookup_union_r).
  split; [done |]. split; [by rewrite lookup_union_r |].
  split; [|by exists a].
  destruct Hd as [Hd|[b Hb]].
  - exists false. by rewrite lookup_union_r.
  - exists b. by erewrite lookup_union_Some_l.
Qed.

Lemma registered_sessions_ok (a : pyval) (rec : gmap string pyval) (w : Windows) :
  is_handle a = true → session_record (_app_instance_id w + 1) rec →
  sessions_ok w → sessions_ok (registered (_app_instance_id w + 1) a rec w).
Proof.
  intros Ha Hrec (Hcnt & Hdom & Hrecs & Happ & Hact).
  unfold registered, sessions_ok. simpl.
  split; [lia |]. split; [|split; [|split; [done | right; lia]]].
  - intros k. rewrite lookup_insert. case_decide.
    + subst k. split; [lia | by eexists].
    + rewrite Hdom. lia.
  - intros k rec'. rewrite lookup_insert. case_decide.
    + subst k. by intros [= <-].
    + apply Hrecs.
Qed.

Lemma keeps_add_app_instance (app_ : pyval) (dialog : bool)
    (params : option (gmap string pyval)) :
  is_handle app_ = true → public_params params →
  keeps (_add_app_instance app_ dialog params) any_value.
Proof.
  intros Happ_ Hp w Hw. split; [|done].
  set (id := _app_instance_id w + 1).
  set (a := if bool_decide (app_ = VNone) then app w else app_).
  assert (is_handle a = true) as Ha.
  { unfold a. case_bool_decide; [by destruct Hw as (_ & _ & _ & ? & _) | done]. }
  destruct (merged_record_session id a params Ha Hp) as [Hlook Hrec].
  rewrite (add_app_instance_exact app_ dialog params a w Hlook).
  pose proof (registered_sessions_ok a _ w Ha Hrec Hw) as Hreg.
  fold id a in Hreg |- *. cbn [snd].
  destruct dialog; [|done].
  set (t := default VNone _).
  assert (open_dialog t false (registered id a (merged_record id a params) w)
          = (Return tt,
             after_open_dialog t false (merged_record id a params) a
               (registered id a (merged_record id a params) w))) as Hopen.
  { apply open_dialog_exact; [apply lookup_insert_eq | done]. }
  destruct (keeps_open_dialog t false _ Hreg) as [Hok _].
  by rewrite Hopen in Hok.
Qed.

Lemma keeps_exec (c : method_call) : public c = true → keeps (exec c) any_value.
Proof.
  intros Hc. destruct c; simpl in *; try discriminate.
  - apply keeps_fmap. unfold open_application.
    apply keeps_then; [apply keeps_call |].
    apply keeps_then; [apply keeps_call |].
    apply (keeps_bind _ _ any_value); [apply keeps_read |]. intros held _.
    apply keeps_then;
      [destruct (is_backend_object held);
       [apply keeps_call | by apply keeps_ret] |].
    apply keeps_add_app_instance; [done |].
    intros p [= <-]. split; [done |]. split; [done |]. right. by exists true.
  - apply keeps_fmap. unfold open_executable.
    apply keeps_then; [apply keeps_set_windowtitle |].
    apply keeps_then; [apply keeps_call |].
    apply keeps_add_app_instance; [done |].
    intros p [= <-]. split; [done |]. split; [done |]. by left.
  - apply keeps_fmap. unfold open_using_run_dialog.
    apply keeps_then; [apply keeps_send_keys |].
    apply keeps_then; [apply keeps_delay |].
    apply keeps_then; [apply keeps_send_keys_to_input |].
    apply keeps_add_app_instance; [done |].
    intros p [= <-]. split; [done |]. split; [done |]. by left.
  - apply keeps_fmap. unfold open_from_search.
    apply keeps_then; [apply keeps_send_keys |].
    apply keeps_then; [apply keeps_delay |].
    apply keeps_then; [apply keeps_send_keys_to_input |].
    apply keeps_add_app_instance; [done |].
    intros p [= <-]. split; [done |]. split; [done |]. by left.
  - apply keeps_then; [apply keeps_switch_to_application | by apply keeps_ret].
  - apply keeps_then; [apply keeps_quit | by apply keeps_ret].
  - apply keeps_then; [apply keeps_close_all_applications | by apply keeps_ret].
  - apply keeps_then; [apply keeps_open_dialog | by apply keeps_ret].
  - apply keeps_then; [apply keeps_minimize_dialog | by apply keeps_ret].
  - apply keeps_then; [apply keeps_restore_dialog | by apply keeps_ret].
  - apply keeps_then; [apply keeps_connect_by_handle | by apply keeps_ret].
  - apply keeps_then; [apply keeps_send_keys | by apply keeps_ret].
  - apply keeps_then; [apply keeps_send_keys_to_input | by apply keeps_ret].
  - apply keeps_then; [apply keeps_mouse_click | by apply keeps_ret].
Qed.

Lemma sessions_ok_init : sessions_ok __init__.
Proof.
  split; [done |]. split; [|split; [|split; [done | by left]]].
  - intros k. cbn [_apps __init__ _app_instance_id].
    rewrite lookup_empty. split; [by intros [? ?] | lia].
  - intros k rec. cbn [_apps __init__]. by rewrite lookup_empty.
Qed.

Lemma run_sessions_ok (cs : list method_call) (w : Windows) :
  forallb public cs = true → sessions_ok w → sessions_ok (run cs w).2.
Proof.
  revert w. induction cs as [|c cs IH]; intros w Hcs Hw; [done |].
  cbn [forallb] in Hcs. apply andb_true_iff in Hcs as [Hc Hcs].
  cbn [run]. destruct (keeps_exec c Hc w Hw) as [Hw' _].
  destruct (exec c w) as [r w']. specialize (IH w' Hcs Hw').
  by destruct (run cs w') as [ids w''].
Qed.

(** X19: after any sequence of public calls on a fresh object, each
    returning or raising, the counter is not negative, the registered ids
    are exactly 1 to the counter, every record holds its own id, a boolean
    dispatch flag and a handle that is [None] or an application object, and
    the active pointer is -1 or one of the registered ids. *)
Theorem public_calls_keep_sessions (cs : list method_call) :
  forallb public cs = true →
  let w := (run cs __init__).2 in
  0 ≤ _app_instance_id w ∧
  (∀ k, is_Some (_apps w !! k) ↔ 1 ≤ k ≤ _app_instance_id w) ∧
  (∀ k rec, _apps w !! k = Some rec → session_record k rec) ∧
  is_handle (app w) = true ∧
  (_active_app_instance w = -1 ∨
   1 ≤ _active_app_instance w ≤ _app_instance_id w).
Proof. intros Hcs. apply run_sessions_ok; [done | apply sessions_ok_init]. Qed.

Lemma public_calls_keep_sessions_witness :
  let w := (run [Call_open_application "Excel";
                 Call_open_executable "notepad.exe" "Untitled - Notepad";
                 Call_quit (Some 1);
                 Call_open_using_run_dialog "calc.exe" "Calculator";
                 Call_switch_to_application 7] __init__).2 in
  0 ≤ _app_instance_id w ∧
  (∀ k, is_Some (_apps w !! k) ↔ 1 ≤ k ≤ _app_instance_id w) ∧
  (∀ k rec, _apps w !! k = Some rec → session_record k rec) ∧
  is_handle (app w) = true ∧
  (_active_app_instance w = -1 ∨
   1 ≤ _active_app_instance w ≤ _app_instance_id w).
Proof.
  exact (public_calls_keep_sessions
           [Call_open_application "Excel";
            Call_open_executable "notepad.exe" "Untitled - Notepad";
            Call_quit (Some 1);
            Call_open_using_run_dialog "calc.exe" "Calculator";
            Call_switch_to_application 7] eq_refl).
Defined.

(** X20: after any sequence of public calls on a fresh object, [quit] on
    an id from 1 to the counter never fails to find the session.  When the
    record's handle has the method called under the record's flag ([Quit]
    on a COM object with a true flag, [kill] on a pywinauto [Application]
    with a false one), that one call is made, the handle is cleared and the
    active pointer reset.  Otherwise (the handle was cleared by an earlier
    [quit], or it is of the other kind) [AttributeError] is raised and
    nothing changes. *)
Theorem quit_handed_out_id (cs : list method_call) (k : Z) :
  forallb public cs = true →
  let w := (run cs __init__).2 in
  1 ≤ k ≤ _app_instance_id w →
  ∃ rec a b,
    _apps w !! k = Some rec ∧ rec !! "app" = Some a ∧
    rec !! "dispatched" = Some (VBool b) ∧
    if has_method a (terminate_method (VBool b))
    then quit (Some k) w
         = (Return tt,
            set_active_app_instance (-1)
              (set_apps (<[k := <["app" := VNone]> rec]> (_apps w))
                 (add_backend_call (if b then App_Quit a else App_kill a) w)))
    else ∃ e, exn_type e = AttributeError ∧ quit (Some k) w = (Raise e, w).
Proof.
  intros Hcs w Hk.
  destruct (run_sessions_ok cs __init__ Hcs sessions_ok_init)
    as (_ & Hdom & Hrecs & _). fold w in Hdom, Hrecs.
  apply Hdom in Hk as [rec Hrec].
  destruct (Hrecs k rec Hrec) as (Hid & [b Hb] & a & Ha & Hh).
  exists rec, a, b. do 3 (split; [done |]).
  destruct (has_method a (terminate_method (VBool b))) eqn:Hm.
  - destruct (quit_live k rec w Hrec) as (c & Hc & ->).
    { split; [done |]. by exists (VBool b), a. }
    unfold terminate_call in Hc. rewrite Hb, Ha in Hc. simpl in Hc.
    injection Hc as <-. reflexivity.
  - apply (quit_stuck_session k rec w Hrec).
    split; [by eexists |]. by exists (VBool b), a.
Qed.

Lemma quit_handed_out_id_witness :
  let w := (run [Call_open_application "Excel";
                 Call_open_using_run_dialog "calc.exe" "Calculator"]
                __init__).2 in
  (∃ e, exn_type e = AttributeError ∧ quit (Some 2) w = (Raise e, w)) ∧
  backend_calls (quit (Some 1) w).2
    = backend_calls w ++ [App_Quit (VDispatch "Excel")].
Proof.
  cbv zeta.
  set (w := (run _ __init__).2).
  destruct (quit_handed_out_id
              [Call_open_application "Excel";
               Call_open_using_run_dialog "calc.exe" "Calculator"] 2 eq_refl)
    as (rec2 & a2 & b2 & Hrec2 & Ha2 & Hb2 & Hq2); [by vm_compute |].
  destruct (quit_handed_out_id
              [Call_open_application "Excel";
               Call_open_using_run_dialog "calc.exe" "Calculator"] 1 eq_refl)
    as (rec1 & a1 & b1 & Hrec1 & Ha1 & Hb1 & Hq1); [by vm_compute |].
  fold w in Hrec1, Hq1, Hrec2, Hq2.
  vm_compute in Hrec1, Hrec2.
  injection Hrec1 as <-. injection Hrec2 as <-.
  vm_compute in Ha1, Ha2, Hb1, Hb2.
  injection Ha1 as <-. injection Ha2 as <-.
  injection Hb1 as <-. injection Hb2 as <-.
  split; [exact Hq2 |]. cbn [has_method terminate_method] in Hq1.
  simpl in Hq1. by rewrite Hq1.
Defined.

(** ** Writing a locator and reading it back *)

(** X21: a criterion's tag written in front of a value in which that tag
    does not occur is read back by [_determine_search_criteria] as that
    criterion and that value. *)
Theorem locator_round_trip (criteria tag value : string) :
  tag_of criteria = Some tag → contains tag value = false →
  _determine_search_criteria (tag +:+ value) = (criteria, value).
Proof.
  unfold tag_of.
  destruct (determine_search_criteria_tag_once value) as (Hn & Hc & Ht & Hi).
  destruct (String.eqb_spec criteria "name") as [->|_];
    [intros [= <-]; auto |].
  destruct (String.eqb_spec criteria "class_name") as [->|_];
    [intros [= <-]; auto |].
  destruct (String.eqb_spec criteria "control_type") as [->|_];
    [intros [= <-]; auto |].
  destruct (String.eqb_spec criteria "automation_id") as [->|_];
    [intros [= <-]; auto |].
  by intros ?.
Qed.

Lemma locator_round_trip_witness :
  _determine_search_criteria ("type:" +:+ "name:File") = ("control_type", "name:File").
Proof. apply locator_round_trip; reflexivity. Defined.

(** ** Dialog calls without a session *)

(** X22: when the active pointer is not in the registry (a fresh object,
    or after [quit]), [open_dialog] raises [KeyError] with the active pointer
    after it has replaced the object's dialog and window title, and
    [connect_by_handle] raises it after it has connected to the application
    and replaced the object's handle. *)
Theorem dialog_calls_without_session (title handle : pyval) (highlight : bool)
    (w : Windows) :
  _apps w !! _active_app_instance w = None →
  open_dialog title highlight w
  = (Raise (Exn KeyError (pretty (_active_app_instance w))),
     mkWindows (_apps w) (_app_instance_id w) (_active_app_instance w) (app w)
       (VWindow (dialog_title title w)) (dialog_title title w)
       (backend_calls w) (debug_log w)) ∧
  connect_by_handle handle w
  = (Raise (Exn KeyError (pretty (_active_app_instance w))),
     mkWindows (_apps w) (_app_instance_id w) (_active_app_instance w)
       (VConnected handle) (dlg w) (windowtitle w)
       (backend_calls w ++ [Application_connect handle]) (debug_log w)).
Proof.
  intros Hnone. split.
  - unfold open_dialog, apps_setitem, apps_getitem, dialog_title.
    destruct (truthy title); run_method; by rewrite Hnone.
  - unfold connect_by_handle, apps_setitem, apps_getitem. run_method.
    by rewrite Hnone.
Qed.

Lemma dialog_calls_without_session_witness :
  (open_dialog (VStr "Untitled - Notepad") false __init__).1
    = Raise (Exn KeyError "-1") ∧
  backend_calls (connect_by_handle (VWindow (VStr "Calculator")) __init__).2
    = [Application_connect (VWindow (VStr "Calculator"))].
Proof.
  destruct (dialog_calls_without_session (VStr "Untitled - Notepad")
              (VWindow (VStr "Calculator")) false __init__) as [Ho Hc];
    [reflexivity |].
  rewrite Ho, Hc. split; reflexivity.
Defined.

(** ** The dialog attribute *)

(** [self.dlg] is assigned in [open_dialog], [minimize_dialog] and
    [restore_dialog] only, each time a window of the desktop: the methods
    [has_method] grants to every backend object are never called on
    anything but [None] or a window. *)
Create HintDb dlg_db discriminated.

Lemma keeps_dlg_ret {A} (a : A) : keeps_dlg (ret a).
Proof. by intros w. Qed.

Lemma keeps_dlg_raise {A} (e : exn) : keeps_dlg (@raise A e).
Proof. by intros w. Qed.

Lemma keeps_dlg_read {A} (f : Windows → A) : keeps_dlg (read f).
Proof. by intros w. Qed.

Lemma keeps_dlg_lift {A} (r : result A) : keeps_dlg (lift r).
Proof. by intros w. Qed.

Lemma keeps_dlg_update (f : Windows → Windows) :
  (∀ w, dlg_is_window w → dlg_is_window (f w)) → keeps_dlg (update f).
Proof. intros Hf w Hw. by apply Hf. Qed.

Lemma keeps_dlg_call (c : backend_call) : keeps_dlg (call c).
Proof. by apply keeps_dlg_update. Qed.

Lemma keeps_dlg_bind {A B} (m : M A) (k : A → M B) :
  keeps_dlg m → (∀ a, keeps_dlg (k a)) → keeps_dlg (x ← m; k x).
Proof.
  intros Hm Hk w Hw. specialize (Hm w Hw).
  unfold mbind, M_bind, bind. destruct (m w) as [[a|e] w']; [|done].
  by apply Hk.
Qed.

Lemma keeps_dlg_fmap {A B} (f : A → B) (m : M A) :
  keeps_dlg m → keeps_dlg (f <$> m).
Proof. intros Hm. apply keeps_dlg_bind; [done |]. intros a. apply keeps_dlg_ret. Qed.

#[local] Hint Resolve keeps_dlg_ret keeps_dlg_raise keeps_dlg_read keeps_dlg_lift
  keeps_dlg_call : dlg_db.
#[local] Hint Extern 2 (keeps_dlg (mbind _ _)) =>
  apply keeps_dlg_bind; [|intros ?] : dlg_db.
#[local] Hint Extern 2 (keeps_dlg (fmap _ _)) => apply keeps_dlg_fmap : dlg_db.
#[local] Hint Extern 2 (keeps_dlg (update _)) =>
  apply keeps_dlg_update; by intros ? : dlg_db.
#[local] Hint Extern 2 (keeps_dlg (delay _)) => apply keeps_dlg_call : dlg_db.
#[local] Hint Extern 3 (keeps_dlg (if ?b then _ else _)) => destruct b : dlg_db.
#[local] Hint Extern 3 (keeps_dlg (match ?x with _ => _ end)) =>
  destruct x : dlg_db.

Lemma keeps_dlg_apps_setitem (key : pyval) (field : string) (v : pyval) :
  keeps_dlg (apps_setitem key field v).
Proof. unfold apps_setitem, apps_getitem. eauto 60 with dlg_db. Qed.

#[local] Hint Resolve keeps_dlg_apps_setitem : dlg_db.

Lemma keeps_dlg_open_dialog (title : pyval) (highlight : bool) :
  keeps_dlg (open_dialog title highlight).
Proof.
  unfold open_dialog, connect_by_handle, handle_of, call_method, apps_getitem,
    getitem.
  eauto 80 with dlg_db.
Qed.

#[local] Hint Resolve keeps_dlg_open_dialog : dlg_db.

Lemma keeps_dlg_quit (app_id : option Z) : keeps_dlg (quit app_id).
Proof.
  unfold quit, get_app, call_method, apps_getitem, getitem.
  eauto 80 with dlg_db.
Qed.

#[local] Hint Resolve keeps_dlg_quit : dlg_db.

Lemma keeps_dlg_quit_each (application_ids : list Z) :
  keeps_dlg (quit_each application_ids).
Proof.
  induction application_ids as [|aid rest IH]; simpl; eauto 60 with dlg_db.
Qed.

Lemma keeps_dlg_add_app_instance (app_ : pyval) (dialog : bool)
    (params : option (gmap string pyval)) :
  keeps_dlg (_add_app_instance app_ dialog params).
Proof. unfold _add_app_instance, apps_getitem. eauto 80 with dlg_db. Qed.

#[local] Hint Resolve keeps_dlg_quit_each keeps_dlg_add_app_instance : dlg_db.

Lemma keeps_dlg_mouse_click_locator (elements : list element) (locator : string)
    (off_x off_y : Z) (ctype : string) (screenshot_ : bool) :
  keeps_dlg (mouse_click_locator elements locator off_x off_y ctype screenshot_).
Proof.
  unfold mouse_click_locator, call_method.
  destruct (_determine_search_criteria locator) as [criteria value].
  destruct (find_element elements value criteria) as [matching locators].
  unfold screenshot, makedirs_images, click_type, lt_0.
  eauto 80 with dlg_db.
Qed.

#[local] Hint Resolve keeps_dlg_mouse_click_locator : dlg_db.

Lemma keeps_dlg_exec (c : method_call) : keeps_dlg (exec c).
Proof.
  destruct c; unfold exec, open_application, open_executable,
    open_using_run_dialog, open_from_search, switch_to_application,
    close_all_applications, minimize_dialog, restore_dialog, connect_by_handle,
    send_keys_to_input, send_keys, mouse_click, mouse_click_coords,
    mouse_click_image, mouse_click_ocr, click_type, lt_0, get_app, call_method,
    apps_getitem, getitem.
  all: eauto 80 with dlg_db.
Qed.

(** Along any sequence of calls, each returning or raising, [self.dlg]
    holds [None] or a window if it did before, as it does on a fresh
    object. *)
Lemma run_dlg_is_window (cs : list method_call) (w : Windows) :
  dlg_is_window w → dlg_is_window (run cs w).2.
Proof.
  revert w. induction cs as [|c cs IH]; intros w Hw; [done |].
  cbn [run]. pose proof (keeps_dlg_exec c w Hw) as Hw'.
  destruct (exec c w) as [r w']. specialize (IH w' Hw').
  by destruct (run cs w') as [ids w''].
Qed.
